(** * webrtc-testing: bundled signalling and the link probe

    A shallow embedding of [p2p-exchange/script.js], [p2p-exchange/utils.js]
    and [p2p-exchange/speed-test.js].

    The scripts are event driven: every entry point (a button handler, a
    promise continuation, a timer callback, a channel or connection callback)
    runs to completion on one thread and mutates the globals [peer],
    [speedTest], [currentPeer] and the page.  The embedding keeps that shape:
    one [World] record holds the globals, the page, the timer table and the
    promise continuations that are waiting for the transport, and every entry
    point is a computation in a state-and-exception monad over [World].

    Conventions.
    - JavaScript numbers are idealised: a finite double is a real number and
      rounding and overflow are not modelled, but the non-finite values
      [NaN], [+Infinity], [-Infinity] and the divisions that produce them are.
      Values that are integers by construction ([Date.now()], string lengths,
      byte counters, timer handles) are kept in [Z], [nat] or [positive].
    - A character of a Rocq string stands for one code unit of a JavaScript
      string.
    - The page is assumed to declare every element the scripts look up, so
      [document.getElementById] is total; layout-only properties
      ([scrollTop]) are left out.
    - Built-ins whose result the scripts only pass along ([JSON.parse],
      [JSON.stringify], [parseInt], [Math.random]) are fields of a [Host]
      record; [RefHost] gives one executable host.
    - [Date.now()] reads the field [clock], which stays fixed while one entry
      point runs and is set by the [ClockReads] event.
    - [facade] lists the signalling calls; [getStats()] is not entered in
      it, and [showSelectedCandidates] is given the settlement of that
      promise as an argument.
    - The tab functions touch the class lists of the page, the location
      hash and [currentPeer] only, and are embedded over a view of their
      own, [Tabs.View].
    - Left out: [copyToClipboard], [initSpeedTest], [addSpeedTestUI] and
      the [DOMContentLoaded] listeners, which build markup or use the
      clipboard. *)

From Stdlib Require Import Reals Lra ZArith List String Ascii Bool.
From stdpp Require Import gmap strings list pretty.

Local Open Scope string_scope.
Set Warnings "-register-all".

(** ** JavaScript numbers *)

Module JsNum.

Inductive number : Type :=
| Fin (r : R)
| PInf
| NInf
| NaN.

Definition of_Z (z : Z) : number := Fin (IZR z).
Definition of_nat (n : nat) : number := Fin (INR n).

Definition is_finite (x : number) : bool :=
  match x with Fin _ => true | _ => false end.

Definition neg (x : number) : number :=
  match x with
  | Fin r => Fin (- r)
  | PInf => NInf
  | NInf => PInf
  | NaN => NaN
  end.

(** [a + b] *)
Definition add (a b : number) : number :=
  match a, b with
  | NaN, _ | _, NaN => NaN
  | Fin x, Fin y => Fin (x + y)
  | PInf, NInf | NInf, PInf => NaN
  | PInf, _ | _, PInf => PInf
  | NInf, _ | _, NInf => NInf
  end.

(** [a - b] *)
Definition sub (a b : number) : number := add a (neg b).

(** The infinity whose sign is the sign of [r], flipped when [pos] is
    false; [r] is not zero at the call sites. *)
Definition signed_inf (pos : bool) (r : R) : number :=
  if Rlt_dec 0 r then (if pos then PInf else NInf)
  else (if pos then NInf else PInf).

(** [a * b] *)
Definition mul (a b : number) : number :=
  match a, b with
  | NaN, _ | _, NaN => NaN
  | Fin x, Fin y => Fin (x * y)
  | Fin x, PInf | PInf, Fin x =>
      if Req_dec_T x 0 then NaN else signed_inf true x
  | Fin x, NInf | NInf, Fin x =>
      if Req_dec_T x 0 then NaN else signed_inf false x
  | PInf, PInf | NInf, NInf => PInf
  | PInf, NInf | NInf, PInf => NInf
  end.

(** [a / b]; the sign of a zero is not tracked, a zero divisor counts as
    [+0]. *)
Definition div (a b : number) : number :=
  match a, b with
  | NaN, _ | _, NaN => NaN
  | Fin x, Fin y =>
      if Req_dec_T y 0
      then (if Req_dec_T x 0 then NaN else signed_inf true x)
      else Fin (x / y)
  | Fin _, (PInf | NInf) => Fin 0
  | PInf, Fin y => if Rlt_dec y 0 then NInf else PInf
  | NInf, Fin y => if Rlt_dec y 0 then PInf else NInf
  | (PInf | NInf), (PInf | NInf) => NaN
  end.

(** [a > b] *)
Definition gt (a b : number) : bool :=
  match a, b with
  | NaN, _ | _, NaN => false
  | Fin x, Fin y => if Rlt_dec y x then true else false
  | PInf, PInf => false
  | PInf, _ => true
  | _, NInf => match a with NInf => false | _ => true end
  | _, _ => false
  end.

(** [Math.pow(a, 2)] *)
Definition pow2 (a : number) : number :=
  match a with
  | Fin x => Fin (x * x)
  | PInf | NInf => PInf
  | NaN => NaN
  end.

(** [Math.sqrt(a)] *)
Definition sqrt (a : number) : number :=
  match a with
  | Fin x => if Rlt_dec x 0 then NaN else Fin (R_sqrt.sqrt x)
  | PInf => PInf
  | NInf | NaN => NaN
  end.

(** [Math.min(a, b)] and [Math.max(a, b)] *)
Definition min2 (a b : number) : number :=
  match a, b with
  | NaN, _ | _, NaN => NaN
  | NInf, _ | _, NInf => NInf
  | PInf, x | x, PInf => x
  | Fin x, Fin y => Fin (Rmin x y)
  end.

Definition max2 (a b : number) : number :=
  match a, b with
  | NaN, _ | _, NaN => NaN
  | PInf, _ | _, PInf => PInf
  | NInf, x | x, NInf => x
  | Fin x, Fin y => Fin (Rmax x y)
  end.

(** [Math.min(...xs)] and [Math.max(...xs)]: the fold starts from the
    value the call has with no argument. *)
Definition Math_min (xs : list number) : number := fold_left min2 xs PInf.
Definition Math_max (xs : list number) : number := fold_left max2 xs NInf.

(** [xs.reduce((a, b) => a + b, 0)] *)
Definition sum (xs : list number) : number := fold_left add xs (Fin 0).

End JsNum.

(** ** Strings *)

Module JsString.

Definition chars (s : string) : list ascii := list_ascii_of_string s.
Definition of_chars (l : list ascii) : string := string_of_list_ascii l.

(** White space and line terminators removed by [String.prototype.trim],
    among the code units a character can stand for: tab, line feed,
    vertical tab, form feed, carriage return, space and the no-break space
    U+00A0.  (The others, U+FEFF, U+2028, U+2029 and the space separators
    from U+1680 on, are above 255.) *)
Definition is_space (c : ascii) : bool :=
  let n := nat_of_ascii c in
  ((9 <=? n)%nat && (n <=? 13)%nat) || (n =? 32)%nat || (n =? 160)%nat.

Fixpoint drop_spaces (l : list ascii) : list ascii :=
  match l with
  | c :: r => if is_space c then drop_spaces r else l
  | [] => []
  end.

(** [s.trim()] *)
Definition trim (s : string) : string :=
  of_chars (rev (drop_spaces (rev (drop_spaces (chars s))))).

Fixpoint starts_with (p l : list ascii) : bool :=
  match p, l with
  | [], _ => true
  | a :: p', b :: l' => if Ascii.eqb a b then starts_with p' l' else false
  | _ :: _, [] => false
  end.

Fixpoint includes_chars (sub l : list ascii) : bool :=
  starts_with sub l ||
  match l with
  | [] => false
  | _ :: r => includes_chars sub r
  end.

(** [s.includes(sub)] *)
Definition includes (s sub : string) : bool := includes_chars (chars sub) (chars s).

(** [s.split(' ')] *)
Fixpoint split_chars (cur : list ascii) (l : list ascii) : list string :=
  match l with
  | [] => [of_chars (rev cur)]
  | c :: r =>
      if Ascii.eqb c " "%char
      then of_chars (rev cur) :: split_chars [] r
      else split_chars (c :: cur) r
  end.

Definition split_space (s : string) : list string := split_chars [] (chars s).

Definition is_lower (c : ascii) : bool :=
  let n := nat_of_ascii c in (97 <=? n)%nat && (n <=? 122)%nat.
Definition is_upper (c : ascii) : bool :=
  let n := nat_of_ascii c in (65 <=? n)%nat && (n <=? 90)%nat.

Definition upper_char (c : ascii) : ascii :=
  if is_lower c then ascii_of_nat (nat_of_ascii c - 32) else c.
Definition lower_char (c : ascii) : ascii :=
  if is_upper c then ascii_of_nat (nat_of_ascii c + 32) else c.

(** [s.toUpperCase()] and [s.toLowerCase()] on the letters a to z *)
Definition toUpperCase (s : string) : string := of_chars (map upper_char (chars s)).
Definition toLowerCase (s : string) : string := of_chars (map lower_char (chars s)).

(** [s.replace(/[^a-z]/g, '')] *)
Definition keep_lower (s : string) : string := of_chars (filter is_lower (chars s)).

(** [parts[i] || dflt]: a missing or empty part gives the default. *)
Definition part_or (parts : list string) (i : nat) (dflt : string) : string :=
  match nth_error parts i with
  | Some p => if String.eqb p EmptyString then dflt else p
  | None => dflt
  end.

(** [c.repeat(n)] for a one-character string *)
Definition repeat_char (c : ascii) (n : nat) : string := of_chars (repeat c n).

End JsString.

(** ** Values read from the wire *)

Module Js.

Import JsNum.

(** What [JSON.parse] returns.  Numbers on the wire formats of the two
    protocols are integers (identifiers, millisecond timestamps, indices). *)
Inductive JValue : Type :=
| JNull
| JBool (b : bool)
| JNum (z : Z)
| JStr (s : string)
| JArr (items : list JValue)
| JObj (props : list (string * JValue)).

(** A JavaScript value as the scripts see it: [None] is [undefined]. *)
Abbreviation value := (option JValue).

Inductive exn : Type :=
| SyntaxError (message : string)
| TypeError (message : string)
| DOMException (message : string).

(** [error.message] *)
Definition message (e : exn) : string :=
  match e with
  | SyntaxError m | TypeError m | DOMException m => m
  end.

(** An object literal or a parsed object keeps its properties in source
    order; when a name occurs twice the later one wins. *)
Definition obj_get (props : list (string * JValue)) (k : string) : value :=
  fold_left (fun acc kv => if String.eqb (fst kv) k then Some (snd kv) else acc)
            props None.

(** [v.k] for the property names the scripts read: own properties of an
    object, [length] of an array or a string.  Reading a property of
    [null] or [undefined] throws. *)
Definition prop (v : value) (k : string) : exn + value :=
  match v with
  | None => inl (TypeError ("Cannot read properties of undefined (reading '" ++ k ++ "')"))
  | Some JNull => inl (TypeError ("Cannot read properties of null (reading '" ++ k ++ "')"))
  | Some (JObj props) => inr (obj_get props k)
  | Some (JArr items) =>
      inr (if String.eqb k "length" then Some (JNum (Z.of_nat (length items))) else None)
  | Some (JStr s) =>
      inr (if String.eqb k "length" then Some (JNum (Z.of_nat (String.length s))) else None)
  | Some (JBool _) | Some (JNum _) => inr None
  end.

(** The values a [for (const x of v)] loop visits; anything but an array
    or a string is not iterable. *)
Definition iterate (v : value) : exn + list JValue :=
  match v with
  | Some (JArr items) => inr items
  | Some (JStr s) => inr (map (fun c => JStr (String c EmptyString)) (JsString.chars s))
  | _ => inl (TypeError "value is not iterable")
  end.

(** Truthiness, as [if (v)] and [v && ...] test it. *)
Definition truthy (v : value) : bool :=
  match v with
  | None | Some JNull => false
  | Some (JBool b) => b
  | Some (JNum z) => negb (z =? 0)%Z
  | Some (JStr s) => negb (String.eqb s EmptyString)
  | Some (JArr _) | Some (JObj _) => true
  end.

(** [v === s] for a string literal [s] *)
Definition is_string (v : value) (s : string) : bool :=
  match v with
  | Some (JStr t) => String.eqb t s
  | _ => false
  end.

(** [[...].includes(v)] over string literals *)
Definition among (tags : list string) (v : value) : bool :=
  existsb (is_string v) tags.

(** The number a value becomes under [-]: exact on [undefined], [null],
    booleans and numbers; a string, an array or an object goes through the
    host's [ToNumber]. *)
Definition to_number (host_to_number : JValue -> number) (v : value) : number :=
  match v with
  | None => NaN
  | Some JNull => Fin 0
  | Some (JBool b) => if b then Fin 1 else Fin 0
  | Some (JNum z) => of_Z z
  | Some j => host_to_number j
  end.

(** Pieces of a template string.  A number that the script formats is kept
    with its format instead of being rendered to digits. *)
Inductive piece : Type :=
| Str (s : string)
| Val (v : value)                  (* ${v} *)
| Num (x : number)                 (* ${x} *)
| Fixed (x : number) (digits : nat)  (* ${x.toFixed(digits)} *)
| Round (x : number).              (* ${Math.round(x)} *)

Abbreviation text := (list piece).

End Js.

(** ** The world the scripts run in *)

Module Env.

Import JsNum Js.

(** [RTCDataChannel.readyState] *)
Inductive ReadyState : Type := connecting | open | closing | closed.

(** The data channel [peer.dc] refers to: what the scripts read of it
    ([readyState]) and what they handed to [send], oldest first. *)
Record Channel : Type := {
  ch_label : string;
  ch_ordered : bool;
  readyState : ReadyState;
  ch_sent : list string
}.

(** An [RTCIceCandidate] as delivered by [onicecandidate]: the SDP line the
    handler inspects and the other members of its JSON form. *)
Record RTCIceCandidate : Type := {
  candidate : string;
  cand_members : list (string * JValue)
}.

(** [candidate.toJSON()], which [JSON.stringify] uses. *)
Definition cand_toJSON (c : RTCIceCandidate) : JValue :=
  JObj (("candidate", JStr (candidate c)) :: cand_members c).

(** Arrays are objects with identity: a variable holds a location and the
    elements live in [heap]. *)
Abbreviation loc := nat (only parsing).

(** [peer.completeSignalingData]: [{type, sdp, candidates}]. *)
Record Bundle : Type := {
  type : string;
  sdp : string;
  candidates : loc
}.

(** The global [peer] of script.js.  [pc] names the [RTCPeerConnection]
    instance by the number it was created with. *)
Record Peer : Type := {
  pc : option nat;
  dc : option Channel;
  pendingCandidates : loc;
  iceGatheringComplete : bool;
  completeSignalingData : option Bundle
}.

(** The global [speedTest] of speed-test.js.  A timer handle is a positive
    integer, so [if (speedTest.testInterval)] is the test against [null].
    The three settings hold what [parseInt] returned ([None] is [NaN]). *)
Record SpeedTest : Type := {
  isRunning : bool;
  startTime : option Z;
  endTime : option Z;
  bytesSent : Z;
  bytesReceived : Z;
  packetsLost : Z;
  latencyTests : list number;
  throughputTests : list number;
  testInterval : option positive;
  latencyInterval : option positive;
  statsInterval : option positive;
  testDuration : option Z;
  packetSize : option Z;
  packetFrequency : option Z
}.

(** Calls the scripts make on the transport, in the order they make them. *)
Inductive FacadeCall : Type :=
| NewPeerConnection (id : nat)
| Close (id : nat)
| CreateDataChannel (id : nat) (label : string) (ordered : bool)
| CreateOffer (id : nat)
| CreateAnswer (id : nat)
| SetLocalDescription (id : nat) (ty sd : string)
| SetRemoteDescription (id : nat) (ty : string) (sd : value)
| AddIceCandidate (id : nat) (c : JValue).

(** How a promise of the transport settles.  [createOffer] and
    [createAnswer] resolve with the SDP of the description. *)
Inductive Outcome : Type :=
| Resolved (sd : string)
| Rejected (e : exn).

(** The point at which an [async] function of script.js is suspended,
    with the locals its continuation still uses. *)
Inductive Kont : Type :=
| OfferCreated                                       (* createCompleteOffer: await createOffer() *)
| OfferLocalSet (offer_sdp : string)                 (* createCompleteOffer: await setLocalDescription(offer) *)
| AnswerRemoteSet (completeOffer : JValue)           (* createCompleteAnswer: await setRemoteDescription(...) *)
| AnswerCandidateAdded (completeOffer : JValue) (rest : list JValue)
                                                     (* createCompleteAnswer: await addIceCandidate(candidate) *)
| AnswerCreated                                      (* createCompleteAnswer: await createAnswer() *)
| AnswerLocalSet (answer_sdp : string)               (* createCompleteAnswer: await setLocalDescription(answer) *)
| RemoteAnswerSet (completeAnswer : JValue)          (* setCompleteAnswer: await setRemoteDescription(...) *)
| LegacyRemoteAnswerSet (completeAnswer : JValue)    (* first revision of setCompleteAnswer *)
| LegacyCandidateAdded (completeAnswer : JValue) (rest : list JValue).

(** Callbacks handed to [setTimeout] and [setInterval], with the variables
    their closures own. *)
Inductive Callback : Type :=
| GatheringTimeout                                   (* script.js, 5000 ms *)
| AutoStop                                           (* startSpeedTest *)
| PacketStream (packetId : Z)                        (* startPacketStream *)
| LatencyTest                                        (* startLatencyTest *)
| StatsCollection (lastUpdate lastBytesSent : Z).    (* startStatsCollection *)

Record Timer : Type := {
  tm_callback : Callback;
  tm_delay : number;       (* milliseconds *)
  tm_repeat : bool         (* setInterval *)
}.

(** One child appended to a log element: [style.color] and the pieces of
    [innerHTML] (the clock reading of the prefix, then the message). *)
Record Line : Type := {
  ln_color : option string;
  ln_time : option Z;
  ln_html : text
}.

Record Elem : Type := {
  el_value : string;        (* value *)
  el_text : text;           (* textContent *)
  el_class : string;        (* className *)
  el_children : list Line;  (* appended children; innerHTML = '' empties it *)
  el_disabled : bool;       (* disabled *)
  el_width : text           (* style.width *)
}.

Definition blank_elem : Elem :=
  {| el_value := EmptyString; el_text := []; el_class := EmptyString;
     el_children := []; el_disabled := false; el_width := [] |}.

Record World : Type := {
  clock : Z;                                  (* Date.now() *)
  currentPeer : string;                       (* utils.js *)
  peer : Peer;                                (* script.js *)
  speedTest : SpeedTest;                      (* speed-test.js *)
  heap : gmap nat (list RTCIceCandidate);
  document : gmap string Elem;             (* the elements of the page, by id *)
  alerts : list string;                       (* alert(...) *)
  timers : gmap positive Timer;
  nextTimer : positive;
  facade : list FacadeCall;
  nextPc : nat;
  pending : list Kont;                        (* suspended async functions *)
  randomCalls : nat;                          (* Math.random() calls so far *)
  speedTestLoaded : bool                      (* typeof handleSpeedTestPacket === 'function' *)
}.

(** Built-ins and transport behaviour the scripts depend on. *)
Record Host : Type := {
  JSON_parse : string -> exn + JValue;
  JSON_stringify : JValue -> nat -> string;    (* JSON.stringify(v, null, space) *)
  parseInt : string -> option Z;               (* None is NaN *)
  random_id : nat -> string;                   (* Math.random().toString(36).substring(7) *)
  to_number : JValue -> number;                (* ToNumber on strings and objects *)
  channel_send : Channel -> string -> exn + Channel   (* RTCDataChannel.send *)
}.

End Env.

(** ** State and exceptions *)

Module Monad.

Import Js Env.

(** A computation changes the world and either returns or throws; what it
    changed before throwing stays changed. *)
Definition M (A : Type) : Type := World -> (exn + A) * World.

Definition ret {A} (a : A) : M A := fun w => (inr a, w).
Definition throw {A} (e : exn) : M A := fun w => (inl e, w).

Definition bind {A B} (m : M A) (k : A -> M B) : M B :=
  fun w =>
    match m w with
    | (inr a, w') => k a w'
    | (inl e, w') => (inl e, w')
    end.

(** [try { body } catch (error) { handler(error) }] *)
Definition try_catch {A} (body : M A) (handler : exn -> M A) : M A :=
  fun w =>
    match body w with
    | (inr a, w') => (inr a, w')
    | (inl e, w') => handler e w'
    end.

Definition gets {A} (f : World -> A) : M A := fun w => (inr (f w), w).
Definition modify (f : World -> World) : M unit := fun w => (inr tt, f w).

(** A result of a pure operation that may throw. *)
Definition lift {A} (r : exn + A) : M A :=
  match r with
  | inl e => throw e
  | inr a => ret a
  end.

(** Running an entry point: the world it leaves, and whether an exception
    escaped to the event loop. *)
Definition exec {A} (m : M A) (w : World) : World := snd (m w).
Definition escapes {A} (m : M A) (w : World) : bool :=
  match fst (m w) with inl _ => true | inr _ => false end.

Declare Scope M_scope.
Delimit Scope M_scope with M.
Notation "'let*' x := m 'in' k" := (bind m (fun x => k))
  (at level 10, x name, m at level 100, k at level 200) : M_scope.
Notation "m ;; k" := (bind m (fun _ => k))
  (at level 100, k at level 200, right associativity) : M_scope.

Definition when (b : bool) (m : M unit) : M unit := if b then m else ret tt.

End Monad.

(** ** Field updates of the globals *)

Module Upd.

Import JsNum Js Env.

Definition with_clock (v : Z) (w : World) : World :=
  {| clock := v; currentPeer := currentPeer w; peer := peer w; speedTest := speedTest w;
     heap := heap w; document := document w; alerts := alerts w; timers := timers w;
     nextTimer := nextTimer w; facade := facade w; nextPc := nextPc w;
     pending := pending w; randomCalls := randomCalls w;
     speedTestLoaded := speedTestLoaded w |}.

Definition with_currentPeer (v : string) (w : World) : World :=
  {| clock := clock w; currentPeer := v; peer := peer w; speedTest := speedTest w;
     heap := heap w; document := document w; alerts := alerts w; timers := timers w;
     nextTimer := nextTimer w; facade := facade w; nextPc := nextPc w;
     pending := pending w; randomCalls := randomCalls w;
     speedTestLoaded := speedTestLoaded w |}.

Definition with_peer (v : Peer) (w : World) : World :=
  {| clock := clock w; currentPeer := currentPeer w; peer := v; speedTest := speedTest w;
     heap := heap w; document := document w; alerts := alerts w; timers := timers w;
     nextTimer := nextTimer w; facade := facade w; nextPc := nextPc w;
     pending := pending w; randomCalls := randomCalls w;
     speedTestLoaded := speedTestLoaded w |}.

Definition with_speedTest (v : SpeedTest) (w : World) : World :=
  {| clock := clock w; currentPeer := currentPeer w; peer := peer w; speedTest := v;
     heap := heap w; document := document w; alerts := alerts w; timers := timers w;
     nextTimer := nextTimer w; facade := facade w; nextPc := nextPc w;
     pending := pending w; randomCalls := randomCalls w;
     speedTestLoaded := speedTestLoaded w |}.

Definition with_heap (v : gmap nat (list RTCIceCandidate)) (w : World) : World :=
  {| clock := clock w; currentPeer := currentPeer w; peer := peer w; speedTest := speedTest w;
     heap := v; document := document w; alerts := alerts w; timers := timers w;
     nextTimer := nextTimer w; facade := facade w; nextPc := nextPc w;
     pending := pending w; randomCalls := randomCalls w;
     speedTestLoaded := speedTestLoaded w |}.

Definition with_document (v : gmap string Elem) (w : World) : World :=
  {| clock := clock w; currentPeer := currentPeer w; peer := peer w; speedTest := speedTest w;
     heap := heap w; document := v; alerts := alerts w; timers := timers w;
     nextTimer := nextTimer w; facade := facade w; nextPc := nextPc w;
     pending := pending w; randomCalls := randomCalls w;
     speedTestLoaded := speedTestLoaded w |}.

Definition with_alerts (v : list string) (w : World) : World :=
  {| clock := clock w; currentPeer := currentPeer w; peer := peer w; speedTest := speedTest w;
     heap := heap w; document := document w; alerts := v; timers := timers w;
     nextTimer := nextTimer w; facade := facade w; nextPc := nextPc w;
     pending := pending w; randomCalls := randomCalls w;
     speedTestLoaded := speedTestLoaded w |}.

Definition with_timers (v : gmap positive Timer) (n : positive) (w : World) : World :=
  {| clock := clock w; currentPeer := currentPeer w; peer := peer w; speedTest := speedTest w;
     heap := heap w; document := document w; alerts := alerts w; timers := v;
     nextTimer := n; facade := facade w; nextPc := nextPc w;
     pending := pending w; randomCalls := randomCalls w;
     speedTestLoaded := speedTestLoaded w |}.

Definition with_facade (v : list FacadeCall) (n : nat) (w : World) : World :=
  {| clock := clock w; currentPeer := currentPeer w; peer := peer w; speedTest := speedTest w;
     heap := heap w; document := document w; alerts := alerts w; timers := timers w;
     nextTimer := nextTimer w; facade := v; nextPc := n;
     pending := pending w; randomCalls := randomCalls w;
     speedTestLoaded := speedTestLoaded w |}.

Definition with_pending (v : list Kont) (w : World) : World :=
  {| clock := clock w; currentPeer := currentPeer w; peer := peer w; speedTest := speedTest w;
     heap := heap w; document := document w; alerts := alerts w; timers := timers w;
     nextTimer := nextTimer w; facade := facade w; nextPc := nextPc w;
     pending := v; randomCalls := randomCalls w;
     speedTestLoaded := speedTestLoaded w |}.

Definition with_randomCalls (v : nat) (w : World) : World :=
  {| clock := clock w; currentPeer := currentPeer w; peer := peer w; speedTest := speedTest w;
     heap := heap w; document := document w; alerts := alerts w; timers := timers w;
     nextTimer := nextTimer w; facade := facade w; nextPc := nextPc w;
     pending := pending w; randomCalls := v;
     speedTestLoaded := speedTestLoaded w |}.

(** [peer.field = v] *)
Definition peer_pc (v : option nat) (p : Peer) : Peer :=
  {| pc := v; dc := dc p; pendingCandidates := pendingCandidates p;
     iceGatheringComplete := iceGatheringComplete p;
     completeSignalingData := completeSignalingData p |}.
Definition peer_dc (v : option Channel) (p : Peer) : Peer :=
  {| pc := pc p; dc := v; pendingCandidates := pendingCandidates p;
     iceGatheringComplete := iceGatheringComplete p;
     completeSignalingData := completeSignalingData p |}.
Definition peer_pendingCandidates (v : loc) (p : Peer) : Peer :=
  {| pc := pc p; dc := dc p; pendingCandidates := v;
     iceGatheringComplete := iceGatheringComplete p;
     completeSignalingData := completeSignalingData p |}.
Definition peer_iceGatheringComplete (v : bool) (p : Peer) : Peer :=
  {| pc := pc p; dc := dc p; pendingCandidates := pendingCandidates p;
     iceGatheringComplete := v;
     completeSignalingData := completeSignalingData p |}.
Definition peer_completeSignalingData (v : option Bundle) (p : Peer) : Peer :=
  {| pc := pc p; dc := dc p; pendingCandidates := pendingCandidates p;
     iceGatheringComplete := iceGatheringComplete p;
     completeSignalingData := v |}.

(** [bundle.candidates = v] *)
Definition bundle_candidates (v : loc) (b : Bundle) : Bundle :=
  {| type := type b; sdp := sdp b; candidates := v |}.

End Upd.

(** ** utils.js: the page *)

Module Utils.

Import JsNum Js Env Monad Upd.
Local Open Scope M_scope.

(** The element of the page [d] with id [id]. *)
Definition elem_at (id : string) (d : gmap string Elem) : Elem :=
  default blank_elem (d !! id).

(** [document.getElementById(id)] *)
Definition getElementById (id : string) (w : World) : Elem :=
  elem_at id (document w).

(** The page after [f] has changed the element [id]. *)
Definition update_elem (id : string) (f : Elem -> Elem) (d : gmap string Elem)
    : gmap string Elem :=
  <[id := f (elem_at id d)]> d.

Definition setElem (id : string) (f : Elem -> Elem) : M unit :=
  modify (fun w => with_document (update_elem id f (document w)) w).

Definition set_value (v : string) (e : Elem) : Elem :=
  {| el_value := v; el_text := el_text e; el_class := el_class e;
     el_children := el_children e; el_disabled := el_disabled e; el_width := el_width e |}.
Definition set_text (v : text) (e : Elem) : Elem :=
  {| el_value := el_value e; el_text := v; el_class := el_class e;
     el_children := el_children e; el_disabled := el_disabled e; el_width := el_width e |}.
Definition set_class (v : string) (e : Elem) : Elem :=
  {| el_value := el_value e; el_text := el_text e; el_class := v;
     el_children := el_children e; el_disabled := el_disabled e; el_width := el_width e |}.
Definition set_children (v : list Line) (e : Elem) : Elem :=
  {| el_value := el_value e; el_text := el_text e; el_class := el_class e;
     el_children := v; el_disabled := el_disabled e; el_width := el_width e |}.
Definition set_disabled (v : bool) (e : Elem) : Elem :=
  {| el_value := el_value e; el_text := el_text e; el_class := el_class e;
     el_children := el_children e; el_disabled := v; el_width := el_width e |}.
Definition set_width (v : text) (e : Elem) : Elem :=
  {| el_value := el_value e; el_text := el_text e; el_class := el_class e;
     el_children := el_children e; el_disabled := el_disabled e; el_width := v |}.

Definition appendChild (id : string) (l : Line) : M unit :=
  setElem id (fun e => set_children (el_children e ++ [l]) e).

(** [alert(msg)] *)
Definition alert (msg : string) : M unit :=
  modify (fun w => with_alerts (alerts w ++ [msg]) w).

(** [getCurrentPeer()] *)
Definition getCurrentPeer : M string := gets currentPeer.

(** [setCurrentPeer(peer)] *)
Definition setCurrentPeer (p : string) : M unit := modify (with_currentPeer p).

(** [colors[type] || '#007bff'] *)
Definition color_of (ty : string) : string :=
  if String.eqb ty "info" then "#007bff"
  else if String.eqb ty "success" then "#28a745"
  else if String.eqb ty "warning" then "#ffc107"
  else if String.eqb ty "error" then "#dc3545"
  else "#007bff".

(** [updateStatus(status)] *)
Definition updateStatus (status : string) : M unit :=
  let* cp := getCurrentPeer in
  setElem ("status" ++ cp)
    (fun e => set_class ("status " ++ JsString.keep_lower (JsString.toLowerCase status))
                (set_text [Str status] e)).

(** [addDebugInfo(message, type)] *)
Definition addDebugInfo (message : text) (ty : string) : M unit :=
  let* cp := getCurrentPeer in
  let* now := gets clock in
  appendChild ("debug" ++ cp)
    {| ln_color := Some (color_of ty); ln_time := Some now; ln_html := message |}.

(** [addMessage(message, sender)] *)
Definition addMessage (message sender : string) : M unit :=
  let* cp := getCurrentPeer in
  appendChild ("messages" ++ cp)
    {| ln_color := None; ln_time := None;
       ln_html := [Str "<strong>"; Str sender; Str ":</strong> "; Str message] |}.

(** [resetPeerUI()] *)
Definition resetPeerUI : M unit :=
  let* cp := getCurrentPeer in
  setElem ("completeOffer" ++ cp) (set_value EmptyString) ;;
  setElem ("completeAnswer" ++ cp) (set_value EmptyString) ;;
  setElem ("messages" ++ cp) (set_children []) ;;
  setElem ("debug" ++ cp) (set_children []) ;;
  updateStatus "Disconnected" ;;
  addDebugInfo [Str "🔄 Peer "; Str cp; Str " reset"] "info".

End Utils.

(** ** script.js: the bundle negotiator *)

Module Script.

Import JsNum Js Env Monad Upd Utils.
Local Open Scope M_scope.

Section WithHost.

Variable host : Host.

(** *** Arrays, the transport and timers *)

(** The array literal [[]]: a new object. *)
Definition new_loc (h : gmap nat (list RTCIceCandidate)) : loc := fresh (dom h).

Definition array_alloc (h : gmap nat (list RTCIceCandidate)) : gmap nat (list RTCIceCandidate) :=
  <[new_loc h := []]> h.

Definition new_array : M loc :=
  fun w => (inr (new_loc (heap w)), with_heap (array_alloc (heap w)) w).

Definition elements (l : loc) (h : gmap nat (list RTCIceCandidate)) : list RTCIceCandidate :=
  default [] (h !! l).

Definition read_array (l : loc) (w : World) : list RTCIceCandidate :=
  elements l (heap w).

(** [array.push(c)] on the array at [l] *)
Definition array_push (l : loc) (c : RTCIceCandidate) (h : gmap nat (list RTCIceCandidate))
    : gmap nat (list RTCIceCandidate) :=
  <[l := (elements l h ++ [c])%list]> h.

Definition push (l : loc) (c : RTCIceCandidate) : M unit :=
  modify (fun w => with_heap (array_push l c (heap w)) w).

Definition facade_call (c : FacadeCall) : M unit :=
  modify (fun w => with_facade (facade w ++ [c]) (nextPc w) w).

(** [new RTCPeerConnection(iceConfig)] *)
Definition new_RTCPeerConnection : M nat :=
  fun w =>
    let id := nextPc w in
    (inr id, with_facade (facade w ++ [NewPeerConnection id]) (S id) w).

(** The receiver of [peer.pc.method(...)]; [peer.pc] may be [null]. *)
Definition peer_pc_receiver (method : string) : M nat :=
  let* p := gets (fun w => pc (peer w)) in
  match p with
  | Some id => ret id
  | None => throw (TypeError ("Cannot read properties of null (reading '" ++ method ++ "')"))
  end.

(** [await call]: the call is made, the function is suspended at [k]. *)
Definition await (call : FacadeCall) (k : Kont) : M unit :=
  facade_call call ;;
  modify (fun w => with_pending (pending w ++ [k]) w).

(** [setTimeout(cb, delay)] and [setInterval(cb, delay)] *)
Definition add_timer (cb : Callback) (delay : number) (rep : bool) : M positive :=
  fun w =>
    let id := nextTimer w in
    (inr id,
     with_timers (<[id := {| tm_callback := cb; tm_delay := delay; tm_repeat := rep |}]> (timers w))
                 (Pos.succ id) w).

Definition setTimeout (cb : Callback) (delay : number) : M positive := add_timer cb delay false.
Definition setInterval (cb : Callback) (delay : number) : M positive := add_timer cb delay true.

(** [clearInterval(id)] *)
Definition clearInterval (id : positive) : M unit :=
  modify (fun w => with_timers (delete id (timers w)) (nextTimer w) w).

Definition set_peer (f : Peer -> Peer) : M unit :=
  modify (fun w => with_peer (f (peer w)) w).

(** *** Bundling *)

(** The value [JSON.stringify] sees for [peer.completeSignalingData]. *)
Definition bundle_json (b : Bundle) (w : World) : JValue :=
  JObj [("type", JStr (type b)); ("sdp", JStr (sdp b));
        ("candidates", JArr (map cand_toJSON (read_array (candidates b) w)))].

(** One branch of [completeSignalingReady]: the bundle takes the pending
    array itself as its [candidates], is serialised into [target] and
    announced. *)
Definition publish (b : Bundle) (target status kind : string) : M unit :=
  let* pend := gets (fun w => pendingCandidates (peer w)) in
  let b' := bundle_candidates pend b in
  set_peer (peer_completeSignalingData (Some b')) ;;
  let* json := gets (bundle_json b') in
  setElem target (set_value (JSON_stringify host json 2)) ;;
  updateStatus status ;;
  let* n := gets (fun w => length (read_array pend w)) in
  addDebugInfo [Str ("✅ Complete " ++ kind ++ " ready with "); Num (of_nat n); Str " candidates"]
               "success".

(** [completeSignalingReady()] *)
Definition completeSignalingReady : M unit :=
  let* cp := getCurrentPeer in
  let* csd := gets (fun w => completeSignalingData (peer w)) in
  match csd with
  | Some b =>
      if String.eqb cp "A" then publish b "completeOfferA" "Complete Offer Ready" "offer"
      else if String.eqb cp "B" then publish b "completeAnswerB" "Complete Answer Ready" "answer"
      else ret tt
  | None => ret tt
  end.

(** *** Connection set-up *)

(** [initializePeerConnection()]; the handlers it installs are
    [onicecandidate] and [onmessage] below. *)
Definition initializePeerConnection : M unit :=
  let* id := new_RTCPeerConnection in
  set_peer (peer_pc (Some id)) ;;
  let* l := new_array in
  set_peer (peer_pendingCandidates l) ;;
  set_peer (peer_iceGatheringComplete false).

(** The label of a candidate line in the debug log. *)
Definition candidateType (candidateString : string) : string :=
  if JsString.includes candidateString "typ host" then "HOST"
  else if JsString.includes candidateString "typ srflx" then "STUN"
  else if JsString.includes candidateString "typ relay" then "TURN"
  else "OTHER".

(** [peer.pc.onicecandidate]; [None] is the event with a [null] candidate. *)
Definition onicecandidate (event_candidate : option RTCIceCandidate) : M unit :=
  match event_candidate with
  | Some c =>
      let* pend := gets (fun w => pendingCandidates (peer w)) in
      push pend c ;;
      let candidateString := candidate c in
      let parts := JsString.split_space candidateString in
      let ip := JsString.part_or parts 4 "unknown" in
      let port := JsString.part_or parts 5 "unknown" in
      let protocol := JsString.part_or parts 2 "unknown" in
      let priority := JsString.part_or parts 3 "unknown" in
      addDebugInfo [Str "🔍 Generated "; Str (candidateType candidateString); Str " candidate:"]
                   "info" ;;
      addDebugInfo [Str "   📍 "; Str ip; Str ":"; Str port; Str " (";
                    Str (JsString.toUpperCase protocol); Str ", priority: "; Str priority; Str ")"]
                   "info"
  | None =>
      set_peer (peer_iceGatheringComplete true) ;;
      let* n := gets (fun w => length (read_array (pendingCandidates (peer w)) w)) in
      addDebugInfo [Str "🏁 ICE gathering complete! Total: "; Num (of_nat n); Str " candidates"]
                   "success" ;;
      let* csd := gets (fun w => completeSignalingData (peer w)) in
      match csd with
      | Some _ => completeSignalingReady
      | None => ret tt
      end
  end.

(** [setupDataChannel(channel)]; [channel.onmessage] is [onmessage] in the
    probe section, [onopen] and [onclose] follow. *)
Definition setupDataChannel (channel : Channel) : M unit :=
  set_peer (peer_dc (Some channel)).

Definition channel_onopen : M unit :=
  addMessage "Data channel opened - Ready to chat!" "System" ;;
  updateStatus "Connected" ;;
  addDebugInfo [Str "📡 Data channel opened"] "success".

Definition channel_onclose : M unit :=
  addMessage "Data channel closed" "System" ;;
  updateStatus "Disconnected".

(** [if (peer.pc) { peer.pc.close(); }] *)
Definition close_existing : M unit :=
  let* p := gets (fun w => pc (peer w)) in
  match p with
  | Some id => facade_call (Close id)
  | None => ret tt
  end.

(** The [catch (error)] block shared by the three signalling functions. *)
Definition report_error (error : exn) : M unit :=
  addDebugInfo [Str "❌ Error: "; Str (message error)] "error" ;;
  updateStatus "Error".

(** The callback of the 5000 ms timer. *)
Definition gatheringTimeout : M unit :=
  let* complete := gets (fun w => iceGatheringComplete (peer w)) in
  if complete then ret tt
  else
    addDebugInfo [Str "⏰ ICE gathering timeout, using current candidates"] "warning" ;;
    completeSignalingReady.

(** The end of [createCompleteOffer] and [createCompleteAnswer]:
    [if (!peer.iceGatheringComplete) setTimeout(..., 5000)]. *)
Definition wait_for_gathering : M unit :=
  let* complete := gets (fun w => iceGatheringComplete (peer w)) in
  if complete then ret tt
  else
    let* _ := setTimeout GatheringTimeout (Fin 5000) in
    ret tt.

(** *** The signalling functions

    An [async] function runs up to its first [await], and each settlement
    of the awaited promise runs it up to the next one.  The [try] block
    spans all of these pieces, so each piece is wrapped in the same
    [catch]. *)

(** [`... with ${bundle.candidates.length} candidates`] *)
Definition candidates_length (bundle : JValue) : M value :=
  let* cands := lift (prop (Some bundle) "candidates") in
  lift (prop cands "length").

(** [createCompleteOffer()], up to [await peer.pc.createOffer()] *)
Definition createCompleteOffer : M unit :=
  addDebugInfo [Str "🚀 Creating complete offer..."] "info" ;;
  updateStatus "Gathering ICE Candidates..." ;;
  close_existing ;;
  initializePeerConnection ;;
  let* id := peer_pc_receiver "createDataChannel" in
  facade_call (CreateDataChannel id "messages" true) ;;
  setupDataChannel {| ch_label := "messages"; ch_ordered := true;
                      readyState := connecting; ch_sent := [] |} ;;
  try_catch
    (let* id := peer_pc_receiver "createOffer" in
     await (CreateOffer id) OfferCreated)
    report_error.

(** ... from there to [await peer.pc.setLocalDescription(offer)] *)
Definition createCompleteOffer_created (o : Outcome) : M unit :=
  try_catch
    (match o with
     | Rejected e => throw e
     | Resolved offer_sdp =>
         let* id := peer_pc_receiver "setLocalDescription" in
         await (SetLocalDescription id "offer" offer_sdp) (OfferLocalSet offer_sdp)
     end)
    report_error.

(** The bundle literal [{type, sdp, candidates: []}] assigned to
    [peer.completeSignalingData]. *)
Definition new_bundle (ty sd : string) : M unit :=
  let* l := new_array in
  set_peer (peer_completeSignalingData (Some {| type := ty; sdp := sd; candidates := l |})).

(** ... and from there to the end *)
Definition createCompleteOffer_localSet (offer_sdp : string) (o : Outcome) : M unit :=
  try_catch
    (match o with
     | Rejected e => throw e
     | Resolved _ =>
         new_bundle "offer" offer_sdp ;;
         addDebugInfo [Str "📝 Offer created, gathering ICE candidates..."] "info" ;;
         wait_for_gathering
     end)
    report_error.

(** [createCompleteAnswer()], up to [await peer.pc.setRemoteDescription(...)] *)
Definition createCompleteAnswer : M unit :=
  try_catch
    (let* completeOfferText := gets (fun w => el_value (getElementById "completeOfferB" w)) in
     if String.eqb (JsString.trim completeOfferText) EmptyString
     then alert "Please paste the complete offer first!"
     else
       let* completeOffer := lift (JSON_parse host completeOfferText) in
       let* n := candidates_length completeOffer in
       addDebugInfo [Str "📥 Processing complete offer with "; Val n; Str " candidates"] "info" ;;
       updateStatus "Processing Offer..." ;;
       close_existing ;;
       initializePeerConnection ;;
       let* id := peer_pc_receiver "setRemoteDescription" in
       let* sd := lift (prop (Some completeOffer) "sdp") in
       await (SetRemoteDescription id "offer" sd) (AnswerRemoteSet completeOffer))
    report_error.

(** The rest of the [for ... of] loop over the offer's candidates and what
    follows it, up to the next [await]. *)
Definition createCompleteAnswer_loop (completeOffer : JValue) (rest : list JValue) : M unit :=
  match rest with
  | c :: rest' =>
      let* id := peer_pc_receiver "addIceCandidate" in
      await (AddIceCandidate id c) (AnswerCandidateAdded completeOffer rest')
  | [] =>
      let* n := candidates_length completeOffer in
      addDebugInfo [Str "✅ Added "; Val n; Str " remote candidates"] "success" ;;
      let* id := peer_pc_receiver "createAnswer" in
      await (CreateAnswer id) AnswerCreated
  end.

Definition createCompleteAnswer_remoteSet (completeOffer : JValue) (o : Outcome) : M unit :=
  try_catch
    (match o with
     | Rejected e => throw e
     | Resolved _ =>
         let* cands := lift (prop (Some completeOffer) "candidates") in
         let* items := lift (iterate cands) in
         createCompleteAnswer_loop completeOffer items
     end)
    report_error.

Definition createCompleteAnswer_candidateAdded
    (completeOffer : JValue) (rest : list JValue) (o : Outcome) : M unit :=
  try_catch
    (match o with
     | Rejected e => throw e
     | Resolved _ => createCompleteAnswer_loop completeOffer rest
     end)
    report_error.

Definition createCompleteAnswer_created (o : Outcome) : M unit :=
  try_catch
    (match o with
     | Rejected e => throw e
     | Resolved answer_sdp =>
         let* id := peer_pc_receiver "setLocalDescription" in
         await (SetLocalDescription id "answer" answer_sdp) (AnswerLocalSet answer_sdp)
     end)
    report_error.

Definition createCompleteAnswer_localSet (answer_sdp : string) (o : Outcome) : M unit :=
  try_catch
    (match o with
     | Rejected e => throw e
     | Resolved _ =>
         new_bundle "answer" answer_sdp ;;
         updateStatus "Gathering ICE Candidates..." ;;
         addDebugInfo [Str "📝 Answer created, gathering ICE candidates..."] "info" ;;
         wait_for_gathering
     end)
    report_error.

(** The start of both revisions of [setCompleteAnswer], up to
    [await peer.pc.setRemoteDescription(...)]; they differ in what follows,
    which [k] names. *)
Definition setCompleteAnswer_start (k : JValue -> Kont) : M unit :=
  try_catch
    (let* completeAnswerText := gets (fun w => el_value (getElementById "completeAnswerA" w)) in
     if String.eqb (JsString.trim completeAnswerText) EmptyString
     then alert "Please paste the complete answer first!"
     else
       let* completeAnswer := lift (JSON_parse host completeAnswerText) in
       let* n := candidates_length completeAnswer in
       addDebugInfo [Str "📥 Processing complete answer with "; Val n; Str " candidates"] "info" ;;
       updateStatus "Connecting..." ;;
       let* id := peer_pc_receiver "setRemoteDescription" in
       let* sd := lift (prop (Some completeAnswer) "sdp") in
       await (SetRemoteDescription id "answer" sd) (k completeAnswer))
    report_error.

(** The two log lines that end [setCompleteAnswer]. *)
Definition setCompleteAnswer_finish (completeAnswer : JValue) : M unit :=
  let* n := candidates_length completeAnswer in
  addDebugInfo [Str "✅ Added "; Val n; Str " remote candidates"] "success" ;;
  addDebugInfo [Str "🎯 Connection should establish now..."] "info".

(** [setCompleteAnswer()] of script.js as it stands: the loop over the
    candidates is commented out, the two log lines are not. *)
Definition setCompleteAnswer : M unit := setCompleteAnswer_start RemoteAnswerSet.

Definition setCompleteAnswer_remoteSet (completeAnswer : JValue) (o : Outcome) : M unit :=
  try_catch
    (match o with
     | Rejected e => throw e
     | Resolved _ => setCompleteAnswer_finish completeAnswer
     end)
    report_error.

(** [setCompleteAnswer()] of the first revision (the monolithic script):
    the loop is there. *)
Definition setCompleteAnswer_legacy : M unit := setCompleteAnswer_start LegacyRemoteAnswerSet.

Definition setCompleteAnswer_legacy_loop (completeAnswer : JValue) (rest : list JValue) : M unit :=
  match rest with
  | c :: rest' =>
      let* id := peer_pc_receiver "addIceCandidate" in
      await (AddIceCandidate id c) (LegacyCandidateAdded completeAnswer rest')
  | [] => setCompleteAnswer_finish completeAnswer
  end.

Definition setCompleteAnswer_legacy_remoteSet (completeAnswer : JValue) (o : Outcome) : M unit :=
  try_catch
    (match o with
     | Rejected e => throw e
     | Resolved _ =>
         let* cands := lift (prop (Some completeAnswer) "candidates") in
         let* items := lift (iterate cands) in
         setCompleteAnswer_legacy_loop completeAnswer items
     end)
    report_error.

Definition setCompleteAnswer_legacy_candidateAdded
    (completeAnswer : JValue) (rest : list JValue) (o : Outcome) : M unit :=
  try_catch
    (match o with
     | Rejected e => throw e
     | Resolved _ => setCompleteAnswer_legacy_loop completeAnswer rest
     end)
    report_error.

(** The continuation of a suspended function. *)
Definition resume (k : Kont) (o : Outcome) : M unit :=
  match k with
  | OfferCreated => createCompleteOffer_created o
  | OfferLocalSet sd => createCompleteOffer_localSet sd o
  | AnswerRemoteSet b => createCompleteAnswer_remoteSet b o
  | AnswerCandidateAdded b rest => createCompleteAnswer_candidateAdded b rest o
  | AnswerCreated => createCompleteAnswer_created o
  | AnswerLocalSet sd => createCompleteAnswer_localSet sd o
  | RemoteAnswerSet b => setCompleteAnswer_remoteSet b o
  | LegacyRemoteAnswerSet b => setCompleteAnswer_legacy_remoteSet b o
  | LegacyCandidateAdded b rest => setCompleteAnswer_legacy_candidateAdded b rest o
  end.

(** The [i]-th pending promise settles with [o]. *)
Definition settle (i : nat) (o : Outcome) : M unit :=
  let* ks := gets pending in
  match ks !! i with
  | Some k =>
      modify (with_pending (take i ks ++ drop (S i) ks)) ;;
      resume k o
  | None => ret tt
  end.

(** [resetPeer()] *)
Definition resetPeer : M unit :=
  let* p := gets (fun w => pc (peer w)) in
  match p with
  | Some id => facade_call (Close id) ;; set_peer (peer_pc None)
  | None => ret tt
  end ;;
  let* d := gets (fun w => dc (peer w)) in
  match d with
  | Some _ => set_peer (peer_dc None)
  | None => ret tt
  end ;;
  let* l := new_array in
  set_peer (peer_pendingCandidates l) ;;
  set_peer (peer_iceGatheringComplete false) ;;
  set_peer (peer_completeSignalingData None) ;;
  resetPeerUI.

End WithHost.

End Script.

(** ** speed-test.js: the link probe *)

Module SpeedTestJs.

Import JsNum Js Env Monad Upd Utils.
Local Open Scope M_scope.

(** [speedTest.field = v] *)
Definition st_isRunning (v : bool) (s : SpeedTest) : SpeedTest :=
  {| isRunning := v; startTime := startTime s; endTime := endTime s;
     bytesSent := bytesSent s; bytesReceived := bytesReceived s; packetsLost := packetsLost s;
     latencyTests := latencyTests s; throughputTests := throughputTests s;
     testInterval := testInterval s; latencyInterval := latencyInterval s;
     statsInterval := statsInterval s; testDuration := testDuration s;
     packetSize := packetSize s; packetFrequency := packetFrequency s |}.
Definition st_startTime (v : option Z) (s : SpeedTest) : SpeedTest :=
  {| isRunning := isRunning s; startTime := v; endTime := endTime s;
     bytesSent := bytesSent s; bytesReceived := bytesReceived s; packetsLost := packetsLost s;
     latencyTests := latencyTests s; throughputTests := throughputTests s;
     testInterval := testInterval s; latencyInterval := latencyInterval s;
     statsInterval := statsInterval s; testDuration := testDuration s;
     packetSize := packetSize s; packetFrequency := packetFrequency s |}.
Definition st_endTime (v : option Z) (s : SpeedTest) : SpeedTest :=
  {| isRunning := isRunning s; startTime := startTime s; endTime := v;
     bytesSent := bytesSent s; bytesReceived := bytesReceived s; packetsLost := packetsLost s;
     latencyTests := latencyTests s; throughputTests := throughputTests s;
     testInterval := testInterval s; latencyInterval := latencyInterval s;
     statsInterval := statsInterval s; testDuration := testDuration s;
     packetSize := packetSize s; packetFrequency := packetFrequency s |}.
Definition st_bytesSent (v : Z) (s : SpeedTest) : SpeedTest :=
  {| isRunning := isRunning s; startTime := startTime s; endTime := endTime s;
     bytesSent := v; bytesReceived := bytesReceived s; packetsLost := packetsLost s;
     latencyTests := latencyTests s; throughputTests := throughputTests s;
     testInterval := testInterval s; latencyInterval := latencyInterval s;
     statsInterval := statsInterval s; testDuration := testDuration s;
     packetSize := packetSize s; packetFrequency := packetFrequency s |}.
Definition st_bytesReceived (v : Z) (s : SpeedTest) : SpeedTest :=
  {| isRunning := isRunning s; startTime := startTime s; endTime := endTime s;
     bytesSent := bytesSent s; bytesReceived := v; packetsLost := packetsLost s;
     latencyTests := latencyTests s; throughputTests := throughputTests s;
     testInterval := testInterval s; latencyInterval := latencyInterval s;
     statsInterval := statsInterval s; testDuration := testDuration s;
     packetSize := packetSize s; packetFrequency := packetFrequency s |}.
Definition st_packetsLost (v : Z) (s : SpeedTest) : SpeedTest :=
  {| isRunning := isRunning s; startTime := startTime s; endTime := endTime s;
     bytesSent := bytesSent s; bytesReceived := bytesReceived s; packetsLost := v;
     latencyTests := latencyTests s; throughputTests := throughputTests s;
     testInterval := testInterval s; latencyInterval := latencyInterval s;
     statsInterval := statsInterval s; testDuration := testDuration s;
     packetSize := packetSize s; packetFrequency := packetFrequency s |}.
Definition st_latencyTests (v : list number) (s : SpeedTest) : SpeedTest :=
  {| isRunning := isRunning s; startTime := startTime s; endTime := endTime s;
     bytesSent := bytesSent s; bytesReceived := bytesReceived s; packetsLost := packetsLost s;
     latencyTests := v; throughputTests := throughputTests s;
     testInterval := testInterval s; latencyInterval := latencyInterval s;
     statsInterval := statsInterval s; testDuration := testDuration s;
     packetSize := packetSize s; packetFrequency := packetFrequency s |}.
Definition st_throughputTests (v : list number) (s : SpeedTest) : SpeedTest :=
  {| isRunning := isRunning s; startTime := startTime s; endTime := endTime s;
     bytesSent := bytesSent s; bytesReceived := bytesReceived s; packetsLost := packetsLost s;
     latencyTests := latencyTests s; throughputTests := v;
     testInterval := testInterval s; latencyInterval := latencyInterval s;
     statsInterval := statsInterval s; testDuration := testDuration s;
     packetSize := packetSize s; packetFrequency := packetFrequency s |}.
Definition st_testInterval (v : option positive) (s : SpeedTest) : SpeedTest :=
  {| isRunning := isRunning s; startTime := startTime s; endTime := endTime s;
     bytesSent := bytesSent s; bytesReceived := bytesReceived s; packetsLost := packetsLost s;
     latencyTests := latencyTests s; throughputTests := throughputTests s;
     testInterval := v; latencyInterval := latencyInterval s;
     statsInterval := statsInterval s; testDuration := testDuration s;
     packetSize := packetSize s; packetFrequency := packetFrequency s |}.
Definition st_latencyInterval (v : option positive) (s : SpeedTest) : SpeedTest :=
  {| isRunning := isRunning s; startTime := startTime s; endTime := endTime s;
     bytesSent := bytesSent s; bytesReceived := bytesReceived s; packetsLost := packetsLost s;
     latencyTests := latencyTests s; throughputTests := throughputTests s;
     testInterval := testInterval s; latencyInterval := v;
     statsInterval := statsInterval s; testDuration := testDuration s;
     packetSize := packetSize s; packetFrequency := packetFrequency s |}.
Definition st_statsInterval (v : option positive) (s : SpeedTest) : SpeedTest :=
  {| isRunning := isRunning s; startTime := startTime s; endTime := endTime s;
     bytesSent := bytesSent s; bytesReceived := bytesReceived s; packetsLost := packetsLost s;
     latencyTests := latencyTests s; throughputTests := throughputTests s;
     testInterval := testInterval s; latencyInterval := latencyInterval s;
     statsInterval := v; testDuration := testDuration s;
     packetSize := packetSize s; packetFrequency := packetFrequency s |}.
Definition st_settings (d p f : option Z) (s : SpeedTest) : SpeedTest :=
  {| isRunning := isRunning s; startTime := startTime s; endTime := endTime s;
     bytesSent := bytesSent s; bytesReceived := bytesReceived s; packetsLost := packetsLost s;
     latencyTests := latencyTests s; throughputTests := throughputTests s;
     testInterval := testInterval s; latencyInterval := latencyInterval s;
     statsInterval := statsInterval s; testDuration := d;
     packetSize := p; packetFrequency := f |}.

Definition set_speedTest (f : SpeedTest -> SpeedTest) : M unit :=
  modify (fun w => with_speedTest (f (speedTest w)) w).

(** A setting as a number: [None] is the [NaN] that [parseInt] gave. *)
Definition setting (v : option Z) : number :=
  match v with
  | Some z => of_Z z
  | None => NaN
  end.

(** A timestamp field in arithmetic: [null] counts as 0. *)
Definition stamp (v : option Z) : Z := default 0%Z v.

(** *** Aggregates *)

(** [xs.reduce((a, b) => a + b, 0) / xs.length] *)
Definition average (xs : list number) : number := div (sum xs) (of_nat (length xs)).

(** [xs.reduce((acc, lat) => acc + Math.pow(lat - avg, 2), 0) / xs.length] *)
Definition variance (xs : list number) (avg : number) : number :=
  div (fold_left (fun acc lat => add acc (pow2 (sub lat avg))) xs (Fin 0))
      (of_nat (length xs)).

(** The locals of [updateSpeedMetrics]. *)
Record LiveMetrics : Type := {
  lm_avgThroughput : number;
  lm_avgLatency : number;
  lm_jitter : number
}.

Definition liveMetrics (s : SpeedTest) : LiveMetrics :=
  let avgThroughput :=
    match throughputTests s with
    | [] => Fin 0
    | _ => average (throughputTests s)
    end in
  match latencyTests s with
  | [] => {| lm_avgThroughput := avgThroughput; lm_avgLatency := Fin 0; lm_jitter := Fin 0 |}
  | _ =>
      let avgLatency := average (latencyTests s) in
      {| lm_avgThroughput := avgThroughput; lm_avgLatency := avgLatency;
         lm_jitter := sqrt (variance (latencyTests s) avgLatency) |}
  end.

(** The locals of [calculateFinalResults]. *)
Record FinalResults : Type := {
  fr_testDuration : number;
  fr_avgThroughput : number;
  fr_avgLatency : number;
  fr_minLatency : number;
  fr_maxLatency : number;
  fr_jitter : number
}.

Definition finalResults (s : SpeedTest) : FinalResults :=
  let testDuration := div (of_Z (stamp (endTime s) - stamp (startTime s))) (Fin 1000) in
  let totalMbits := div (mul (of_Z (bytesSent s)) (Fin 8)) (Fin (1024 * 1024)) in
  let avgThroughput := div totalMbits testDuration in
  match latencyTests s with
  | [] =>
      {| fr_testDuration := testDuration; fr_avgThroughput := avgThroughput;
         fr_avgLatency := Fin 0; fr_minLatency := Fin 0; fr_maxLatency := Fin 0;
         fr_jitter := Fin 0 |}
  | _ =>
      let avgLatency := average (latencyTests s) in
      {| fr_testDuration := testDuration; fr_avgThroughput := avgThroughput;
         fr_avgLatency := avgLatency;
         fr_minLatency := Math_min (latencyTests s);
         fr_maxLatency := Math_max (latencyTests s);
         fr_jitter := sqrt (variance (latencyTests s) avgLatency) |}
  end.

(** The throughput sample of one sampler tick:
    [(bytesDelta * 8) / (timeDelta * 1024 * 1024)] with
    [timeDelta = (now - lastUpdate) / 1000]. *)
Definition timeDelta (now lastUpdate : Z) : number :=
  div (of_Z (now - lastUpdate)) (Fin 1000).

Definition currentThroughput (bytesNow lastBytesSent now lastUpdate : Z) : number :=
  div (mul (of_Z (bytesNow - lastBytesSent)) (Fin 8))
      (mul (mul (timeDelta now lastUpdate) (Fin 1024)) (Fin 1024)).

Section WithHost.

Variable host : Host.

(** *** Log and display *)

(** [addSpeedTestLog(message, type)] *)
Definition addSpeedTestLog (message : text) (ty : string) : M unit :=
  let* cp := getCurrentPeer in
  let* now := gets clock in
  appendChild ("speedTestLog" ++ cp)
    {| ln_color := Some (color_of ty); ln_time := Some now; ln_html := message |}.

(** [updateSpeedTestSettings()] *)
Definition updateSpeedTestSettings : M unit :=
  let* cp := getCurrentPeer in
  let* d := gets (fun w => parseInt host (el_value (getElementById ("testDuration" ++ cp) w))) in
  set_speedTest (fun s => st_settings d (packetSize s) (packetFrequency s) s) ;;
  let* p := gets (fun w => parseInt host (el_value (getElementById ("packetSize" ++ cp) w))) in
  set_speedTest (fun s => st_settings (testDuration s) p (packetFrequency s) s) ;;
  let* f := gets (fun w => parseInt host (el_value (getElementById ("packetFrequency" ++ cp) w))) in
  set_speedTest (fun s => st_settings (testDuration s) (packetSize s) f s).

(** [if (handle) clearInterval(handle)] *)
Definition clear_if_set (handle : option positive) : M unit :=
  match handle with
  | Some id => Script.clearInterval id
  | None => ret tt
  end.

(** The three [clearInterval] lines that [stopSpeedTest] and
    [resetSpeedTestState] share. *)
Definition clear_intervals : M unit :=
  let* t := gets (fun w => testInterval (speedTest w)) in
  clear_if_set t ;;
  let* l := gets (fun w => latencyInterval (speedTest w)) in
  clear_if_set l ;;
  let* s := gets (fun w => statsInterval (speedTest w)) in
  clear_if_set s.

(** [resetSpeedTestState()] *)
Definition resetSpeedTestState : M unit :=
  set_speedTest (st_bytesSent 0) ;;
  set_speedTest (st_bytesReceived 0) ;;
  set_speedTest (st_packetsLost 0) ;;
  set_speedTest (st_latencyTests []) ;;
  set_speedTest (st_throughputTests []) ;;
  clear_intervals.

(** [updateSpeedMetrics()] *)
Definition updateSpeedMetrics : M unit :=
  let* cp := getCurrentPeer in
  let* m := gets (fun w => liveMetrics (speedTest w)) in
  let* lost := gets (fun w => packetsLost (speedTest w)) in
  setElem ("throughput" ++ cp) (set_text [Fixed (lm_avgThroughput m) 2; Str " Mbps"]) ;;
  setElem ("latency" ++ cp) (set_text [Fixed (lm_avgLatency m) 1; Str " ms"]) ;;
  setElem ("packetLoss" ++ cp) (set_text [Num (of_Z lost); Str " %"]) ;;
  setElem ("jitter" ++ cp) (set_text [Fixed (lm_jitter m) 1; Str " ms"]).

(** [calculateFinalResults()] *)
Definition calculateFinalResults : M unit :=
  let* r := gets (fun w => finalResults (speedTest w)) in
  let* sent := gets (fun w => bytesSent (speedTest w)) in
  let* received := gets (fun w => bytesReceived (speedTest w)) in
  let MB (b : Z) := div (div (of_Z b) (Fin 1024)) (Fin 1024) in
  addSpeedTestLog [Str "📊 Final Results:"] "success" ;;
  addSpeedTestLog [Str "   Throughput: "; Fixed (fr_avgThroughput r) 2; Str " Mbps"] "info" ;;
  addSpeedTestLog [Str "   Data sent: "; Fixed (MB sent) 2; Str " MB"] "info" ;;
  addSpeedTestLog [Str "   Data received: "; Fixed (MB received) 2; Str " MB"] "info" ;;
  addSpeedTestLog [Str "   Latency: "; Fixed (fr_avgLatency r) 1; Str "ms (min: ";
                   Num (fr_minLatency r); Str "ms, max: "; Num (fr_maxLatency r); Str "ms)"]
                  "info" ;;
  addSpeedTestLog [Str "   Jitter: "; Fixed (fr_jitter r) 1; Str "ms"] "info" ;;
  addSpeedTestLog [Str "   Test duration: "; Fixed (fr_testDuration r) 1; Str "s"] "info".

(** [stopSpeedTest()] *)
Definition stopSpeedTest : M unit :=
  let* running := gets (fun w => isRunning (speedTest w)) in
  if negb running then ret tt
  else
    set_speedTest (st_isRunning false) ;;
    let* now := gets clock in
    set_speedTest (st_endTime (Some now)) ;;
    let* cp := getCurrentPeer in
    clear_intervals ;;
    setElem ("startSpeedTest" ++ cp) (set_disabled false) ;;
    setElem ("stopSpeedTest" ++ cp) (set_disabled true) ;;
    setElem ("progressText" ++ cp) (set_text [Str "Test completed"]) ;;
    setElem ("progressBar" ++ cp) (set_width [Str "100%"]) ;;
    calculateFinalResults ;;
    addSpeedTestLog [Str "✅ Speed test completed!"] "success".

(** [clearSpeedTestResults()] *)
Definition clearSpeedTestResults : M unit :=
  let* cp := getCurrentPeer in
  setElem ("throughput" ++ cp) (set_text [Str "- Mbps"]) ;;
  setElem ("latency" ++ cp) (set_text [Str "- ms"]) ;;
  setElem ("packetLoss" ++ cp) (set_text [Str "- %"]) ;;
  setElem ("jitter" ++ cp) (set_text [Str "- ms"]) ;;
  setElem ("progressBar" ++ cp) (set_width [Str "0%"]) ;;
  setElem ("progressText" ++ cp) (set_text [Str "Ready to test"]) ;;
  setElem ("speedTestLog" ++ cp) (set_children []) ;;
  addSpeedTestLog [Str "🗑️ Results cleared"] "info".

(** *** The periodic activities *)

(** [!peer.dc || peer.dc.readyState !== 'open'] *)
Definition channel_not_open (w : World) : bool :=
  match dc (peer w) with
  | Some ch => match readyState ch with open => false | _ => true end
  | None => true
  end.

(** [peer.dc.send(s)] on a [peer.dc] that is not [null] *)
Definition send (s : string) : M unit :=
  let* d := gets (fun w => dc (peer w)) in
  match d with
  | Some ch =>
      let* ch' := lift (channel_send host ch s) in
      Script.set_peer (peer_dc (Some ch'))
  | None => throw (TypeError "Cannot read properties of null (reading 'send')")
  end.

(** [startPacketStream()] *)
Definition startPacketStream : M unit :=
  let* f := gets (fun w => packetFrequency (speedTest w)) in
  let interval := div (Fin 1000) (setting f) in
  let* id := Script.setInterval (PacketStream 0) interval in
  set_speedTest (st_testInterval (Some id)).

(** ['x'.repeat(Math.max(0, speedTest.packetSize - 100))]; a [NaN] count
    repeats nothing. *)
Definition padding (size : option Z) : string :=
  match size with
  | Some z => JsString.repeat_char "x"%char (Z.to_nat (Z.max 0 (z - 100)))
  | None => EmptyString
  end.

(** The callback of [startPacketStream]; it returns the [packetId] its
    closure holds afterwards. *)
Definition packetStream_tick (packetId : Z) : M Z :=
  let* running := gets (fun w => isRunning (speedTest w)) in
  let* closed := gets channel_not_open in
  if negb running || closed then
    (let* t := gets (fun w => testInterval (speedTest w)) in
     match t with
     | Some id => Script.clearInterval id
     | None => ret tt
     end) ;;
    ret packetId
  else
    let* now := gets clock in
    let* size := gets (fun w => packetSize (speedTest w)) in
    let packet := JObj [("type", JStr "speed_test"); ("id", JNum packetId);
                        ("timestamp", JNum now); ("data", JStr (padding size))] in
    try_catch
      (let packetString := JSON_stringify host packet 0 in
       send packetString ;;
       set_speedTest (fun s => st_bytesSent (bytesSent s + Z.of_nat (String.length packetString)) s))
      (fun error => addSpeedTestLog [Str "❌ Error sending packet: "; Str (message error)] "error") ;;
    ret (packetId + 1)%Z.

(** [startLatencyTest()] *)
Definition startLatencyTest : M unit :=
  let* id := Script.setInterval LatencyTest (Fin 1000) in
  set_speedTest (st_latencyInterval (Some id)).

(** [Math.random().toString(36).substring(7)] *)
Definition random_string : M string :=
  let* n := gets randomCalls in
  modify (with_randomCalls (S n)) ;;
  ret (random_id host n).

(** The callback of [startLatencyTest] *)
Definition latencyTest_tick : M unit :=
  let* running := gets (fun w => isRunning (speedTest w)) in
  let* closed := gets channel_not_open in
  if negb running || closed then
    let* t := gets (fun w => latencyInterval (speedTest w)) in
    match t with
    | Some id => Script.clearInterval id
    | None => ret tt
    end
  else
    let* now := gets clock in
    let* id := random_string in
    let pingPacket := JObj [("type", JStr "ping"); ("timestamp", JNum now); ("id", JStr id)] in
    try_catch
      (send (JSON_stringify host pingPacket 0))
      (fun error => addSpeedTestLog [Str "❌ Error sending ping: "; Str (message error)] "error").

(** [startStatsCollection()] *)
Definition startStatsCollection : M unit :=
  let* now := gets clock in
  let* id := Script.setInterval (StatsCollection now 0) (Fin 500) in
  set_speedTest (st_statsInterval (Some id)).

(** The callback of [startStatsCollection]; it returns the [lastUpdate]
    and [lastBytesSent] its closure holds afterwards. *)
Definition statsCollection_tick (lastUpdate lastBytesSent : Z) : M (Z * Z) :=
  let* now := gets clock in
  let* st := gets speedTest in
  let elapsed := div (of_Z (now - stamp (startTime st))) (Fin 1000) in
  let progress := min2 (mul (div elapsed (setting (testDuration st))) (Fin 100)) (Fin 100) in
  let* cp := getCurrentPeer in
  setElem ("progressBar" ++ cp) (set_width [Num progress; Str "%"]) ;;
  setElem ("progressText" ++ cp)
    (set_text [Str "Testing... "; Round progress; Str "% ("; Round elapsed; Str "/";
               Num (setting (testDuration st)); Str "s)"]) ;;
  (if gt (timeDelta now lastUpdate) (Fin 0)
   then set_speedTest (fun s =>
          st_throughputTests
            (throughputTests s ++ [currentThroughput (bytesSent st) lastBytesSent now lastUpdate]) s)
   else ret tt) ;;
  updateSpeedMetrics ;;
  let* sent := gets (fun w => bytesSent (speedTest w)) in
  ret (now, sent).

(** [startSpeedTest()] *)
Definition startSpeedTest : M unit :=
  let* closed := gets channel_not_open in
  if closed then alert "Connection not ready! Please establish connection first."
  else
    let* running := gets (fun w => isRunning (speedTest w)) in
    if running then addSpeedTestLog [Str "⚠️ Speed test already running!"] "warning"
    else
      updateSpeedTestSettings ;;
      resetSpeedTestState ;;
      set_speedTest (st_isRunning true) ;;
      let* now := gets clock in
      set_speedTest (st_startTime (Some now)) ;;
      let* cp := getCurrentPeer in
      setElem ("startSpeedTest" ++ cp) (set_disabled true) ;;
      setElem ("stopSpeedTest" ++ cp) (set_disabled false) ;;
      setElem ("progressText" ++ cp) (set_text [Str "Testing..."]) ;;
      addSpeedTestLog [Str "🚀 Starting speed test..."] "info" ;;
      let* st := gets speedTest in
      addSpeedTestLog [Str "📊 Duration: "; Num (setting (testDuration st));
                       Str "s, Packet size: "; Num (setting (packetSize st));
                       Str "B, Frequency: "; Num (setting (packetFrequency st)); Str "/s"]
                      "info" ;;
      startPacketStream ;;
      startLatencyTest ;;
      startStatsCollection ;;
      let* _ := Script.setTimeout AutoStop (mul (setting (testDuration st)) (Fin 1000)) in
      ret tt.

(** The callback of the deadline timer of [startSpeedTest] *)
Definition autoStop : M unit :=
  let* running := gets (fun w => isRunning (speedTest w)) in
  if running then stopSpeedTest else ret tt.

(** *** Inbound packets *)

(** A property of an object literal: [JSON.stringify] leaves out a
    property whose value is [undefined]. *)
Definition member (name : string) (v : value) : list (string * JValue) :=
  match v with
  | Some j => [(name, j)]
  | None => []
  end.

(** [handleSpeedTestPacket(data)] *)
Definition handleSpeedTestPacket (data : string) : M unit :=
  try_catch
    (let* packet := lift (JSON_parse host data) in
     let* ty := lift (prop (Some packet) "type") in
     if is_string ty "speed_test" then
       set_speedTest (fun s => st_bytesReceived (bytesReceived s + Z.of_nat (String.length data)) s) ;;
       let* closed := gets channel_not_open in
       if closed then ret tt
       else
         let* id := lift (prop (Some packet) "id") in
         let* now := gets clock in
         let echo := JObj ([("type", JStr "speed_test_echo")] ++ member "originalId" id
                           ++ [("timestamp", JNum now)]) in
         send (JSON_stringify host echo 0)
     else if is_string ty "speed_test_echo" then ret tt
     else if is_string ty "ping" then
       let* closed := gets channel_not_open in
       if closed then ret tt
       else
         let* ts := lift (prop (Some packet) "timestamp") in
         let* id := lift (prop (Some packet) "id") in
         let* now := gets clock in
         let pong := JObj (([("type", JStr "pong")] ++ member "originalTimestamp" ts)
                           ++ member "id" id ++ [("timestamp", JNum now)]) in
         send (JSON_stringify host pong 0)
     else if is_string ty "pong" then
       let* now := gets clock in
       let* original := lift (prop (Some packet) "originalTimestamp") in
       let latency := sub (of_Z now) (Js.to_number (Env.to_number host) original) in
       set_speedTest (fun s => st_latencyTests (latencyTests s ++ [latency]) s)
     else ret tt)
    (fun _ => ret tt).

(** The tags of the probe packets, as [channel.onmessage] lists them. *)
Definition speed_test_tags : list string := ["speed_test"; "speed_test_echo"; "ping"; "pong"].

(** [channel.onmessage] as [setupDataChannel] of script.js installs it;
    the argument is [event.data]. *)
Definition onmessage (data : string) : M unit :=
  let* cp := getCurrentPeer in
  let* handled :=
    try_catch
      (let* packet := lift (JSON_parse host data) in
       let* ty := lift (prop (Some packet) "type") in
       if truthy ty && among speed_test_tags ty then
         let* loaded := gets speedTestLoaded in
         (if loaded then handleSpeedTestPacket data else ret tt) ;;
         ret true
       else ret false)
      (fun _ => ret false) in
  if handled then ret tt
  else addMessage data ("Peer " ++ (if String.eqb cp "A" then "B" else "A")).

(** *** Timers and events *)

(** A callback stored what its closure now holds. *)
Definition update_closure (id : positive) (cb : Callback) : M unit :=
  modify (fun w =>
    with_timers (alter (fun t => {| tm_callback := cb; tm_delay := tm_delay t;
                                    tm_repeat := tm_repeat t |}) id (timers w))
                (nextTimer w) w).

(** The timer [id] fires, if it is still set; a timeout is gone once it
    has fired. *)
Definition fire (id : positive) : M unit :=
  let* t := gets (fun w => timers w !! id) in
  match t with
  | None => ret tt
  | Some tm =>
      (if tm_repeat tm then ret tt else Script.clearInterval id) ;;
      match tm_callback tm with
      | GatheringTimeout => Script.gatheringTimeout host
      | AutoStop => autoStop
      | PacketStream packetId =>
          let* packetId' := packetStream_tick packetId in
          update_closure id (PacketStream packetId')
      | LatencyTest => latencyTest_tick
      | StatsCollection lastUpdate lastBytesSent =>
          let* last := statsCollection_tick lastUpdate lastBytesSent in
          update_closure id (StatsCollection (fst last) (snd last))
      end
  end.

(** The channel [peer.dc] refers to changes state; [onopen] and [onclose]
    run when it opens and closes. *)
Definition channel_state (st : ReadyState) : M unit :=
  let* d := gets (fun w => dc (peer w)) in
  match d with
  | Some ch =>
      Script.set_peer (peer_dc (Some {| ch_label := ch_label ch; ch_ordered := ch_ordered ch;
                                        readyState := st; ch_sent := ch_sent ch |})) ;;
      match st with
      | open => Script.channel_onopen
      | closed => Script.channel_onclose
      | _ => ret tt
      end
  | None => ret tt
  end.

(** What can happen next: the user acts, time passes, a promise of the
    transport settles, the transport or a timer calls back. *)
Inductive Event : Type :=
| ClockReads (now : Z)
| Typed (id : string) (v : string)
| SetCurrentPeer (p : string)
| Click_createCompleteOffer
| Click_createCompleteAnswer
| Click_setCompleteAnswer
| Click_resetPeer
| Click_startSpeedTest
| Click_stopSpeedTest
| Click_clearSpeedTestResults
| PromiseSettled (i : nat) (o : Outcome)
| IceCandidateEvent (c : option RTCIceCandidate)
| TimerFired (id : positive)
| DataChannelEvent (channel : Channel)
| ChannelStateChange (st : ReadyState)
| MessageEvent (data : string).

Definition handler (e : Event) : M unit :=
  match e with
  | ClockReads now => modify (with_clock now)
  | Typed id v => setElem id (set_value v)
  | SetCurrentPeer p => setCurrentPeer p
  | Click_createCompleteOffer => Script.createCompleteOffer
  | Click_createCompleteAnswer => Script.createCompleteAnswer host
  | Click_setCompleteAnswer => Script.setCompleteAnswer host
  | Click_resetPeer => Script.resetPeer
  | Click_startSpeedTest => startSpeedTest
  | Click_stopSpeedTest => stopSpeedTest
  | Click_clearSpeedTestResults => clearSpeedTestResults
  | PromiseSettled i o => Script.settle i o
  | IceCandidateEvent c => Script.onicecandidate host c
  | TimerFired id => fire id
  | DataChannelEvent channel => Script.setupDataChannel channel
  | ChannelStateChange st => channel_state st
  | MessageEvent data => onmessage data
  end.

Definition step (w : World) (e : Event) : World := exec (handler e) w.

Definition run (w : World) (es : list Event) : World := fold_left step es w.

End WithHost.

End SpeedTestJs.

(** ** A reference host

    An executable host for running the model on concrete inputs: JSON
    restricted to integer numbers and to the escapes of one character, a
    decimal [parseInt], and a channel that accepts a message exactly when
    it is open.  The theorems below hold for every host. *)

Module RefHost.

Import JsNum Js Env.

(** The double quote, and a quoted name as JSON writes it. *)
Definition dq : ascii := ascii_of_nat 34.
Definition quoted (s : string) : string := String dq (s ++ String dq EmptyString).

Definition is_digit (c : ascii) : bool :=
  let n := nat_of_ascii c in (48 <=? n)%nat && (n <=? 57)%nat.

Definition is_json_space (c : ascii) : bool :=
  let n := nat_of_ascii c in
  (n =? 32)%nat || (n =? 9)%nat || (n =? 10)%nat || (n =? 13)%nat.

Fixpoint skip_ws (l : list ascii) : list ascii :=
  match l with
  | c :: r => if is_json_space c then skip_ws r else l
  | [] => []
  end.

(** The digits at the head of [l], as a number, and what follows them. *)
Fixpoint digits (acc : Z) (l : list ascii) : Z * list ascii :=
  match l with
  | c :: r =>
      if is_digit c then digits (10 * acc + Z.of_nat (nat_of_ascii c - 48)) r
      else (acc, l)
  | [] => (acc, [])
  end.

(** A JSON integer: no leading zero, no fraction, no exponent. *)
Definition parse_int (l : list ascii) : option (Z * list ascii) :=
  let '(negative, l1) :=
    match l with
    | c :: r => if Ascii.eqb c "-"%char then (true, r) else (false, l)
    | [] => (false, l)
    end in
  match l1 with
  | c :: r =>
      if negb (is_digit c) then None
      else
        let '(z, rest) := digits 0 l1 in
        let leading_zero :=
          Ascii.eqb c "0"%char && match r with d :: _ => is_digit d | [] => false end in
        let continues :=
          match rest with
          | d :: _ => Ascii.eqb d "."%char || Ascii.eqb d "e"%char || Ascii.eqb d "E"%char
          | [] => false
          end in
        if leading_zero || continues then None
        else Some (if negative then (- z)%Z else z, rest)
  | [] => None
  end.

(** The character an escape of one letter stands for. *)
Definition unescape (c : ascii) : option ascii :=
  let n := nat_of_ascii c in
  if (n =? 34)%nat || (n =? 92)%nat || (n =? 47)%nat then Some c
  else if Ascii.eqb c "b"%char then Some (ascii_of_nat 8)
  else if Ascii.eqb c "f"%char then Some (ascii_of_nat 12)
  else if Ascii.eqb c "n"%char then Some (ascii_of_nat 10)
  else if Ascii.eqb c "r"%char then Some (ascii_of_nat 13)
  else if Ascii.eqb c "t"%char then Some (ascii_of_nat 9)
  else None.

(** The rest of a string literal, after its opening quote. *)
Fixpoint parse_string (acc : list ascii) (l : list ascii) : option (string * list ascii) :=
  match l with
  | [] => None
  | c :: r =>
      if Ascii.eqb c dq then Some (JsString.of_chars (rev acc), r)
      else if (nat_of_ascii c =? 92)%nat then
        match r with
        | e :: r' =>
            match unescape e with
            | Some x => parse_string (x :: acc) r'
            | None => None
            end
        | [] => None
        end
      else if (nat_of_ascii c <? 32)%nat then None
      else parse_string (c :: acc) r
  end.

Definition literal (word : string) (v : JValue) (l : list ascii) : option (JValue * list ascii) :=
  if JsString.starts_with (JsString.chars word) l
  then Some (v, skipn (String.length word) l)
  else None.

Fixpoint parse_value (fuel : nat) (l : list ascii) : option (JValue * list ascii) :=
  match fuel with
  | O => None
  | S fuel' =>
      match skip_ws l with
      | [] => None
      | c :: r =>
          if Ascii.eqb c "n"%char then literal "null" JNull (c :: r)
          else if Ascii.eqb c "t"%char then literal "true" (JBool true) (c :: r)
          else if Ascii.eqb c "f"%char then literal "false" (JBool false) (c :: r)
          else if Ascii.eqb c dq then
            match parse_string [] r with
            | Some (s, rest) => Some (JStr s, rest)
            | None => None
            end
          else if Ascii.eqb c "["%char then
            match skip_ws r with
            | d :: rest => if Ascii.eqb d "]"%char then Some (JArr [], rest)
                           else parse_items fuel' [] r
            | [] => None
            end
          else if Ascii.eqb c "{"%char then
            match skip_ws r with
            | d :: rest => if Ascii.eqb d "}"%char then Some (JObj [], rest)
                           else parse_members fuel' [] r
            | [] => None
            end
          else
            match parse_int (c :: r) with
            | Some (z, rest) => Some (JNum z, rest)
            | None => None
            end
      end
  end
with parse_items (fuel : nat) (acc : list JValue) (l : list ascii)
    : option (JValue * list ascii) :=
  match fuel with
  | O => None
  | S fuel' =>
      match parse_value fuel' l with
      | Some (v, rest) =>
          match skip_ws rest with
          | d :: rest' =>
              if Ascii.eqb d ","%char then parse_items fuel' (v :: acc) rest'
              else if Ascii.eqb d "]"%char then Some (JArr (rev (v :: acc)), rest')
              else None
          | [] => None
          end
      | None => None
      end
  end
with parse_members (fuel : nat) (acc : list (string * JValue)) (l : list ascii)
    : option (JValue * list ascii) :=
  match fuel with
  | O => None
  | S fuel' =>
      match skip_ws l with
      | q :: r =>
          if negb (Ascii.eqb q dq) then None
          else
            match parse_string [] r with
            | Some (name, rest) =>
                match skip_ws rest with
                | colon :: rest1 =>
                    if negb (Ascii.eqb colon ":"%char) then None
                    else
                      match parse_value fuel' rest1 with
                      | Some (v, rest2) =>
                          match skip_ws rest2 with
                          | d :: rest3 =>
                              if Ascii.eqb d ","%char
                              then parse_members fuel' ((name, v) :: acc) rest3
                              else if Ascii.eqb d "}"%char
                              then Some (JObj (rev ((name, v) :: acc)), rest3)
                              else None
                          | [] => None
                          end
                      | None => None
                      end
                | [] => None
                end
            | None => None
            end
      | [] => None
      end
  end.

(** [JSON.parse(s)] *)
Definition JSON_parse (s : string) : exn + JValue :=
  let l := JsString.chars s in
  match parse_value (2 * S (length l)) l with
  | Some (v, rest) =>
      match skip_ws rest with
      | [] => inr v
      | _ :: _ => inl (SyntaxError "Unexpected non-whitespace character after JSON")
      end
  | None => inl (SyntaxError "Unexpected token in JSON")
  end.

Definition hex_digit (n : nat) : ascii :=
  if (n <? 10)%nat then ascii_of_nat (48 + n) else ascii_of_nat (87 + n).

(** A character inside a string literal of the output. *)
Definition escape (c : ascii) : list ascii :=
  let n := nat_of_ascii c in
  if (n =? 34)%nat then [ascii_of_nat 92; dq]
  else if (n =? 92)%nat then [ascii_of_nat 92; ascii_of_nat 92]
  else if (n =? 8)%nat then [ascii_of_nat 92; "b"%char]
  else if (n =? 12)%nat then [ascii_of_nat 92; "f"%char]
  else if (n =? 10)%nat then [ascii_of_nat 92; "n"%char]
  else if (n =? 13)%nat then [ascii_of_nat 92; "r"%char]
  else if (n =? 9)%nat then [ascii_of_nat 92; "t"%char]
  else if (n <? 32)%nat
  then [ascii_of_nat 92; "u"%char; "0"%char; "0"%char; hex_digit (n / 16); hex_digit (n mod 16)]
  else [c].

Definition string_literal (s : string) : string :=
  String dq (JsString.of_chars (flat_map escape (JsString.chars s)) ++ String dq EmptyString).

Definition newline : string := String (ascii_of_nat 10) EmptyString.
Definition spaces (n : nat) : string := JsString.repeat_char " "%char n.

(** The items of an array or an object between their brackets, at
    nesting depth [depth]. *)
Definition bracketed (space depth : nat) (op cl : string) (items : list string) : string :=
  match items with
  | [] => op ++ cl
  | _ =>
      match space with
      | O => op ++ String.concat "," items ++ cl
      | _ =>
          let inner := newline ++ spaces (space * S depth) in
          op ++ inner ++ String.concat ("," ++ inner) items
             ++ newline ++ spaces (space * depth) ++ cl
      end
  end.

Fixpoint stringify_at (space depth : nat) (v : JValue) : string :=
  match v with
  | JNull => "null"
  | JBool b => if b then "true" else "false"
  | JNum z => pretty z
  | JStr s => string_literal s
  | JArr items =>
      bracketed space depth "[" "]" (map (stringify_at space (S depth)) items)
  | JObj props =>
      let colon := match space with O => ":" | _ => ": " end in
      bracketed space depth "{" "}"
        (map (fun kv => string_literal (fst kv) ++ colon ++ stringify_at space (S depth) (snd kv))
             props)
  end.

(** [JSON.stringify(v, null, space)] *)
Definition JSON_stringify (v : JValue) (space : nat) : string := stringify_at space 0 v.

(** [parseInt(s)] in base ten. *)
Definition parseInt (s : string) : option Z :=
  let l := JsString.drop_spaces (JsString.chars s) in
  let '(negative, l1) :=
    match l with
    | c :: r =>
        if Ascii.eqb c "-"%char then (true, r)
        else if Ascii.eqb c "+"%char then (false, r)
        else (false, l)
    | [] => (false, l)
    end in
  match l1 with
  | c :: _ =>
      if is_digit c
      then let z := fst (digits 0 l1) in Some (if negative then (- z)%Z else z)
      else None
  | [] => None
  end.

(** [ToNumber] of a string holding a decimal integer, of the empty string
    and of an array of at most one such element; anything else is [NaN]. *)
Definition string_to_number (s : string) : number :=
  let l := JsString.chars (JsString.trim s) in
  match l with
  | [] => Fin 0
  | _ =>
      match parse_int l with
      | Some (z, []) => of_Z z
      | _ => NaN
      end
  end.

Definition to_number (v : JValue) : number :=
  match v with
  | JStr s => string_to_number s
  | JArr [] => Fin 0
  | JArr [JNum z] => of_Z z
  | JArr [JStr s] => string_to_number s
  | _ => NaN
  end.

(** [channel.send(s)]: an [InvalidStateError] unless the channel is open. *)
Definition channel_send (ch : Channel) (s : string) : exn + Channel :=
  match readyState ch with
  | open =>
      inr {| ch_label := ch_label ch; ch_ordered := ch_ordered ch;
             readyState := open; ch_sent := ch_sent ch ++ [s] |}
  | _ => inl (DOMException "RTCDataChannel.readyState is not 'open'")
  end.

Definition host : Host :=
  {| Env.JSON_parse := JSON_parse;
     Env.JSON_stringify := JSON_stringify;
     Env.parseInt := parseInt;
     Env.random_id := fun n => "r" ++ pretty n;
     Env.to_number := to_number;
     Env.channel_send := channel_send |}.

(** The globals as the scripts initialise them, on a page whose text
    fields are empty and whose probe settings show their default options.
    The array literal of [peer.pendingCandidates] is at location 0. *)
Definition initial_peer : Peer :=
  {| pc := None; dc := None; pendingCandidates := 0%nat;
     iceGatheringComplete := false; completeSignalingData := None |}.

Definition initial_speedTest : SpeedTest :=
  {| isRunning := false; startTime := None; endTime := None;
     bytesSent := 0; bytesReceived := 0; packetsLost := 0;
     latencyTests := []; throughputTests := [];
     testInterval := None; latencyInterval := None; statsInterval := None;
     testDuration := Some 10%Z; packetSize := Some 1024%Z; packetFrequency := Some 100%Z |}.

(** A [select] of the probe settings with its default option. *)
Definition select (v : string) : Elem :=
  {| el_value := v; el_text := []; el_class := EmptyString;
     el_children := []; el_disabled := false; el_width := [] |}.

Definition initial_document : gmap string Elem :=
  list_to_map
    [("testDurationA", select "10"); ("packetSizeA", select "1024");
     ("packetFrequencyA", select "100");
     ("testDurationB", select "10"); ("packetSizeB", select "1024");
     ("packetFrequencyB", select "100")].

Definition initial : World :=
  {| clock := 0; currentPeer := "A"; peer := initial_peer; speedTest := initial_speedTest;
     heap := {[ 0%nat := [] ]}; document := initial_document; alerts := [];
     timers := ∅; nextTimer := 1%positive; facade := []; nextPc := 0;
     pending := []; randomCalls := 0; speedTestLoaded := true |}.

End RefHost.

(** * What the properties speak about *)

(** ** The figures of the specification, over real numbers *)

Module Spec.

Local Open Scope R_scope.

Definition total (xs : list R) : R := fold_right Rplus 0 xs.

(** The arithmetic mean. *)
Definition mean (xs : list R) : R := total xs / INR (length xs).

(** The population standard deviation, [sqrt(mean((x - mean)^2))]. *)
Definition population_stddev (xs : list R) : R :=
  R_sqrt.sqrt (mean (map (fun x => (x - mean xs) ^ 2) xs)).



(** Megabits per second: [bytes * 8 / (seconds * 1,048,576)]. *)
Definition mbps (bytes : Z) (seconds : R) : R :=
  (IZR bytes * 8) / (seconds * 1048576).

(** Seconds between two millisecond timestamps. *)
Definition seconds (from to : Z) : R := IZR (to - from) / 1000.

End Spec.

Import JsNum Js Env Monad Upd Utils SpeedTestJs.

(** ** Observations of a world *)

Section Observations.

Variable host : Host.

(** The timer table once [stopSpeedTest] or [resetSpeedTestState] has
    cleared the three stored handles. *)
Definition without_handle (h : option positive) (tm : gmap positive Timer) : gmap positive Timer :=
  match h with
  | Some id => delete id tm
  | None => tm
  end.

Definition without_intervals (s : SpeedTest) (tm : gmap positive Timer) : gmap positive Timer :=
  without_handle (statsInterval s)
    (without_handle (latencyInterval s) (without_handle (testInterval s) tm)).

(** The message parses and the [type] of the parsed value is one of the
    four probe tags. *)
Definition recognized (data : string) : bool :=
  match JSON_parse host data with
  | inr packet =>
      match prop (Some packet) "type" with
      | inr ty => among speed_test_tags ty
      | inl _ => false
      end
  | inl _ => false
  end.

(** The sender shown for a chat message. *)
Definition chat_sender (w : World) : string :=
  "Peer " ++ (if String.eqb (currentPeer w) "A" then "B" else "A").

(** The log line with which [completeSignalingReady] announces a bundle. *)
Definition is_ready_line (l : Line) : bool :=
  match ln_html l with
  | Str s :: _ =>
      String.eqb s "✅ Complete offer ready with " || String.eqb s "✅ Complete answer ready with "
  | _ => false
  end.

(** How many times a bundle has been announced in the debug log of the
    current peer. *)
Definition completions (w : World) : nat :=
  length (filter is_ready_line
            (el_children (getElementById ("debug" ++ currentPeer w) w))).

(** The field of the page the current peer's bundle is written to. *)
Definition bundle_field (cp : string) : string :=
  if String.eqb cp "A" then "completeOfferA" else "completeAnswerB".

(** The text of a bundle with the given candidates. *)
Definition bundle_text (b : Bundle) (cands : list RTCIceCandidate) : string :=
  JSON_stringify host
    (JObj [("type", JStr (type b)); ("sdp", JStr (sdp b));
           ("candidates", JArr (map cand_toJSON cands))]) 2.

Definition candidate_events (cs : list RTCIceCandidate) : list Event :=
  map (fun c => IceCandidateEvent (Some c)) cs.

(** The parts of a world that candidate events, log lines and the
    publication of a bundle leave alone. *)
Definition same_session (w w' : World) : Prop :=
  currentPeer w' = currentPeer w /\ timers w' = timers w /\ nextTimer w' = nextTimer w /\
  facade w' = facade w /\ pending w' = pending w /\ speedTest w' = speedTest w /\
  alerts w' = alerts w.

(** [bundle.candidates.length], as a value or the exception the access
    throws. *)
Definition candidates_length_of (bundle : JValue) : exn + value :=
  match prop (Some bundle) "candidates" with
  | inl e => inl e
  | inr cands => prop cands "length"
  end.

(** [if (peer.pc) peer.pc.close()] as transport calls. *)
Definition closes (w : World) : list FacadeCall :=
  match pc (peer w) with
  | Some id => [Close id]
  | None => []
  end.

(** The line with which both revisions of [setCompleteAnswer] report the
    candidates as added. *)
Definition added_line (now : Z) (n : value) : Line :=
  {| ln_color := Some (color_of "success"); ln_time := Some now;
     ln_html := [Str "✅ Added "; Val n; Str " remote candidates"] |}.

(** The promise parked at index [i] settles [n] times in a row, each time
    with [o]. *)
Fixpoint settle_times (i n : nat) (o : Outcome) (w : World) : World :=
  match n with
  | O => w
  | S n' => settle_times i n' o (exec (Script.settle i o) w)
  end.

End Observations.

(** ** Scenarios on the reference host *)

Module Scenario.

Definition q : string -> string := RefHost.quoted.

Definition run (w : World) (es : list Event) : World := SpeedTestJs.run RefHost.host w es.

(** Peer A has created its offer and the channel has opened. *)
Definition probe_ready : World :=
  run RefHost.initial [Click_createCompleteOffer; ChannelStateChange open].

(** ... and has started a probe run at time 1000. *)
Definition probe_running : World :=
  run probe_ready [ClockReads 1000; Click_startSpeedTest].

(** [{"type":"pong","id":"r0","originalTimestamp":1010,"timestamp":1020}] *)
Definition pong_1010 : string :=
  "{" ++ q "type" ++ ":" ++ q "pong" ++ "," ++ q "id" ++ ":" ++ q "r0" ++ ","
      ++ q "originalTimestamp" ++ ":1010," ++ q "timestamp" ++ ":1020}".

(** One load packet has been sent, one heartbeat has been answered, and
    the run has been stopped at time 2000. *)
Definition probe_stopped : World :=
  run probe_running
    [ClockReads 1010; TimerFired 1; ClockReads 1040; MessageEvent pong_1010;
     ClockReads 2000; Click_stopSpeedTest].

(** [{"type":"chat","text":"hi"}] *)
Definition chat_json : string :=
  "{" ++ q "type" ++ ":" ++ q "chat" ++ "," ++ q "text" ++ ":" ++ q "hi" ++ "}".

(** Peer A has created its offer, both promises have resolved: the bundle
    exists, gathering is under way and the 5000 ms timer has handle 1. *)
Definition offer_round : World :=
  run RefHost.initial
    [Click_createCompleteOffer; PromiseSettled 0 (Resolved "v=0"); PromiseSettled 0 (Resolved "")].

Definition offer_bundle : Bundle := {| type := "offer"; sdp := "v=0"; candidates := 2 |}.

Definition gathering_timer : Timer :=
  {| tm_callback := GatheringTimeout; tm_delay := Fin 5000; tm_repeat := false |}.

Definition host_candidate : RTCIceCandidate :=
  {| candidate := "candidate:1 1 udp 2122260223 192.168.1.2 54321 typ host";
     cand_members := [("sdpMid", JStr "0"); ("sdpMLineIndex", JNum 0)] |}.

Definition srflx_candidate : RTCIceCandidate :=
  {| candidate := "candidate:2 1 udp 1686052607 203.0.113.7 54321 typ srflx";
     cand_members := [("sdpMid", JStr "0"); ("sdpMLineIndex", JNum 0)] |}.

(** [{"type":"answer","sdp":"v=0","candidates":[{"candidate":"c1"},{"candidate":"c2"}]}] *)
Definition answer_text : string :=
  "{" ++ q "type" ++ ":" ++ q "answer" ++ "," ++ q "sdp" ++ ":" ++ q "v=0" ++ ","
      ++ q "candidates" ++ ":[{" ++ q "candidate" ++ ":" ++ q "c1" ++ "},{"
      ++ q "candidate" ++ ":" ++ q "c2" ++ "}]}".

Definition answer_candidates : list JValue :=
  [JObj [("candidate", JStr "c1")]; JObj [("candidate", JStr "c2")]].

Definition answer_json : JValue :=
  JObj [("type", JStr "answer"); ("sdp", JStr "v=0"); ("candidates", JArr answer_candidates)].

(** The offerer has pasted the answer bundle into its field. *)
Definition answer_pasted : World := run offer_round [Typed "completeAnswerA" answer_text].

(** [{"sdp":"","candidates":[]}]: a record with an empty [sdp]. *)
Definition empty_sdp_text : string :=
  "{" ++ q "sdp" ++ ":" ++ q EmptyString ++ "," ++ q "candidates" ++ ":[]}".

(** Peer B has pasted that text as the offer. *)
Definition empty_sdp_pasted : World :=
  run RefHost.initial [SetCurrentPeer "B"; Typed "completeOfferB" empty_sdp_text].

End Scenario.

(** * More of the scripts *)

(** ** utils.js: chat *)

Module Chat.
Local Open Scope M_scope.

Section WithHost.

Variable host : Host.

(** [sendMessage()] *)
Definition sendMessage : M unit :=
  let* cp := getCurrentPeer in
  let input := "messageInput" ++ cp in
  let* v := gets (fun w => el_value (getElementById input w)) in
  let message := JsString.trim v in
  let* closed := gets channel_not_open in
  if negb (String.eqb message EmptyString) && negb closed then
    send host message ;;
    let* cp' := getCurrentPeer in
    addMessage message ("Peer " ++ cp') ;;
    setElem input (set_value EmptyString)
  else if String.eqb message EmptyString then alert "Please enter a message!"
  else alert "Connection not ready!".

(** [channel.onmessage] of the first revision of script.js: every message
    is a chat message. *)
Definition onmessage_legacy (data : string) : M unit :=
  let* cp := getCurrentPeer in
  addMessage data ("Peer " ++ (if String.eqb cp "A" then "B" else "A")).

End WithHost.

End Chat.

(** ** script.js: connection state and the selected candidate pair *)

Module Connection.

Local Open Scope M_scope.

(** An entry of the [RTCStatsReport] that [getStats()] resolves with: the
    members the script reads.  [id] and [type] are always there; another
    member is absent ([None]) or has the type the statistics interface
    gives it. *)
Record Report : Type := {
  rp_id : string;
  rp_type : string;
  rp_state : option string;
  rp_localCandidateId : option string;
  rp_remoteCandidateId : option string;
  rp_candidateType : option string;
  rp_address : option string;
  rp_port : option Z;
  rp_ip : option string;
  rp_protocol : option string;
  rp_priority : option Z;
  rp_bytesSent : option Z;
  rp_bytesReceived : option Z;
  rp_currentRoundTripTime : option number
}.

(** Truthiness of an optional string and of an optional number. *)
Definition filled (v : option string) : bool :=
  match v with
  | Some s => negb (String.eqb s EmptyString)
  | None => false
  end.

Definition nonzero (v : option Z) : bool :=
  match v with
  | Some z => negb (z =? 0)%Z
  | None => false
  end.

(** [v || dflt] *)
Definition or_else (v : option string) (dflt : string) : string :=
  match v with
  | Some s => if String.eqb s EmptyString then dflt else s
  | None => dflt
  end.

(** [analyzeConnectionType(localType, remoteType, localAddr, remoteAddr)] *)
Definition type_explanation (localType remoteType : string) : string :=
  if String.eqb localType "host" && String.eqb remoteType "host"
  then "Direct peer-to-peer connection (both on same network)"
  else if String.eqb localType "host" && String.eqb remoteType "prflx"
  then "Peer-reflexive connection (remote peer discovered via connectivity checks)"
  else if String.eqb localType "host" && String.eqb remoteType "srflx"
  then "Connection through STUN server (NAT traversal successful)"
  else if String.eqb localType "srflx" && String.eqb remoteType "srflx"
  then "Both peers using STUN servers (both behind NAT)"
  else if JsString.includes localType "relay" || JsString.includes remoteType "relay"
  then "Connection through TURN relay server (direct connection failed)"
  else if String.eqb remoteType "prflx"
  then "Using peer-reflexive candidate (discovered during connectivity checks)"
  else "Connection type: Local(" ++ localType ++ ") ↔ Remote(" ++ remoteType ++ ")".

Definition address_explanation (localAddr remoteAddr : string) : string :=
  let localIsLocal := JsString.includes localAddr ".local" in
  let remoteIsLocal := JsString.includes remoteAddr ".local" in
  if localIsLocal && remoteIsLocal then " - Both using local network addresses"
  else if localIsLocal && negb remoteIsLocal then " - Local network to public/remote address"
  else if negb localIsLocal && remoteIsLocal then " - Public/remote to local network address"
  else " - Both using public/remote addresses".

Definition analyzeConnectionType (localType remoteType localAddr remoteAddr : string) : M unit :=
  addDebugInfo
    [Str ("💡 " ++ type_explanation localType remoteType
          ++ address_explanation localAddr remoteAddr)]
    "info".

(** The two maps the first pass over the statistics fills:
    [localCandidates] and [remoteCandidates], by report id. *)
Definition collect_step (maps : gmap string Report * gmap string Report) (report : Report)
    : gmap string Report * gmap string Report :=
  if String.eqb (rp_type report) "local-candidate"
  then (<[rp_id report := report]> (fst maps), snd maps)
  else if String.eqb (rp_type report) "remote-candidate"
  then (fst maps, <[rp_id report := report]> (snd maps))
  else maps.

Definition collect (stats : list Report) : gmap string Report * gmap string Report :=
  fold_left collect_step stats (∅, ∅).

(** [map.get(key)]; the key may be [undefined]. *)
Definition get (m : gmap string Report) (key : option string) : option Report :=
  match key with
  | Some k => m !! k
  | None => None
  end.

(** [candidateType || (address && address.includes('.local') ? 'host' : 'unknown')] *)
Definition local_type (c : Report) : string :=
  if filled (rp_candidateType c) then default EmptyString (rp_candidateType c)
  else if filled (rp_address c)
          && JsString.includes (default EmptyString (rp_address c)) ".local"
       then "host" else "unknown".

Definition remote_type (c : Report) : string := or_else (rp_candidateType c) "unknown".

(** [address && port ? `${address}:${port}` : `${ip || 'unknown'}:${port || '?'}`] *)
Definition candidate_addr (c : Report) : string :=
  if filled (rp_address c) && nonzero (rp_port c)
  then default EmptyString (rp_address c) ++ ":" ++ pretty (default 0%Z (rp_port c))
  else or_else (rp_ip c) "unknown" ++ ":"
       ++ (if nonzero (rp_port c) then pretty (default 0%Z (rp_port c)) else "?").

(** The callback of the second pass. *)
Definition show_pair (locals remotes : gmap string Report) (report : Report) : M unit :=
  if String.eqb (rp_type report) "candidate-pair"
     && match rp_state report with Some s => String.eqb s "succeeded" | None => false end
  then
    match get locals (rp_localCandidateId report),
          get remotes (rp_remoteCandidateId report) with
    | Some localCandidate, Some remoteCandidate =>
        let localType := local_type localCandidate in
        let remoteType := remote_type remoteCandidate in
        let localAddr := candidate_addr localCandidate in
        let remoteAddr := candidate_addr remoteCandidate in
        addDebugInfo [Str "🎯 SELECTED PAIR:"] "success" ;;
        addDebugInfo [Str "   Local: "; Str (JsString.toUpperCase localType); Str " ";
                      Str localAddr] "success" ;;
        addDebugInfo [Str "   Remote: "; Str (JsString.toUpperCase remoteType); Str " ";
                      Str remoteAddr] "success" ;;
        when (filled (rp_protocol localCandidate))
          (addDebugInfo [Str "   Protocol: ";
                         Str (JsString.toUpperCase
                                (default EmptyString (rp_protocol localCandidate)))]
                        "info") ;;
        match rp_bytesSent report with
        | Some sent =>
            addDebugInfo [Str "   📊 Bytes sent: "; Num (of_Z sent); Str ", received: ";
                          Val (option_map JNum (rp_bytesReceived report))] "info"
        | None => ret tt
        end ;;
        match rp_currentRoundTripTime report with
        | Some rtt =>
            addDebugInfo [Str "   ⏱️ RTT: "; Round (mul rtt (Fin 1000)); Str "ms"] "info"
        | None => ret tt
        end ;;
        when (nonzero (rp_priority localCandidate) && nonzero (rp_priority remoteCandidate))
          (addDebugInfo [Str "   🏆 Priority: Local ";
                         Num (of_Z (default 0%Z (rp_priority localCandidate)));
                         Str ", Remote ";
                         Num (of_Z (default 0%Z (rp_priority remoteCandidate)))] "info") ;;
        analyzeConnectionType localType remoteType localAddr remoteAddr
    | _, _ => ret tt
    end
  else ret tt.

(** [list.forEach(f)] *)
Fixpoint forEach {A} (f : A -> M unit) (l : list A) : M unit :=
  match l with
  | [] => ret tt
  | x :: r => f x ;; forEach f r
  end.

(** The [catch] block of [showSelectedCandidates]. *)
Definition stats_unavailable (error : exn) : M unit :=
  addDebugInfo [Str "❌ Could not get connection stats: "; Str (message error)] "warning".

(** [showSelectedCandidates()] up to [await peer.pc.getStats()].  The call
    and the suspended function are not entered in [facade] and [pending],
    which list the signalling calls; the settlement of the promise is the
    argument of [showSelectedCandidates_settled]. *)
Definition showSelectedCandidates : M unit :=
  try_catch
    (let* _ := Script.peer_pc_receiver "getStats" in ret tt)
    stats_unavailable.

Definition showSelectedCandidates_settled (o : exn + list Report) : M unit :=
  try_catch
    (match o with
     | inl e => throw e
     | inr stats =>
         let maps := collect stats in
         forEach (show_pair (fst maps) (snd maps)) stats
     end)
    stats_unavailable.

(** [peer.pc.onconnectionstatechange]; the argument is what
    [peer.pc.connectionState] reads. *)
Definition onconnectionstatechange (connectionState : string) : M unit :=
  let* _ := Script.peer_pc_receiver "connectionState" in
  let state := connectionState in
  addDebugInfo [Str "🔗 Connection: "; Str (JsString.toUpperCase state)]
    (if String.eqb state "connected" then "success"
     else if String.eqb state "failed" then "error" else "info") ;;
  if String.eqb state "connected" then updateStatus "Connected" ;; showSelectedCandidates
  else if String.eqb state "connecting" then updateStatus "Connecting..."
  else if String.eqb state "disconnected" || String.eqb state "failed"
  then updateStatus "Disconnected"
  else ret tt.

(** [peer.pc.oniceconnectionstatechange]; the argument is what
    [peer.pc.iceConnectionState] reads. *)
Definition oniceconnectionstatechange (iceConnectionState : string) : M unit :=
  let* _ := Script.peer_pc_receiver "iceConnectionState" in
  let state := iceConnectionState in
  addDebugInfo [Str "🧊 ICE: "; Str (JsString.toUpperCase state)]
    (if String.eqb state "connected" || String.eqb state "completed" then "success"
     else if String.eqb state "failed" then "error" else "info") ;;
  if String.eqb state "connected" then showSelectedCandidates else ret tt.

End Connection.

(** ** utils.js: tabs and the location hash *)

Module Tabs.

(** The part of the browser the tab functions touch: the elements with
    their class lists, [window.location.hash] and the global
    [currentPeer]. *)
Record Node : Type := {
  nd_id : string;              (* id attribute, empty when there is none *)
  nd_classes : list string;    (* classList *)
  nd_onclick : string          (* onclick attribute *)
}.

Record View : Type := {
  nodes : list Node;
  fragment : string;           (* the fragment of the location, without # *)
  current : string             (* currentPeer *)
}.

(** Reading and assigning [window.location.hash]. *)
Definition location_hash (v : View) : string :=
  if String.eqb (fragment v) EmptyString then EmptyString else "#" ++ fragment v.

Definition set_location_hash (s : string) (v : View) : View :=
  {| nodes := nodes v;
     fragment := match s with
                 | String c r => if Ascii.eqb c "#"%char then r else s
                 | EmptyString => s
                 end;
     current := current v |}.

Definition set_current (p : string) (v : View) : View :=
  {| nodes := nodes v; fragment := fragment v; current := p |}.

Definition has_class (c : string) (n : Node) : bool :=
  existsb (String.eqb c) (nd_classes n).

(** [node.classList.remove(c)] and [node.classList.add(c)] *)
Definition classList_remove (c : string) (n : Node) : Node :=
  {| nd_id := nd_id n;
     nd_classes := List.filter (fun x => negb (String.eqb c x)) (nd_classes n);
     nd_onclick := nd_onclick n |}.

Definition classList_add (c : string) (n : Node) : Node :=
  if has_class c n then n
  else {| nd_id := nd_id n; nd_classes := nd_classes n ++ [c]; nd_onclick := nd_onclick n |}.

(** [document.querySelectorAll('.' + c).forEach(n => n.classList.remove('active'))] *)
Definition deactivate (c : string) (l : list Node) : list Node :=
  map (fun n => if has_class c n then classList_remove "active" n else n) l.

(** The position of the first node that satisfies [p]: the element
    [getElementById] and [querySelector] return. *)
Fixpoint find_index (p : Node -> bool) (l : list Node) : option nat :=
  match l with
  | [] => None
  | n :: r => if p n then Some 0%nat else option_map S (find_index p r)
  end.

(** [document.getElementById(id)]: no element has the empty id. *)
Definition getElementById (id : string) (l : list Node) : option nat :=
  if String.eqb id EmptyString then None
  else find_index (fun n => String.eqb (nd_id n) id) l.

(** [document.querySelector(`[onclick="switchTab('${tabId}')"]`)] *)
Definition button_of (tabId : string) (l : list Node) : option nat :=
  find_index (fun n => String.eqb (nd_onclick n) ("switchTab('" ++ tabId ++ "')")) l.

Definition activate (i : nat) (l : list Node) : list Node :=
  match l !! i with
  | Some n => <[i := classList_add "active" n]> l
  | None => l
  end.

Definition with_nodes (l : list Node) (v : View) : View :=
  {| nodes := l; fragment := fragment v; current := current v |}.

Definition null_classList : exn :=
  TypeError "Cannot read properties of null (reading 'classList')".

(** [switchTab(tabId)], called from a click handler; [target] is the
    element [event.target] refers to, by its position in the document (a
    position past the end: an element that is not among [nodes]). *)
Definition switchTab (tabId : string) (target : nat) (v : View) : (exn + unit) * View :=
  let v1 := with_nodes (deactivate "tab-button" (deactivate "tab-content" (nodes v))) v in
  match getElementById tabId (nodes v1) with
  | None => (inl null_classList, v1)
  | Some tab =>
      let v2 := with_nodes (activate target (activate tab (nodes v1))) v1 in
      let v3 := set_current (if String.eqb tabId "peer-a" then "A" else "B") v2 in
      (inr tt, set_location_hash (if String.eqb (current v3) "A" then "peer1" else "peer2") v3)
  end.

(** [initializeFromHash()] *)
Definition initializeFromHash (v : View) : (exn + unit) * View :=
  let hash := location_hash v in
  if String.eqb hash "#peer1" || String.eqb hash "#peer2" then
    let tabId := if String.eqb hash "#peer1" then "peer-a" else "peer-b" in
    let v1 := set_current (if String.eqb hash "#peer1" then "A" else "B") v in
    let v2 := with_nodes (deactivate "tab-button" (deactivate "tab-content" (nodes v1))) v1 in
    match getElementById tabId (nodes v2) with
    | None => (inl null_classList, v2)
    | Some tab =>
        let v3 := with_nodes (activate tab (nodes v2)) v2 in
        match button_of tabId (nodes v3) with
        | None => (inl null_classList, v3)
        | Some button => (inr tt, with_nodes (activate button (nodes v3)) v3)
        end
    end
  else (inr tt, v).

(** Loading the page again: the document and the globals are as the page
    declares them, the location is kept. *)
Definition reload (page : list Node) (v : View) : View :=
  {| nodes := page; fragment := fragment v; current := "A" |}.

End Tabs.

(** ** Further observations *)

Definition reset_line (now : Z) (cp : string) : Line :=
  {| ln_color := Some (color_of "info"); ln_time := Some now;
     ln_html := [Str "🔄 Peer "; Str cp; Str " reset"] |}.

Definition timeout_line (now : Z) : Line :=
  {| ln_color := Some (color_of "warning"); ln_time := Some now;
     ln_html := [Str "⏰ ICE gathering timeout, using current candidates"] |}.

Definition suspended_offer (sd : string) : Bundle :=
  {| type := "offer"; sdp := sd; candidates := 0 |}.

Definition fresh_channel : Channel :=
  {| ch_label := "messages"; ch_ordered := true; readyState := connecting; ch_sent := [] |}.

Definition error_line (now : Z) (e : exn) : Line :=
  {| ln_color := Some (color_of "error"); ln_time := Some now;
     ln_html := [Str "❌ Error: "; Str (message e)] |}.

(** What a failed round leaves: the state [w'] compared with the state
    [w] in which the round was started. *)
Definition round_failed (e : exn) (w w' : World) : Prop :=
  pending w' = pending w /\
  completeSignalingData (peer w') = completeSignalingData (peer w) /\
  timers w' = timers w /\
  pc (peer w') = Some (nextPc w) /\ dc (peer w') = Some fresh_channel /\
  el_text (getElementById ("status" ++ currentPeer w) w') = [Str "Error"] /\
  last (el_children (getElementById ("debug" ++ currentPeer w) w'))
  = Some (error_line (clock w) e).

(** The value a bundle is on the wire: what [JSON.stringify] is given. *)
Definition wire_bundle (b : Bundle) (cs : list RTCIceCandidate) : JValue :=
  JObj [("type", JStr (type b)); ("sdp", JStr (sdp b));
        ("candidates", JArr (map cand_toJSON cs))].

Definition processing_answer_line (now : Z) (n : value) : Line :=
  {| ln_color := Some (color_of "info"); ln_time := Some now;
     ln_html := [Str "📥 Processing complete answer with "; Val n; Str " candidates"] |}.

(** The packets of the probe, as the object literals of speed-test.js
    build them. *)
Definition ping_packet (now : Z) (id : string) : JValue :=
  JObj [("type", JStr "ping"); ("timestamp", JNum now); ("id", JStr id)].

Definition pong_packet (originalTimestamp id : value) (now : Z) : JValue :=
  JObj (([("type", JStr "pong")] ++ member "originalTimestamp" originalTimestamp)
        ++ member "id" id ++ [("timestamp", JNum now)]).

Definition echo_packet (originalId : value) (now : Z) : JValue :=
  JObj ([("type", JStr "speed_test_echo")] ++ member "originalId" originalId
        ++ [("timestamp", JNum now)]).

Definition load_packet (id now : Z) (size : option Z) : JValue :=
  JObj [("type", JStr "speed_test"); ("id", JNum id); ("timestamp", JNum now);
        ("data", JStr (padding size))].

(** What [peer.dc.send(s)] leaves in [peer.dc]: the channel the transport
    returns, or the channel as it was when the call throws. *)
Definition after_send (host : Host) (ch : Channel) (s : string) : Channel :=
  match channel_send host ch s with
  | inr ch' => ch'
  | inl _ => ch
  end.

(** The four timers a run of the probe installs, the first with handle
    [n]. *)
Definition probe_timers (n : positive) (now : Z) (s : SpeedTest)
    (tm : gmap positive Timer) : gmap positive Timer :=
  <[Pos.succ (Pos.succ (Pos.succ n)) :=
      {| tm_callback := AutoStop; tm_delay := mul (setting (testDuration s)) (Fin 1000);
         tm_repeat := false |}]>
    (<[Pos.succ (Pos.succ n) :=
         {| tm_callback := StatsCollection now 0; tm_delay := Fin 500; tm_repeat := true |}]>
       (<[Pos.succ n :=
            {| tm_callback := LatencyTest; tm_delay := Fin 1000; tm_repeat := true |}]>
          (<[n := {| tm_callback := PacketStream 0;
                     tm_delay := div (Fin 1000) (setting (packetFrequency s));
                     tm_repeat := true |}]> tm))).

(** [id] is none of the three interval handles the probe holds. *)
Definition not_a_handle (id : positive) (s : SpeedTest) : Prop :=
  testInterval s <> Some id /\ latencyInterval s <> Some id /\ statsInterval s <> Some id.

Definition send_error_line (now : Z) (e : exn) : Line :=
  {| ln_color := Some (color_of "error"); ln_time := Some now;
     ln_html := [Str "❌ Error sending packet: "; Str (message e)] |}.

(** The probe holds [id] as the handle of the interval whose callback is
    [cb]; only the packet stream and the heartbeat check their guard. *)
Definition holds_interval (s : SpeedTest) (id : positive) (cb : Callback) : Prop :=
  match cb with
  | PacketStream _ => testInterval s = Some id
  | LatencyTest => latencyInterval s = Some id
  | _ => False
  end.

(** The line of the final report that gives the throughput. *)
Definition throughput_line (now : Z) (x : number) : Line :=
  {| ln_color := Some (color_of "info"); ln_time := Some now;
     ln_html := [Str "   Throughput: "; Fixed x 2; Str " Mbps"] |}.

(** ASCII letters, and the letters of a string in lower case. *)
Definition is_letter (c : ascii) : bool := JsString.is_lower c || JsString.is_upper c.

Definition slug (s : string) : string :=
  JsString.of_chars (map JsString.lower_char (filter is_letter (JsString.chars s))).

(** A field of a candidate line holds no space. *)
Definition spaceless (s : string) : Prop :=
  Forall (fun c => Ascii.eqb c " "%char = false) (JsString.chars s).

(** [fields.join(' ')] *)
Definition join_space (fields : list string) : string := String.concat " " fields.

(** The two lines [onicecandidate] logs for a candidate whose line has
    the fields [parts]. *)
Definition candidate_lines (now : Z) (candidateString : string) (parts : list string)
    : list Line :=
  [{| ln_color := Some (color_of "info"); ln_time := Some now;
      ln_html := [Str "🔍 Generated "; Str (Script.candidateType candidateString);
                  Str " candidate:"] |};
   {| ln_color := Some (color_of "info"); ln_time := Some now;
      ln_html := [Str "   📍 "; Str (JsString.part_or parts 4 "unknown"); Str ":";
                  Str (JsString.part_or parts 5 "unknown"); Str " (";
                  Str (JsString.toUpperCase (JsString.part_or parts 2 "unknown"));
                  Str ", priority: "; Str (JsString.part_or parts 3 "unknown"); Str ")"] |}].

(** What holds of the probe state whatever happens: no packet is ever
    counted as lost, the byte counters are not negative, and a run that is
    active has its start time and its three interval handles. *)
Definition probe_invariant (s : SpeedTest) : Prop :=
  packetsLost s = 0%Z /\ (0 <= bytesSent s)%Z /\ (0 <= bytesReceived s)%Z /\
  (isRunning s = true ->
   startTime s <> None /\ testInterval s <> None /\ latencyInterval s <> None /\
   statsInterval s <> None).

(** A computation keeps a property of the world. *)
Definition keeps {A} (P : World -> Prop) (m : M A) : Prop :=
  forall w, P w -> P (snd (m w)).

Definition probe_ok (w : World) : Prop := probe_invariant (speedTest w).

(** A line of the debug log, as [addDebugInfo] makes it. *)
Definition debug_line (now : Z) (ty : string) (message : text) : Line :=
  {| ln_color := Some (color_of ty); ln_time := Some now; ln_html := message |}.

(** [w'] is [w] with [lines] appended to the debug log of the current peer
    and nothing else changed. *)
Definition logged (w w' : World) (lines : list Line) : Prop :=
  w' = with_document (document w') w /\
  (forall id, id <> "debug" ++ currentPeer w -> getElementById id w' = getElementById id w) /\
  getElementById ("debug" ++ currentPeer w) w'
  = set_children (el_children (getElementById ("debug" ++ currentPeer w) w) ++ lines)
      (getElementById ("debug" ++ currentPeer w) w).

(** The candidates of a report that [showSelectedCandidates] lists: those
    of a pair that succeeded, when both are among the reports. *)
Definition shown (maps : gmap string Connection.Report * gmap string Connection.Report)
    (report : Connection.Report) : option (Connection.Report * Connection.Report) :=
  if String.eqb (Connection.rp_type report) "candidate-pair"
     && bool_decide (Connection.rp_state report = Some "succeeded")
  then
    match Connection.get (fst maps) (Connection.rp_localCandidateId report),
          Connection.get (snd maps) (Connection.rp_remoteCandidateId report) with
    | Some l, Some r => Some (l, r)
    | _, _ => None
    end
  else None.

(** The lines every listed pair begins and ends with. *)
Definition pair_block (now : Z) (candidates : Connection.Report * Connection.Report)
    (block : list Line) : Prop :=
  let l := fst candidates in
  let r := snd candidates in
  exists details,
    (length details <= 4)%nat /\
    block =
      debug_line now "success" [Str "🎯 SELECTED PAIR:"]
      :: debug_line now "success"
           [Str "   Local: "; Str (JsString.toUpperCase (Connection.local_type l)); Str " ";
            Str (Connection.candidate_addr l)]
      :: debug_line now "success"
           [Str "   Remote: "; Str (JsString.toUpperCase (Connection.remote_type r)); Str " ";
            Str (Connection.candidate_addr r)]
      :: details
      ++ [debug_line now "info"
            [Str ("💡 "
                  ++ Connection.type_explanation (Connection.local_type l)
                       (Connection.remote_type r)
                  ++ Connection.address_explanation (Connection.candidate_addr l)
                       (Connection.candidate_addr r))]].

(** A computation that returns and does nothing but append lines to the
    debug log; [lines] gives them from the time on the clock. *)
Definition logs (m : M unit) (lines : Z -> list Line) : Prop :=
  forall w, fst (m w) = inr tt /\ logged w (snd (m w)) (lines (clock w)).

(** The status a connection state is shown with, [None] for a state that
    leaves the label alone. *)
Definition status_of_state (state : string) : option string :=
  if String.eqb state "connected" then Some "Connected"
  else if String.eqb state "connecting" then Some "Connecting..."
  else if String.eqb state "disconnected" || String.eqb state "failed" then Some "Disconnected"
  else None.

(** Whether the node at a position of the document is shown as active. *)
Definition active_at (l : list Tabs.Node) (i : nat) : bool :=
  match l !! i with
  | Some n => Tabs.has_class "active" n
  | None => false
  end.

(** The peer and the location hash a tab stands for. *)
Definition peer_of_tab (tabId : string) : string :=
  if String.eqb tabId "peer-a" then "A" else "B".

Definition hash_of_tab (tabId : string) : string :=
  if String.eqb tabId "peer-a" then "#peer1" else "#peer2".

(** ** Further scenarios on the reference host *)

Module Cases.

Import Scenario.

(** Peer A has clicked: [createOffer()] is pending ... *)
Definition offer_clicked : World := run RefHost.initial [Click_createCompleteOffer].

(** ... and has resolved: [setLocalDescription(offer)] is pending. *)
Definition offer_created : World := run offer_clicked [PromiseSettled 0 (Resolved "v=0")].

(** Peer A has gathered two candidates for its bundle. *)
Definition offer_gathered : World :=
  run offer_round [IceCandidateEvent (Some host_candidate);
                   IceCandidateEvent (Some srflx_candidate)].

(** The text peer A publishes, and peer B with that text pasted. *)
Definition published_offer : string :=
  el_value (getElementById "completeOfferA"
              (exec (Script.completeSignalingReady RefHost.host) offer_gathered)).

Definition offer_received : World :=
  run RefHost.initial [SetCurrentPeer "B"; Typed "completeOfferB" published_offer].

(** [{"type":"offer","sdp":"v=0","candidates":[{"candidate":"c1"},{"candidate":"c2"}]}] *)
Definition offer_text : string :=
  "{" ++ q "type" ++ ":" ++ q "offer" ++ "," ++ q "sdp" ++ ":" ++ q "v=0" ++ ","
      ++ q "candidates" ++ ":[{" ++ q "candidate" ++ ":" ++ q "c1" ++ "},{"
      ++ q "candidate" ++ ":" ++ q "c2" ++ "}]}".

Definition offer_json : JValue :=
  JObj [("type", JStr "offer"); ("sdp", JStr "v=0"); ("candidates", JArr answer_candidates)].

Definition offer_pasted : World :=
  run RefHost.initial [SetCurrentPeer "B"; Typed "completeOfferB" offer_text].

(** Peer B has applied the offer and its two candidates: [createAnswer()]
    is pending. *)
Definition answer_requested : World :=
  run offer_pasted
    [Click_createCompleteAnswer; PromiseSettled 0 (Resolved EmptyString); PromiseSettled 0 (Resolved EmptyString);
     PromiseSettled 0 (Resolved EmptyString)].

(** The answer has been pasted before any connection was made. *)
Definition answer_too_early : World :=
  run RefHost.initial [Typed "completeAnswerA" answer_text].

(** The channel of a running probe has closed. *)
Definition probe_cut : World := run probe_running [ChannelStateChange closed].

(** [{"type":"pong"}] and [{"type":"speed_test","id":7}] *)
Definition bare_pong : string := "{" ++ q "type" ++ ":" ++ q "pong" ++ "}".

Definition load_7 : string :=
  "{" ++ q "type" ++ ":" ++ q "speed_test" ++ "," ++ q "id" ++ ":7}".

(** The fields of the line of [host_candidate]. *)
Definition host_fields : list string :=
  ["candidate:1"; "1"; "udp"; "2122260223"; "192.168.1.2"; "54321"; "typ"; "host"].

(** A page with the two tabs and their buttons, tab A shown. *)
Definition two_tabs : list Tabs.Node :=
  [{| Tabs.nd_id := "peer-a"; Tabs.nd_classes := ["tab-content"; "active"];
      Tabs.nd_onclick := EmptyString |};
   {| Tabs.nd_id := "peer-b"; Tabs.nd_classes := ["tab-content"];
      Tabs.nd_onclick := EmptyString |};
   {| Tabs.nd_id := EmptyString; Tabs.nd_classes := ["tab-button"; "active"];
      Tabs.nd_onclick := "switchTab('peer-a')" |};
   {| Tabs.nd_id := EmptyString; Tabs.nd_classes := ["tab-button"];
      Tabs.nd_onclick := "switchTab('peer-b')" |}].

Definition first_visit : Tabs.View :=
  {| Tabs.nodes := two_tabs; Tabs.fragment := EmptyString; Tabs.current := "A" |}.

End Cases.

(** ** What the page shows of the figures *)





(** The sample a sampler tick appends, if any: none unless the tick comes
    later than the time its closure holds. *)
Definition sample_of (sent lastBytesSent now lastUpdate : Z) : list number :=
  if (lastUpdate <? now)%Z
  then [Fin (Spec.mbps (sent - lastBytesSent) (Spec.seconds lastUpdate now))]
  else [].

(** ** Further runs on the reference host *)

Module Runs.

Import Scenario.

(** A running probe that has sent one load packet, half a second after
    its start. *)
Definition one_packet_sent : World :=
  run probe_running [ClockReads 1010; TimerFired 1; ClockReads 1500].


(** The no-break space U+00A0. *)
Definition nbsp : ascii := ascii_of_nat 160.

(** Peer B has pasted a no-break space and a space as the offer. *)
Definition nbsp_pasted : World :=
  run RefHost.initial
    [SetCurrentPeer "B"; Typed "completeOfferB" (String nbsp (String " " EmptyString))].

(** [{"sdp":"v=0","candidates":5}], pasted as the offer. *)
Definition candidates_5_text : string :=
  "{" ++ q "sdp" ++ ":" ++ q "v=0" ++ "," ++ q "candidates" ++ ":5}".

Definition candidates_5_pasted : World :=
  run RefHost.initial [SetCurrentPeer "B"; Typed "completeOfferB" candidates_5_text].

(** The channel is open and the message field holds a no-break space. *)
Definition nbsp_typed : World :=
  run probe_ready [Typed "messageInputA" (String nbsp EmptyString)].

End Runs.

(** * Properties *)

(** Unfolds the monad, the field updates and the page operations, so that
    a computation applied to a world given by its fields reduces to its
    result; the finite maps and the strings stay folded. *)
Ltac run_M :=
  cbv beta iota zeta delta
    [bind ret throw gets modify lift try_catch when exec escapes fst snd
     getCurrentPeer setCurrentPeer set_speedTest Script.set_peer
     setElem appendChild alert addDebugInfo addMessage updateStatus resetPeerUI
     addSpeedTestLog
     with_clock with_currentPeer with_peer with_speedTest with_heap with_document
     with_alerts with_timers with_facade with_pending with_randomCalls
     peer_pc peer_dc peer_pendingCandidates peer_iceGatheringComplete
     peer_completeSignalingData bundle_candidates
     st_isRunning st_startTime st_endTime st_bytesSent st_bytesReceived st_packetsLost
     st_latencyTests st_throughputTests st_testInterval st_latencyInterval
     st_statsInterval st_settings
     clock currentPeer peer speedTest heap document alerts timers nextTimer facade
     nextPc pending randomCalls speedTestLoaded
     pc dc pendingCandidates iceGatheringComplete completeSignalingData
     type sdp candidates
     isRunning startTime endTime bytesSent bytesReceived packetsLost latencyTests
     throughputTests testInterval latencyInterval statsInterval testDuration
     packetSize packetFrequency
     channel_not_open ch_label ch_ordered readyState ch_sent] in *.

(** Splits a world into its fields, those of [peer] and [speedTest]
    included. *)
Ltac open_world w :=
  let p := fresh "p" in
  let st := fresh "st" in
  destruct w as [?clock ?currentPeer p st ?heap ?document ?alerts ?timers ?nextTimer
                 ?facade ?nextPc ?pending ?randomCalls ?speedTestLoaded];
  destruct p as [?pc ?dc ?pendingCandidates ?iceGatheringComplete ?completeSignalingData];
  destruct st as [?isRunning ?startTime ?endTime ?bytesSent ?bytesReceived ?packetsLost
                  ?latencyTests ?throughputTests ?testInterval ?latencyInterval
                  ?statsInterval ?testDuration ?packetSize ?packetFrequency].

(** Reading an element of a page that has just been updated. *)
Lemma elem_at_update (id id' : string) (f : Elem -> Elem) (d : gmap string Elem) :
  elem_at id (update_elem id' f d)
  = if decide (id' = id) then f (elem_at id d) else elem_at id d.
Proof.
  unfold update_elem. unfold elem_at at 1. rewrite lookup_insert.
  case_decide as E; [subst; reflexivity | reflexivity].
Qed.

Lemma elem_at_update_eq (id : string) (f : Elem -> Elem) (d : gmap string Elem) :
  elem_at id (update_elem id f d) = f (elem_at id d).
Proof. rewrite elem_at_update. apply decide_True. reflexivity. Qed.

Lemma elem_at_update_ne (id id' : string) (f : Elem -> Elem) (d : gmap string Elem) :
  id' <> id -> elem_at id (update_elem id' f d) = elem_at id d.
Proof. intros Hne. rewrite elem_at_update. apply decide_False, Hne. Qed.

(** Two element ids that differ in their literal prefix. *)
Ltac string_ne := let E := fresh "E" in intros E; cbn in E; discriminate E.

Section Probe.

Variable host : Host.

(** ** Start and stop guards *)

(** C10. [stopSpeedTest] on a probe that is not running returns at once:
    it changes nothing in the world (byte counters, sample sequences,
    timers, timestamps, the running flag, the page) and does not throw. *)
Theorem stopSpeedTest_idle_noop (w : World) :
  isRunning (speedTest w) = false ->
  stopSpeedTest w = (inr tt, w).
Proof.
  intros Hidle. open_world w. unfold stopSpeedTest. run_M. subst. reflexivity.
Qed.

(** C6. [startSpeedTest] rejects when the channel is not open (an alert
    and nothing else) and is a no-op on the probe when a run is active:
    the probe session, its counters, the timer table and the next timer
    handle are the ones before, so no second set of timers exists.  With
    the channel open the second call only logs a warning; no alert is
    raised. *)
Theorem startSpeedTest_rejects (w : World) :
  channel_not_open w = true \/ isRunning (speedTest w) = true ->
  let w' := exec (startSpeedTest host) w in
  speedTest w' = speedTest w /\
  timers w' = timers w /\
  nextTimer w' = nextTimer w /\
  peer w' = peer w /\
  (channel_not_open w = true ->
   startSpeedTest host w =
     alert "Connection not ready! Please establish connection first." w) /\
  (channel_not_open w = false ->
   startSpeedTest host w = addSpeedTestLog [Str "⚠️ Speed test already running!"] "warning" w /\
   alerts w' = alerts w).
Proof.
  intros Hguard. unfold startSpeedTest. cbv zeta.
  destruct (channel_not_open w) eqn:Hclosed.
  - open_world w. run_M. rewrite Hclosed.
    repeat split; intros; try reflexivity; discriminate.
  - destruct Hguard as [Hc | Hrun]; [discriminate |].
    open_world w. run_M. rewrite Hclosed. subst.
    repeat split; intros; try reflexivity; discriminate.
Qed.

(** ** Stop, clear and reset *)

Lemma without_handle_lookup (h : option positive) (tm : gmap positive Timer) (id : positive) :
  h = Some id -> without_handle h tm !! id = None.
Proof. intros ->. apply lookup_delete_eq. Qed.

Lemma without_handle_gone (h : option positive) (tm : gmap positive Timer) (id : positive) :
  tm !! id = None -> without_handle h tm !! id = None.
Proof.
  intros Hnone. destruct h as [j |]; [| exact Hnone].
  cbn. rewrite lookup_delete. case_decide; [reflexivity | exact Hnone].
Qed.

Lemma without_intervals_cancelled (s : SpeedTest) (tm : gmap positive Timer) (id : positive) :
  testInterval s = Some id \/ latencyInterval s = Some id \/ statsInterval s = Some id ->
  without_intervals s tm !! id = None.
Proof.
  unfold without_intervals. intros [H | [H | H]].
  - apply without_handle_gone, without_handle_gone, without_handle_lookup, H.
  - apply without_handle_gone, without_handle_lookup, H.
  - apply without_handle_lookup, H.
Qed.

Lemma stopSpeedTest_running (w : World) :
  isRunning (speedTest w) = true ->
  let w' := exec stopSpeedTest w in
  speedTest w' = st_endTime (Some (clock w)) (st_isRunning false (speedTest w)) /\
  timers w' = without_intervals (speedTest w) (timers w) /\
  nextTimer w' = nextTimer w.
Proof.
  intros Hrun. unfold stopSpeedTest, clear_intervals, clear_if_set, calculateFinalResults,
    Script.clearInterval, without_intervals, without_handle.
  open_world w. cbn in Hrun. subst.
  destruct testInterval0, latencyInterval0, statsInterval0; run_M; repeat split.
Qed.

(** [clearSpeedTestResults] touches the page only. *)
Lemma clearSpeedTestResults_page_only (w : World) :
  let w' := exec clearSpeedTestResults w in
  speedTest w' = speedTest w /\ timers w' = timers w /\ nextTimer w' = nextTimer w /\
  peer w' = peer w.
Proof.
  unfold clearSpeedTestResults. open_world w. run_M. repeat split.
Qed.

(** [startSpeedTest] on an idle probe over an open channel starts from
    zeroed counters and empty sample sequences. *)
Lemma startSpeedTest_resets (w : World) :
  channel_not_open w = false ->
  isRunning (speedTest w) = false ->
  let s' := speedTest (exec (startSpeedTest host) w) in
  isRunning s' = true /\ startTime s' = Some (clock w) /\
  bytesSent s' = 0%Z /\ bytesReceived s' = 0%Z /\ packetsLost s' = 0%Z /\
  latencyTests s' = [] /\ throughputTests s' = [].
Proof.
  intros Hopen Hidle.
  unfold startSpeedTest, updateSpeedTestSettings, resetSpeedTestState, clear_intervals,
    clear_if_set, startPacketStream, startLatencyTest, startStatsCollection,
    Script.setInterval, Script.setTimeout, Script.add_timer, Script.clearInterval.
  open_world w. cbn in Hidle. subst.
  destruct dc0 as [[label ordered [] sent] |]; try discriminate Hopen.
  destruct testInterval0, latencyInterval0, statsInterval0; run_M; repeat split.
Qed.

(** C5, as the code has it.  [stopSpeedTest] on an active run clears the
    three interval timers whose handles the probe holds, records the end
    timestamp and leaves the latency samples, the throughput samples and
    the byte counters as they were.  [clearSpeedTestResults] resets the
    display only: the probe state after it is the state before it.  The
    samples and counters are zeroed by the next [startSpeedTest] that gets
    past its guards. *)
Theorem stopSpeedTest_keeps_samples (w : World) :
  isRunning (speedTest w) = true ->
  let w' := exec stopSpeedTest w in
  (isRunning (speedTest w') = false /\
   endTime (speedTest w') = Some (clock w) /\
   (forall id, testInterval (speedTest w) = Some id \/
               latencyInterval (speedTest w) = Some id \/
               statsInterval (speedTest w) = Some id -> timers w' !! id = None) /\
   latencyTests (speedTest w') = latencyTests (speedTest w) /\
   throughputTests (speedTest w') = throughputTests (speedTest w) /\
   bytesSent (speedTest w') = bytesSent (speedTest w) /\
   bytesReceived (speedTest w') = bytesReceived (speedTest w)) /\
  speedTest (exec clearSpeedTestResults w') = speedTest w' /\
  (channel_not_open w' = false ->
   let s'' := speedTest (exec (startSpeedTest host) w') in
   bytesSent s'' = 0%Z /\ bytesReceived s'' = 0%Z /\
   latencyTests s'' = [] /\ throughputTests s'' = []).
Proof.
  intros Hrun w'.
  destruct (stopSpeedTest_running w Hrun) as (Hst & Htm & _).
  fold w' in Hst, Htm.
  split; [| split].
  - rewrite Hst, Htm. destruct (speedTest w); cbn.
    repeat split. intros id Hid. apply without_intervals_cancelled. exact Hid.
  - apply clearSpeedTestResults_page_only.
  - intros Hopen.
    assert (Hidle : isRunning (speedTest w') = false).
    { rewrite Hst. destruct (speedTest w); reflexivity. }
    destruct (startSpeedTest_resets w' Hopen Hidle) as (_ & _ & Hs & Hr & _ & Hl & Ht).
    cbv zeta. auto.
Qed.

(** ** Inbound messages *)

Lemma among_truthy (ty : value) : among speed_test_tags ty = true -> truthy ty = true.
Proof.
  destruct ty as [[| b | z | s | items | props] |]; cbn; try discriminate.
  destruct s; cbn; [discriminate | reflexivity].
Qed.

Lemma handleSpeedTestPacket_ignores (data : string) (w : World) :
  recognized host data = false ->
  handleSpeedTestPacket host data w = (inr tt, w).
Proof.
  unfold recognized, handleSpeedTestPacket. intros Hrec.
  open_world w. run_M.
  destruct (JSON_parse host data) as [e | packet]; [reflexivity |].
  destruct (prop (Some packet) "type") as [e | ty]; [reflexivity |].
  cbn in Hrec. apply orb_false_elim in Hrec as [H1 Hrec].
  apply orb_false_elim in Hrec as [H2 Hrec].
  apply orb_false_elim in Hrec as [H3 Hrec].
  apply orb_false_elim in Hrec as [H4 _].
  rewrite H1, H2, H3, H4. reflexivity.
Qed.

(** C9. A message that is not JSON, or whose parsed value does not carry
    one of the tags [speed_test], [speed_test_echo], [ping], [pong], goes
    through [channel.onmessage] without an exception, is shown as a chat
    message and changes nothing else: the world afterwards is the one
    [addMessage] alone produces, so the probe state is the one before.
    [handleSpeedTestPacket] itself, given such a message, changes nothing
    and does not throw either. *)
Theorem onmessage_unrecognized_is_chat (data : string) (w : World) :
  recognized host data = false ->
  onmessage host data w = addMessage data (chat_sender w) w /\
  fst (onmessage host data w) = inr tt /\
  speedTest (exec (onmessage host data) w) = speedTest w /\
  handleSpeedTestPacket host data w = (inr tt, w).
Proof.
  intros Hrec.
  assert (Hchat : onmessage host data w = addMessage data (chat_sender w) w).
  { unfold recognized in Hrec. unfold onmessage, chat_sender.
    open_world w. run_M.
    destruct (JSON_parse host data) as [e | packet]; [reflexivity |].
    destruct (prop (Some packet) "type") as [e | ty]; [reflexivity |].
    rewrite Hrec, andb_false_r. reflexivity. }
  split; [exact Hchat |].
  split; [rewrite Hchat; open_world w; run_M; reflexivity |].
  split; [unfold exec; rewrite Hchat; open_world w; run_M; reflexivity |].
  apply handleSpeedTestPacket_ignores, Hrec.
Qed.

End Probe.


(** ** Statistics *)

Section Statistics.

Local Open Scope R_scope.

Lemma div_Fin (x y : R) : y <> 0 -> div (Fin x) (Fin y) = Fin (x / y).
Proof.
  intros Hy. unfold div. destruct (Req_dec_T y 0) as [E | _]; [contradiction | reflexivity].
Qed.

Lemma gt_Fin_0 (x : R) : 0 < x -> gt (Fin x) (Fin 0) = true.
Proof.
  intros Hx. unfold gt. destruct (Rlt_dec 0 x); [reflexivity | contradiction].
Qed.

Lemma gt_Fin_0_false (x : R) : x <= 0 -> gt (Fin x) (Fin 0) = false.
Proof.
  intros Hx. unfold gt. destruct (Rlt_dec 0 x); [lra | reflexivity].
Qed.

Lemma sqrt_Fin (x : R) : 0 <= x -> sqrt (Fin x) = Fin (R_sqrt.sqrt x).
Proof.
  intros Hx. unfold sqrt. destruct (Rlt_dec x 0); [lra | reflexivity].
Qed.

Lemma length_pos_INR {A} (xs : list A) : xs <> [] -> 0 < INR (length xs).
Proof.
  intros Hne. destruct xs as [| x r]; [contradiction |].
  apply lt_0_INR. cbn. lia.
Qed.

Lemma fold_add_Fin (xs : list R) (a : R) :
  fold_left add (map Fin xs) (Fin a) = Fin (a + Spec.total xs).
Proof.
  unfold Spec.total.
  revert a. induction xs as [| x r IH]; intros a; cbn.
  - f_equal. ring.
  - rewrite IH. f_equal. ring.
Qed.

Lemma average_Fin (xs : list R) :
  xs <> [] -> average (map Fin xs) = Fin (Spec.mean xs).
Proof.
  intros Hne. pose proof (length_pos_INR xs Hne) as Hlen.
  unfold average, sum, of_nat. rewrite fold_add_Fin, length_map.
  rewrite div_Fin by lra. unfold Spec.mean. f_equal. field. lra.
Qed.

Lemma fold_squares_Fin (xs : list R) (m a : R) :
  fold_left (fun acc lat => add acc (pow2 (sub lat (Fin m)))) (map Fin xs) (Fin a)
  = Fin (a + Spec.total (map (fun x => (x - m) ^ 2) xs)).
Proof.
  unfold Spec.total.
  revert a. induction xs as [| x r IH]; intros a;
    cbn [map fold_left fold_right add pow2 sub neg].
  - f_equal. ring.
  - rewrite IH. f_equal. ring.
Qed.

Lemma variance_Fin (xs : list R) (m : R) :
  xs <> [] ->
  variance (map Fin xs) (Fin m) = Fin (Spec.mean (map (fun x => (x - m) ^ 2) xs)).
Proof.
  intros Hne. pose proof (length_pos_INR xs Hne) as Hlen.
  unfold variance, of_nat. rewrite fold_squares_Fin, length_map.
  rewrite div_Fin by lra. unfold Spec.mean. rewrite length_map. f_equal. field. lra.
Qed.

Lemma total_squares_nonneg (xs : list R) (m : R) :
  0 <= Spec.total (map (fun x => (x - m) ^ 2) xs).
Proof.
  unfold Spec.total in *.
  induction xs as [| x r IH]; cbn [map fold_right]; [lra |].
  pose proof (pow2_ge_0 (x - m)) as Hsq. lra.
Qed.

Lemma mean_squares_nonneg (xs : list R) (m : R) :
  xs <> [] -> 0 <= Spec.mean (map (fun x => (x - m) ^ 2) xs).
Proof.
  intros Hne. unfold Spec.mean. rewrite length_map.
  apply Rmult_le_pos; [apply total_squares_nonneg |].
  left. apply Rinv_0_lt_compat, length_pos_INR, Hne.
Qed.

Lemma jitter_Fin (xs : list R) :
  xs <> [] ->
  sqrt (variance (map Fin xs) (average (map Fin xs))) = Fin (Spec.population_stddev xs).
Proof.
  intros Hne. rewrite average_Fin, variance_Fin by exact Hne.
  rewrite sqrt_Fin by (apply mean_squares_nonneg, Hne). reflexivity.
Qed.




















Lemma currentThroughput_Fin (bytesNow lastBytesSent now lastUpdate : Z) :
  (lastUpdate < now)%Z ->
  gt (timeDelta now lastUpdate) (Fin 0) = true /\
  currentThroughput bytesNow lastBytesSent now lastUpdate
  = Fin (Spec.mbps (bytesNow - lastBytesSent) (Spec.seconds lastUpdate now)).
Proof.
  intros Hlt. assert (Hpos : 0 < IZR (now - lastUpdate)) by (apply IZR_lt; lia).
  unfold currentThroughput, timeDelta, of_Z. rewrite div_Fin by lra.
  split.
  - apply gt_Fin_0. apply Rdiv_lt_0_compat; lra.
  - cbn [mul]. rewrite div_Fin.
    + unfold Spec.mbps, Spec.seconds. f_equal. field. lra.
    + assert (0 < IZR (now - lastUpdate) / 1000) by (apply Rdiv_lt_0_compat; lra). nra.
Qed.

(** The closure of a timer that is set is replaced in place. *)
Lemma alter_present {A} (f : A -> A) (id : positive) (x : A) (m : gmap positive A) :
  m !! id = Some x -> alter f id m = <[id := f x]> m.
Proof.
  intros Hx. apply map_eq. intros j. rewrite lookup_alter, lookup_insert.
  case_decide as E; [subst; rewrite Hx |]; reflexivity.
Qed.

Lemma timeDelta_not_positive (now lastUpdate : Z) :
  (now <= lastUpdate)%Z -> gt (timeDelta now lastUpdate) (Fin 0) = false.
Proof.
  intros Hle. assert (Hneg : IZR (now - lastUpdate) <= 0) by (apply IZR_le; lia).
  unfold timeDelta, of_Z. rewrite div_Fin by lra. apply gt_Fin_0_false.
  unfold Rdiv. nra.
Qed.

(** The sampler fires. *)
Lemma sampler_fires (host : Host) (w : World) (id : positive) (tm : Timer)
    (lastUpdate lastBytesSent : Z) :
  timers w !! id = Some tm ->
  tm_callback tm = StatsCollection lastUpdate lastBytesSent -> tm_repeat tm = true ->
  let w' := step host w (TimerFired id) in
  let now := clock w in
  let sent := bytesSent (speedTest w) in
  timers w'
  = <[id := {| tm_callback := StatsCollection now sent; tm_delay := tm_delay tm;
               tm_repeat := true |}]> (timers w) /\
  speedTest w'
  = st_throughputTests
      (throughputTests (speedTest w) ++ sample_of sent lastBytesSent now lastUpdate)
      (speedTest w) /\
  el_text (getElementById ("throughput" ++ currentPeer w) w')
  = [Fixed (lm_avgThroughput (liveMetrics (speedTest w'))) 2; Str " Mbps"].
Proof.
  intros Htm Hcb Hrep. destruct tm as [cb delay rep]. cbn in Hcb, Hrep. subst cb rep.
  cbv zeta. unfold step, handler, fire, statsCollection_tick, updateSpeedMetrics,
    update_closure, getElementById, sample_of.
  open_world w. cbn in Htm. run_M. rewrite Htm.
  cbv beta iota zeta delta [tm_callback tm_delay tm_repeat]. run_M.
  destruct (Z.ltb_spec lastUpdate clock0) as [Hlt | Hge].
  - destruct (currentThroughput_Fin bytesSent0 lastBytesSent clock0 lastUpdate Hlt)
      as (Hgt & Hsample).
    rewrite Hgt. run_M. rewrite Hsample, (alter_present _ _ _ _ Htm).
    split; [reflexivity |]. split; [reflexivity |].
    cbn [document]. rewrite !elem_at_update_ne by string_ne.
    rewrite elem_at_update_eq. reflexivity.
  - rewrite (timeDelta_not_positive _ _ Hge). run_M.
    rewrite app_nil_r, (alter_present _ _ _ _ Htm).
    split; [reflexivity |]. split; [reflexivity |].
    cbn [document]. rewrite !elem_at_update_ne by string_ne.
    rewrite elem_at_update_eq. reflexivity.
Qed.

(** The live mean. *)
Lemma live_mean (s : SpeedTest) (samples : list R) :
  throughputTests s = map Fin samples ->
  lm_avgThroughput (liveMetrics s)
  = Fin (match samples with [] => 0 | _ :: _ => Spec.mean samples end).
Proof.
  intros Hs. unfold liveMetrics. rewrite Hs.
  destruct samples as [| x t].
  - destruct (latencyTests s); reflexivity.
  - assert (Havg := average_Fin (x :: t) ltac:(discriminate)). cbn [map] in *.
    destruct (latencyTests s); cbn; exact Havg.
Qed.

(** [stopSpeedTest] on a running probe: the run ends now and the final
    report is that of the state in which it has ended. *)
Lemma stopSpeedTest_reports (w : World) :
  isRunning (speedTest w) = true ->
  let ended := st_endTime (Some (clock w)) (st_isRunning false (speedTest w)) in
  let w' := exec stopSpeedTest w in
  speedTest w' = ended /\
  exists pre post,
    el_children (getElementById ("speedTestLog" ++ currentPeer w) w')
    = (el_children (getElementById ("speedTestLog" ++ currentPeer w) w)
       ++ pre ++ [throughput_line (clock w) (fr_avgThroughput (finalResults ended))] ++ post)%list
    /\ length pre = 1%nat /\ length post = 6%nat.
Proof.
  intros Hrun. cbv zeta.
  unfold stopSpeedTest, clear_intervals, clear_if_set, calculateFinalResults,
    Script.clearInterval, getElementById, throughput_line.
  open_world w. cbn in Hrun. subst.
  destruct testInterval0, latencyInterval0, statsInterval0; run_M;
    cbv beta iota zeta delta [negb]; run_M.
  all: split; [reflexivity |].
  all: cbn [document];
    repeat (first [ rewrite elem_at_update_eq | rewrite elem_at_update_ne by string_ne ];
            cbn [el_children set_children]);
    rewrite <- !app_assoc.
  all: eexists [_], [_; _; _; _; _; _]; split; [reflexivity | split; reflexivity].
Qed.

Lemma whole_run_average (s : SpeedTest) (started ended : Z) :
  startTime s = Some started -> endTime s = Some ended -> ended <> started ->
  fr_avgThroughput (finalResults s)
  = Fin ((IZR (bytesSent s) * 8) / (1048576 * Spec.seconds started ended)).
Proof.
  intros Hs He Hne.
  assert (Hd : IZR (ended - started) <> 0) by (apply not_0_IZR; lia).
  assert (Hfr : div (div (mul (of_Z (bytesSent s)) (Fin 8)) (Fin (1024 * 1024)))
                    (div (of_Z (ended - started)) (Fin 1000))
                = Fin ((IZR (bytesSent s) * 8) / (1048576 * Spec.seconds started ended))).
  { unfold of_Z. cbn [mul]. rewrite !div_Fin by lra.
    unfold Spec.seconds. f_equal. field. exact Hd. }
  unfold finalResults. rewrite Hs, He. cbn [stamp default].
  destruct (latencyTests s); exact Hfr.
Qed.

(** C7. A firing of the sampler that comes later than the time its
    closure holds appends [bytes sent since then * 8 / (seconds since then
    * 1,048,576)] to the throughput samples; one that does not appends
    nothing.  Either way the closure then holds the time and the byte count
    of this firing, and the next firing measures from them.  Finite
    samples stay finite, and the live figure shown is the mean of all
    samples, this firing's included (0 while there is none).
    [stopSpeedTest] ends the run at the time of the call, and its report
    shows [total bytes * 8 / (1,048,576 * seconds of the whole run)]. *)
Theorem throughput_formulas (host : Host) :
  (forall (w : World) (id : positive) (tm : Timer) (lastUpdate lastBytesSent : Z),
     timers w !! id = Some tm ->
     tm_callback tm = StatsCollection lastUpdate lastBytesSent -> tm_repeat tm = true ->
     let w' := step host w (TimerFired id) in
     (timers w' !! id
      = Some {| tm_callback := StatsCollection (clock w) (bytesSent (speedTest w));
                tm_delay := tm_delay tm; tm_repeat := true |} /\
      bytesSent (speedTest w') = bytesSent (speedTest w)) /\
     ((lastUpdate < clock w)%Z ->
      throughputTests (speedTest w')
      = (throughputTests (speedTest w)
         ++ [Fin (Spec.mbps (bytesSent (speedTest w) - lastBytesSent)
                            (Spec.seconds lastUpdate (clock w)))])%list) /\
     ((clock w <= lastUpdate)%Z ->
      throughputTests (speedTest w') = throughputTests (speedTest w)) /\
     (forall later : World,
        timers later !! id = timers w' !! id -> (clock w < clock later)%Z ->
        throughputTests (speedTest (step host later (TimerFired id)))
        = (throughputTests (speedTest later)
           ++ [Fin (Spec.mbps (bytesSent (speedTest later) - bytesSent (speedTest w))
                              (Spec.seconds (clock w) (clock later)))])%list) /\
     (forall samples : list R,
        throughputTests (speedTest w) = map Fin samples ->
        let shown :=
          (samples
           ++ (if (lastUpdate <? clock w)%Z
               then [Spec.mbps (bytesSent (speedTest w) - lastBytesSent)
                               (Spec.seconds lastUpdate (clock w))]
               else []))%list in
        throughputTests (speedTest w') = map Fin shown /\
        el_text (getElementById ("throughput" ++ currentPeer w) w')
        = [Fixed (Fin (match shown with [] => 0 | _ :: _ => Spec.mean shown end)) 2;
           Str " Mbps"])) /\
  (forall (w : World) (started : Z),
     isRunning (speedTest w) = true ->
     startTime (speedTest w) = Some started -> clock w <> started ->
     let w' := exec stopSpeedTest w in
     endTime (speedTest w') = Some (clock w) /\
     bytesSent (speedTest w') = bytesSent (speedTest w) /\
     exists pre post,
       el_children (getElementById ("speedTestLog" ++ currentPeer w) w')
       = (el_children (getElementById ("speedTestLog" ++ currentPeer w) w)
          ++ pre
          ++ [throughput_line (clock w)
                (Fin ((IZR (bytesSent (speedTest w)) * 8)
                      / (1048576 * Spec.seconds started (clock w))))]
          ++ post)%list /\
       length pre = 1%nat /\ length post = 6%nat).
Proof.
  split.
  - intros w id tm lastUpdate lastBytesSent Htm Hcb Hrep w'.
    destruct (sampler_fires host w id tm lastUpdate lastBytesSent Htm Hcb Hrep)
      as (Ht & Hs & Hshown).
    fold w' in Ht, Hs, Hshown. unfold sample_of in Hs.
    assert (Hclosure : timers w' !! id
              = Some {| tm_callback := StatsCollection (clock w) (bytesSent (speedTest w));
                        tm_delay := tm_delay tm; tm_repeat := true |})
      by (rewrite Ht; apply lookup_insert_eq).
    split; [split; [exact Hclosure | rewrite Hs; destruct (speedTest w); reflexivity] |].
    split; [| split; [| split]].
    + intros Hlt. apply Z.ltb_lt in Hlt. rewrite Hlt in Hs. rewrite Hs.
      destruct (speedTest w); reflexivity.
    + intros Hle. apply Z.ltb_ge in Hle. rewrite Hle in Hs. rewrite Hs, app_nil_r.
      destruct (speedTest w); reflexivity.
    + intros later Hsame Hlt. rewrite Hclosure in Hsame.
      destruct (sampler_fires host later id _ (clock w) (bytesSent (speedTest w))
                  Hsame eq_refl eq_refl) as (_ & Hs' & _).
      rewrite Hs'. unfold sample_of. apply Z.ltb_lt in Hlt. rewrite Hlt.
      destruct (speedTest later); reflexivity.
    + intros samples Hsamples shown.
      assert (Hall : throughputTests (speedTest w') = map Fin shown).
      { rewrite Hs. subst shown. rewrite map_app, <- Hsamples.
        destruct (lastUpdate <? clock w)%Z; destruct (speedTest w); reflexivity. }
      split; [exact Hall |]. rewrite Hshown. f_equal. f_equal.
      apply (live_mean _ shown Hall).
  - intros w started Hrun Hstart Hne w'.
    destruct (stopSpeedTest_reports w Hrun) as (Hs & pre & post & Hlog & Hpre & Hpost).
    fold w' in Hs, Hlog.
    assert (Hfig : fr_avgThroughput
                     (finalResults (st_endTime (Some (clock w))
                                      (st_isRunning false (speedTest w))))
                   = Fin ((IZR (bytesSent (speedTest w)) * 8)
                          / (1048576 * Spec.seconds started (clock w)))).
    { rewrite (whole_run_average _ started (clock w)).
      - destruct (speedTest w); reflexivity.
      - destruct (speedTest w); exact Hstart.
      - destruct (speedTest w); reflexivity.
      - exact Hne. }
    rewrite Hfig in Hlog.
    split; [rewrite Hs; destruct (speedTest w); reflexivity |].
    split; [rewrite Hs; destruct (speedTest w); reflexivity |].
    exists pre, post. split; [exact Hlog | split; assumption].
Qed.

(** The two throughput figures are different quantities: with all bytes
    sent before a first tick at 500 ms and a second tick at 2000 ms, the
    live mean is 8 Mbps and the whole-run average 4 Mbps. *)
Example throughput_figures_differ :
  let s := {| isRunning := false; startTime := Some 0%Z; endTime := Some 2000%Z;
              bytesSent := 1048576; bytesReceived := 0; packetsLost := 0;
              latencyTests := []; throughputTests := [Fin 16; Fin 0];
              testInterval := None; latencyInterval := None; statsInterval := None;
              testDuration := Some 10%Z; packetSize := Some 1024%Z;
              packetFrequency := Some 100%Z |} in
  currentThroughput 1048576 0 500 0 = Fin 16 /\
  currentThroughput 1048576 1048576 2000 500 = Fin 0 /\
  lm_avgThroughput (liveMetrics s) = Fin 8 /\
  fr_avgThroughput (finalResults s) = Fin 4.
Proof.
  cbv zeta. split; [| split; [| split]].
  - destruct (currentThroughput_Fin 1048576 0 500 0 ltac:(lia)) as (_ & ->).
    unfold Spec.mbps, Spec.seconds. f_equal.
    replace (1048576 - 0)%Z with 1048576%Z by lia.
    replace (500 - 0)%Z with 500%Z by lia. field.
  - destruct (currentThroughput_Fin 1048576 1048576 2000 500 ltac:(lia)) as (_ & ->).
    unfold Spec.mbps, Spec.seconds. f_equal.
    replace (1048576 - 1048576)%Z with 0%Z by lia.
    replace (2000 - 500)%Z with 1500%Z by lia. field.
  - change (average (map Fin [16; 0]) = Fin 8).
    rewrite average_Fin by discriminate. unfold Spec.mean. cbn. f_equal. field.
  - unfold finalResults. cbn [latencyTests bytesSent endTime startTime fr_avgThroughput].
    change (stamp (Some 2000%Z) - stamp (Some 0%Z))%Z with 2000%Z.
    unfold of_Z. cbn [mul]. rewrite !div_Fin by lra. f_equal. field.
Qed.

End Statistics.

(** ** Gathering, timeout and the published bundle *)

Section Negotiation.

Variable host : Host.

(** A candidate event appends the candidate to the pending array and two
    lines to the debug log; no text field changes and no bundle is
    announced. *)
Lemma step_candidate (w : World) (c : RTCIceCandidate) :
  let w' := step host w (IceCandidateEvent (Some c)) in
  peer w' = peer w /\ same_session w w' /\
  heap w' = Script.array_push (pendingCandidates (peer w)) c (heap w) /\
  (forall id, el_value (getElementById id w') = el_value (getElementById id w)) /\
  completions w' = completions w.
Proof.
  unfold step, handler, Script.onicecandidate, Script.push, same_session, completions,
    getElementById.
  open_world w. run_M.
  repeat split.
  - intros id. cbn [document]. rewrite !elem_at_update.
    repeat case_decide; reflexivity.
  - cbn [document currentPeer]. rewrite !elem_at_update.
    rewrite !decide_True by reflexivity. cbn [el_children set_children].
    rewrite !filter_app. cbn. rewrite !app_nil_r. reflexivity.
Qed.

Lemma elements_array_push (l l' : nat) (c : RTCIceCandidate)
    (h : gmap nat (list RTCIceCandidate)) :
  Script.elements l (Script.array_push l' c h)
  = if decide (l' = l) then (Script.elements l h ++ [c])%list else Script.elements l h.
Proof.
  unfold Script.array_push. unfold Script.elements at 1. rewrite lookup_insert.
  case_decide as E; [subst; reflexivity | reflexivity].
Qed.

(** The candidates of a run of candidate events arrive in the pending
    array in the order of the events; nothing else of the session moves. *)
Lemma run_candidates (cs : list RTCIceCandidate) (w : World) :
  let w' := run host w (candidate_events cs) in
  peer w' = peer w /\ same_session w w' /\
  (forall l, Script.read_array l w'
             = if decide (pendingCandidates (peer w) = l)
               then (Script.read_array l w ++ cs)%list else Script.read_array l w) /\
  (forall id, el_value (getElementById id w') = el_value (getElementById id w)) /\
  completions w' = completions w.
Proof.
  revert w. induction cs as [| c cs IH]; intros w; cbn [candidate_events map run fold_left].
  - unfold same_session. repeat split. intros l. case_decide; [rewrite app_nil_r |]; reflexivity.
  - destruct (step_candidate w c) as (Hp & Hs & Hh & Hv & Hc).
    specialize (IH (step host w (IceCandidateEvent (Some c)))).
    cbv zeta in IH. destruct IH as (Hp' & Hs' & Hh' & Hv' & Hc').
    fold (candidate_events cs). fold (run host (step host w (IceCandidateEvent (Some c)))
                                          (candidate_events cs)).
    split; [congruence |].
    split; [unfold same_session in *; intuition congruence |].
    split; [| split; [intros id; rewrite Hv'; apply Hv | congruence]].
    intros l. rewrite Hh', Hp. unfold Script.read_array. rewrite Hh, elements_array_push.
    case_decide; [rewrite <- app_assoc |]; reflexivity.
Qed.

Lemma count_ready_singleton (l : Line) :
  is_ready_line l = true -> length (filter is_ready_line [l]) = 1%nat.
Proof.
  intros H. rewrite filter_cons_True by (rewrite H; exact I). reflexivity.
Qed.

Lemma count_ready_none (l : Line) :
  is_ready_line l = false -> filter is_ready_line [l] = [].
Proof.
  intros H. rewrite filter_cons_False by (rewrite H; intros []). reflexivity.
Qed.

(** What [completeSignalingReady] does for a peer that has a bundle: the
    bundle takes the pending array as its candidates, its text goes to the
    peer's field and one line announces it. *)
Lemma completeSignalingReady_publishes (w : World) (b : Bundle) :
  completeSignalingData (peer w) = Some b ->
  currentPeer w = "A" \/ currentPeer w = "B" ->
  let w' := exec (Script.completeSignalingReady host) w in
  peer w' = peer_completeSignalingData
              (Some (bundle_candidates (pendingCandidates (peer w)) b)) (peer w) /\
  same_session w w' /\ heap w' = heap w /\
  el_value (getElementById (bundle_field (currentPeer w)) w')
  = bundle_text host b (Script.read_array (pendingCandidates (peer w)) w) /\
  completions w' = S (completions w).
Proof.
  intros Hb Hcp.
  unfold Script.completeSignalingReady, Script.publish, Script.bundle_json, Script.read_array,
    same_session, completions, getElementById, bundle_field, bundle_text.
  open_world w. cbn in Hb, Hcp. subst.
  destruct Hcp as [-> | ->]; run_M; cbn [String.eqb Ascii.eqb Bool.eqb];
    (repeat split;
     [ rewrite !elem_at_update_ne by string_ne; rewrite elem_at_update_eq; reflexivity
     | rewrite elem_at_update_eq, !elem_at_update_ne by string_ne;
       cbn [el_children set_children]; rewrite filter_app, length_app;
       rewrite count_ready_singleton by reflexivity; lia ]).
Qed.

(** A debug line that does not announce a bundle. *)
Lemma addDebugInfo_quiet (message : text) (ty : string) (w : World) :
  is_ready_line {| ln_color := None; ln_time := None; ln_html := message |} = false ->
  let w' := exec (addDebugInfo message ty) w in
  peer w' = peer w /\ same_session w w' /\ heap w' = heap w /\
  (forall id, el_value (getElementById id w') = el_value (getElementById id w)) /\
  completions w' = completions w.
Proof.
  intros Hquiet. unfold same_session, completions, getElementById.
  open_world w. run_M. repeat split.
  - intros id. cbn [document]. rewrite elem_at_update. case_decide; reflexivity.
  - cbn [document currentPeer]. rewrite elem_at_update_eq.
    cbn [el_children set_children]. rewrite filter_app, count_ready_none, app_nil_r;
      [reflexivity | exact Hquiet].
Qed.

(** The three ways a round meets its end, as compositions of the pieces
    above. *)
Lemma step_timeout_unfolds (w : World) (id : positive) (tm : Timer) :
  timers w !! id = Some tm ->
  tm_callback tm = GatheringTimeout -> tm_repeat tm = false ->
  iceGatheringComplete (peer w) = false ->
  step host w (TimerFired id)
  = exec (Script.completeSignalingReady host)
      (exec (addDebugInfo [Str "⏰ ICE gathering timeout, using current candidates"] "warning")
         (with_timers (delete id (timers w)) (nextTimer w) w)).
Proof.
  intros Htm Hcb Hrep Hincomplete.
  unfold step, handler, fire, Script.gatheringTimeout, Script.clearInterval.
  destruct tm as [cb delay rep]. cbn in Hcb, Hrep. subst.
  open_world w. cbn in Htm, Hincomplete. subst. run_M. rewrite Htm. reflexivity.
Qed.

Lemma step_timeout_late (w : World) (id : positive) (tm : Timer) :
  timers w !! id = Some tm ->
  tm_callback tm = GatheringTimeout -> tm_repeat tm = false ->
  iceGatheringComplete (peer w) = true ->
  step host w (TimerFired id) = with_timers (delete id (timers w)) (nextTimer w) w.
Proof.
  intros Htm Hcb Hrep Hcomplete.
  unfold step, handler, fire, Script.gatheringTimeout, Script.clearInterval.
  destruct tm as [cb delay rep]. cbn in Hcb, Hrep. subst.
  open_world w. cbn in Htm, Hcomplete. subst. run_M. rewrite Htm. reflexivity.
Qed.

Lemma step_signal_unfolds (w : World) (b : Bundle) :
  completeSignalingData (peer w) = Some b ->
  step host w (IceCandidateEvent None)
  = exec (Script.completeSignalingReady host)
      (exec (addDebugInfo
               [Str "🏁 ICE gathering complete! Total: ";
                Num (of_nat (length (Script.read_array (pendingCandidates (peer w)) w)));
                Str " candidates"] "success")
         (with_peer (peer_iceGatheringComplete true (peer w)) w)).
Proof.
  intros Hb. unfold step, handler, Script.onicecandidate, Script.read_array.
  open_world w. cbn in Hb. subst. run_M. reflexivity.
Qed.

Lemma run_app (w : World) (es1 es2 : list Event) :
  run host w (es1 ++ es2) = run host (run host w es1) es2.
Proof. unfold run. apply fold_left_app. Qed.

Lemma bundle_text_candidates (l : nat) (b : Bundle) (cands : list RTCIceCandidate) :
  bundle_text host (bundle_candidates l b) cands = bundle_text host b cands.
Proof. destruct b. reflexivity. Qed.

(** The timer fires before the gathering-complete signal: the bundle is
    published with the candidates collected so far. *)
Lemma timeout_completes (w : World) (b : Bundle) (id : positive) (tm : Timer) :
  completeSignalingData (peer w) = Some b ->
  currentPeer w = "A" \/ currentPeer w = "B" ->
  timers w !! id = Some tm ->
  tm_callback tm = GatheringTimeout -> tm_repeat tm = false ->
  iceGatheringComplete (peer w) = false ->
  let w' := step host w (TimerFired id) in
  peer w' = peer_completeSignalingData
              (Some (bundle_candidates (pendingCandidates (peer w)) b)) (peer w) /\
  currentPeer w' = currentPeer w /\ timers w' = delete id (timers w) /\
  heap w' = heap w /\
  el_value (getElementById (bundle_field (currentPeer w)) w')
  = bundle_text host b (Script.read_array (pendingCandidates (peer w)) w) /\
  completions w' = S (completions w).
Proof.
  intros Hb Hcp Htm Hcb Hrep Hinc. cbv zeta.
  rewrite (step_timeout_unfolds w id tm Htm Hcb Hrep Hinc).
  set (w0 := with_timers (delete id (timers w)) (nextTimer w) w).
  destruct (addDebugInfo_quiet
              [Str "⏰ ICE gathering timeout, using current candidates"] "warning" w0 eq_refl)
    as (Hp & (Hc & Ht & _) & Hh & _ & Hn).
  set (w1 := exec (addDebugInfo _ "warning") w0) in *.
  assert (Hb1 : completeSignalingData (peer w1) = Some b) by (rewrite Hp; exact Hb).
  assert (Hcp1 : currentPeer w1 = "A" \/ currentPeer w1 = "B") by (rewrite Hc; exact Hcp).
  destruct (completeSignalingReady_publishes w1 b Hb1 Hcp1)
    as (Hp' & (Hc' & Ht' & _) & Hh' & Hv' & Hn').
  assert (E0 : peer w0 = peer w /\ currentPeer w0 = currentPeer w /\ heap w0 = heap w /\
               timers w0 = delete id (timers w) /\ completions w0 = completions w)
    by (subst w0; destruct w; repeat split).
  destruct E0 as (Ep & Ec & Eh & Et & En).
  rewrite Hc, Ec in Hv'. unfold Script.read_array in *. rewrite Hp, Ep, Hh, Eh in Hv'.
  repeat split; congruence.
Qed.

(** The gathering-complete signal arrives: the bundle is published with
    the candidates collected so far, whether or not it was published
    before. *)
Lemma signal_completes (w : World) (b : Bundle) :
  completeSignalingData (peer w) = Some b ->
  currentPeer w = "A" \/ currentPeer w = "B" ->
  let w' := step host w (IceCandidateEvent None) in
  peer w' = peer_completeSignalingData
              (Some (bundle_candidates (pendingCandidates (peer w)) b))
              (peer_iceGatheringComplete true (peer w)) /\
  currentPeer w' = currentPeer w /\ timers w' = timers w /\
  heap w' = heap w /\
  el_value (getElementById (bundle_field (currentPeer w)) w')
  = bundle_text host b (Script.read_array (pendingCandidates (peer w)) w) /\
  completions w' = S (completions w).
Proof.
  intros Hb Hcp. cbv zeta. rewrite (step_signal_unfolds w b Hb).
  set (w0 := with_peer (peer_iceGatheringComplete true (peer w)) w).
  destruct (addDebugInfo_quiet
              [Str "🏁 ICE gathering complete! Total: ";
               Num (of_nat (length (Script.read_array (pendingCandidates (peer w)) w)));
               Str " candidates"] "success" w0 eq_refl)
    as (Hp & (Hc & Ht & _) & Hh & _ & Hn).
  set (w1 := exec (addDebugInfo _ "success") w0) in *.
  assert (Hb1 : completeSignalingData (peer w1) = Some b).
  { rewrite Hp. subst w0. destruct w as [? ? []]. exact Hb. }
  assert (Hcp1 : currentPeer w1 = "A" \/ currentPeer w1 = "B") by (rewrite Hc; exact Hcp).
  destruct (completeSignalingReady_publishes w1 b Hb1 Hcp1)
    as (Hp' & (Hc' & Ht' & _) & Hh' & Hv' & Hn').
  assert (E0 : peer w0 = peer_iceGatheringComplete true (peer w) /\
               currentPeer w0 = currentPeer w /\ heap w0 = heap w /\
               timers w0 = timers w /\ completions w0 = completions w)
    by (subst w0; destruct w; repeat split).
  destruct E0 as (Ep & Ec & Eh & Et & En).
  assert (Epend : pendingCandidates (peer_iceGatheringComplete true (peer w))
                  = pendingCandidates (peer w)) by (destruct (peer w); reflexivity).
  rewrite Hc, Ec in Hv'. unfold Script.read_array in *.
  rewrite Hp, Ep, Hh, Eh, Epend in Hv'. rewrite Hp, Ep, Epend in Hp'.
  repeat split; congruence.
Qed.

Lemma run_one (w : World) (e : Event) : run host w [e] = step host w e.
Proof. reflexivity. Qed.

Lemma decide_loc_refl {A} (l : nat) (x y : A) : (if decide (l = l) then x else y) = x.
Proof. apply decide_True. reflexivity. Qed.

(** C2, as the code has it.  In a round whose bundle exists and whose
    gathering has not completed, the 5000 ms timer publishes the bundle
    with the candidates collected so far, once.  The timer is the only
    side that checks a guard: when the gathering-complete signal came
    first the timer changes nothing, but a signal that comes after the
    timeout runs [completeSignalingReady] again and publishes the bundle a
    second time, with the candidates collected by then. *)
Theorem gathering_timeout_policy
    (w : World) (b : Bundle) (id : positive) (tm : Timer) (cs1 cs2 : list RTCIceCandidate) :
  completeSignalingData (peer w) = Some b ->
  iceGatheringComplete (peer w) = false ->
  currentPeer w = "A" \/ currentPeer w = "B" ->
  timers w !! id = Some tm ->
  tm_callback tm = GatheringTimeout -> tm_repeat tm = false ->
  let gathered := Script.read_array (pendingCandidates (peer w)) w in
  let field := bundle_field (currentPeer w) in
  let timed_out := run host w (candidate_events cs1 ++ [TimerFired id]) in
  let late_signal := run host timed_out (candidate_events cs2 ++ [IceCandidateEvent None]) in
  let signal_first :=
    run host w (candidate_events cs1 ++ [IceCandidateEvent None]
                ++ candidate_events cs2 ++ [TimerFired id]) in
  (completions timed_out = S (completions w) /\
   el_value (getElementById field timed_out) = bundle_text host b (gathered ++ cs1) /\
   timers timed_out !! id = None) /\
  (completions late_signal = S (S (completions w)) /\
   el_value (getElementById field late_signal) = bundle_text host b (gathered ++ cs1 ++ cs2)) /\
  (completions signal_first = S (completions w) /\
   el_value (getElementById field signal_first) = bundle_text host b (gathered ++ cs1)).
Proof.
  intros Hb Hinc Hcp Htm Hcb Hrep gathered field timed_out late_signal signal_first.
  (* the candidates of the first batch *)
  destruct (run_candidates cs1 w) as (Hpa & (Hca & Hta & _) & Hra & _ & Hna).
  set (wa := run host w (candidate_events cs1)) in *.
  assert (Hba : completeSignalingData (peer wa) = Some b) by (rewrite Hpa; exact Hb).
  assert (Hcpa : currentPeer wa = "A" \/ currentPeer wa = "B") by (rewrite Hca; exact Hcp).
  assert (Hga : Script.read_array (pendingCandidates (peer wa)) wa = (gathered ++ cs1)%list).
  { rewrite Hpa, Hra. apply decide_loc_refl. }
  (* the timer fires first *)
  assert (Htimed : timed_out = step host wa (TimerFired id)).
  { subst timed_out wa. rewrite run_app. apply run_one. }
  destruct (timeout_completes wa b id tm Hba Hcpa) as (Hp1 & Hc1 & Ht1 & Hh1 & Hv1 & Hn1);
    [rewrite Hta; exact Htm | exact Hcb | exact Hrep | rewrite Hpa; exact Hinc |].
  rewrite <- Htimed in Hp1, Hc1, Ht1, Hh1, Hv1, Hn1.
  assert (Hpend1 : pendingCandidates (peer timed_out) = pendingCandidates (peer w)).
  { rewrite Hp1, Hpa. destruct (peer w); reflexivity. }
  split.
  { split; [congruence |]. split.
    - subst field. rewrite <- Hca, Hv1, Hga. reflexivity.
    - rewrite Ht1. apply lookup_delete_eq. }
  split.
  - (* ... and the signal comes late *)
    destruct (run_candidates cs2 timed_out) as (Hpb & (Hcb2 & _) & Hrb & _ & Hnb).
    set (wb := run host timed_out (candidate_events cs2)) in *.
    assert (Hlate : late_signal = step host wb (IceCandidateEvent None)).
    { subst late_signal wb. rewrite run_app. apply run_one. }
    assert (Hbb : completeSignalingData (peer wb)
                  = Some (bundle_candidates (pendingCandidates (peer wa)) b)).
    { rewrite Hpb, Hp1. destruct (peer wa); reflexivity. }
    destruct (signal_completes wb _ Hbb) as (_ & _ & _ & _ & Hv2 & Hn2);
      [rewrite Hcb2, Hc1; exact Hcpa |].
    rewrite <- Hlate in Hv2, Hn2.
    split; [congruence |].
    subst field. rewrite <- Hca, <- Hc1, <- Hcb2, Hv2, bundle_text_candidates.
    f_equal. rewrite Hpb, Hrb, decide_loc_refl.
    unfold Script.read_array. rewrite Hh1, Hpend1, <- Hpa.
    fold (Script.read_array (pendingCandidates (peer wa)) wa). rewrite Hga.
    symmetry. apply app_assoc.
  - (* the signal comes first *)
    destruct (signal_completes wa b Hba Hcpa) as (Hp3 & Hc3 & Ht3 & _ & Hv3 & Hn3).
    set (ws := step host wa (IceCandidateEvent None)) in *.
    destruct (run_candidates cs2 ws) as (Hpc & (Hcc & Htc & _) & _ & Hvc & Hnc).
    set (wc := run host ws (candidate_events cs2)) in *.
    assert (Hfirst : signal_first = step host wc (TimerFired id)).
    { subst signal_first wc ws wa. rewrite !run_app. rewrite !run_one. reflexivity. }
    assert (Hlate : step host wc (TimerFired id)
                    = with_timers (delete id (timers wc)) (nextTimer wc) wc).
    { apply (step_timeout_late wc id tm); [| exact Hcb | exact Hrep |].
      - rewrite Htc, Ht3, Hta. exact Htm.
      - rewrite Hpc, Hp3. destruct (peer wa); reflexivity. }
    rewrite Hfirst, Hlate.
    assert (E : completions (with_timers (delete id (timers wc)) (nextTimer wc) wc)
                = completions wc /\
                forall f, getElementById f (with_timers (delete id (timers wc)) (nextTimer wc) wc)
                          = getElementById f wc)
      by (destruct wc; split; reflexivity).
    destruct E as (En & Ef). rewrite En, Ef.
    split; [congruence |].
    subst field. rewrite Hvc, <- Hca, Hv3, Hga. reflexivity.
Qed.

(** C4, as the code has it.  What is frozen at completion is the text
    written to the page: candidates discovered afterwards never change it
    (nor any other field).  The bundle object is not frozen: completion
    makes its [candidates] the pending array itself, so every candidate
    discovered afterwards is appended to the bundle's candidates as well,
    in order. *)
Theorem published_text_is_the_snapshot (w : World) (b : Bundle) (cs : list RTCIceCandidate) :
  completeSignalingData (peer w) = Some b ->
  currentPeer w = "A" \/ currentPeer w = "B" ->
  let completed := exec (Script.completeSignalingReady host) w in
  let later := run host completed (candidate_events cs) in
  let gathered := Script.read_array (pendingCandidates (peer w)) w in
  el_value (getElementById (bundle_field (currentPeer w)) completed) = bundle_text host b gathered /\
  (forall id, el_value (getElementById id later) = el_value (getElementById id completed)) /\
  exists b',
    completeSignalingData (peer completed) = Some b' /\
    completeSignalingData (peer later) = Some b' /\
    type b' = type b /\ sdp b' = sdp b /\
    candidates b' = pendingCandidates (peer later) /\
    Script.read_array (candidates b') completed = gathered /\
    Script.read_array (candidates b') later = (gathered ++ cs)%list.
Proof.
  intros Hb Hcp completed later gathered.
  destruct (completeSignalingReady_publishes w b Hb Hcp) as (Hp & _ & Hh & Hv & _).
  fold completed in Hp, Hh, Hv.
  destruct (run_candidates cs completed) as (Hpl & _ & Hrl & Hvl & _).
  fold later in Hpl, Hrl, Hvl.
  assert (Hpend : pendingCandidates (peer completed) = pendingCandidates (peer w))
    by (rewrite Hp; destruct (peer w); reflexivity).
  split; [exact Hv |]. split; [exact Hvl |].
  exists (bundle_candidates (pendingCandidates (peer w)) b).
  split; [rewrite Hp; destruct (peer w); reflexivity |].
  split; [rewrite Hpl, Hp; destruct (peer w); reflexivity |].
  split; [destruct b; reflexivity |]. split; [destruct b; reflexivity |].
  assert (Hc : candidates (bundle_candidates (pendingCandidates (peer w)) b)
               = pendingCandidates (peer w)) by (destruct b; reflexivity).
  rewrite Hc. split; [rewrite Hpl; symmetry; exact Hpend |].
  assert (Hg : Script.read_array (pendingCandidates (peer w)) completed = gathered)
    by (unfold Script.read_array; rewrite Hh; reflexivity).
  split; [exact Hg |].
  rewrite Hrl, Hpend, decide_loc_refl, Hg. reflexivity.
Qed.

(** ** Applying a remote bundle *)

Lemma candidates_length_pure (bundle : JValue) (w : World) :
  Script.candidates_length bundle w
  = (candidates_length_of bundle, w).
Proof.
  unfold Script.candidates_length, candidates_length_of. run_M.
  destruct (prop (Some bundle) "candidates") as [e | cands]; [reflexivity |].
  destruct (prop cands "length"); reflexivity.
Qed.

(** A value whose [candidates] could be read is not [null], so its [sdp]
    can be read as well. *)
Lemma sdp_readable (bundle : JValue) (n : value) :
  candidates_length_of bundle = inr n ->
  exists sd, prop (Some bundle) "sdp" = inr sd.
Proof.
  unfold candidates_length_of.
  destruct bundle; cbn; try discriminate; intros _; eexists; reflexivity.
Qed.

(** The [catch] block reports on the page and touches nothing else. *)
Lemma report_error_page_only (e : exn) (w : World) :
  let w' := exec (Script.report_error e) w in
  fst (Script.report_error e w) = inr tt /\
  peer w' = peer w /\ facade w' = facade w /\ pending w' = pending w /\
  heap w' = heap w /\ timers w' = timers w /\ alerts w' = alerts w /\
  el_text (getElementById ("status" ++ currentPeer w) w') = [Str "Error"].
Proof.
  unfold Script.report_error, getElementById. open_world w. run_M.
  repeat split. cbn [document].
  rewrite elem_at_update_eq. reflexivity.
Qed.

(** The list of suspended functions once the one parked last has been
    taken out of it. *)
Lemma parked_last_removed (l : list Kont) (k : Kont) :
  (take (length l) (l ++ [k]) ++ drop (S (length l)) (l ++ [k]))%list = l.
Proof.
  rewrite take_app_length.
  replace (drop (S (length l)) (l ++ [k])) with (@nil Kont).
  - apply app_nil_r.
  - symmetry. apply drop_ge. rewrite length_app. cbn. lia.
Qed.

(** [createCompleteAnswer] on a bundle it accepts, when the promise of
    [setRemoteDescription] settles. *)
Lemma createCompleteAnswer_settles (w : World) (v : JValue) (n sd cands : value) (o : Outcome) :
  JsString.trim (el_value (getElementById "completeOfferB" w)) <> EmptyString ->
  JSON_parse host (el_value (getElementById "completeOfferB" w)) = inr v ->
  candidates_length_of v = inr n ->
  prop (Some v) "sdp" = inr sd ->
  prop (Some v) "candidates" = inr cands ->
  let w' := exec (Script.createCompleteAnswer host) w in
  let settled := exec (Script.settle (length (pending w)) o) w' in
  let status := el_text (getElementById ("status" ++ currentPeer w) settled) in
  let failed (e : exn) :=
    facade settled = facade w' /\ pending settled = pending w /\
    status = [Str "Error"] /\
    last (el_children (getElementById ("debug" ++ currentPeer w) settled))
    = Some (error_line (clock w) e) in
  let goes_on (call : FacadeCall) (k : Kont) :=
    facade settled = (facade w' ++ [call])%list /\
    pending settled = (pending w ++ [k])%list /\
    status = [Str "Processing Offer..."] /\ alerts settled = alerts w in
  match o with
  | Rejected e => failed e
  | Resolved _ =>
      match iterate cands with
      | inl e => failed e
      | inr [] => goes_on (CreateAnswer (nextPc w)) AnswerCreated
      | inr (c :: rest) =>
          goes_on (AddIceCandidate (nextPc w) c) (AnswerCandidateAdded v rest)
      end
  end.
Proof.
  intros Hfilled Hv Hn Hsd Hcands. cbv zeta.
  unfold Script.createCompleteAnswer, Script.close_existing, Script.initializePeerConnection,
    Script.peer_pc_receiver, Script.await, Script.facade_call, Script.new_RTCPeerConnection,
    Script.new_array, Script.settle, error_line.
  apply String.eqb_neq in Hfilled.
  unfold getElementById in *. open_world w.
  destruct pc0 as [old |]; run_M;
    rewrite Hfilled, Hv; run_M; rewrite candidates_length_pure, Hn; run_M;
    rewrite Hsd; run_M.
  all: rewrite list_lookup_middle by reflexivity; run_M.
  all: rewrite parked_last_removed; cbn [Script.resume].
  all: unfold Script.createCompleteAnswer_remoteSet, Script.createCompleteAnswer_loop,
         Script.report_error, Script.peer_pc_receiver, Script.await, Script.facade_call.
  all: destruct o as [s | e]; run_M.
  all: try (rewrite Hcands; run_M; destruct (iterate cands) as [e | [| c rest]]; run_M;
            rewrite ?candidates_length_pure, ?Hn; run_M).
  all: cbn [document].
  all: repeat split.
  all: try (rewrite ?elem_at_update_eq, ?elem_at_update_ne by string_ne;
            rewrite ?elem_at_update_eq; reflexivity).
  all: try (rewrite !elem_at_update_ne by string_ne; rewrite elem_at_update_eq;
            cbn [el_children set_children]; rewrite last_snoc; reflexivity).
Qed.

(** C3, as the code has it.  [createCompleteAnswer] rejects a blank field
    with an alert, and a text that does not parse, or whose parsed value
    has no [candidates] with a readable [length], with the error report of
    its [catch] block; in these cases the transport is not touched.  It
    does not look at [sdp]: for every other parsed value, whatever its
    [sdp] is (empty and missing included), the previous connection is
    closed, a new one is created and the description is handed to its
    [setRemoteDescription], with no alert and no error report up to that
    call.  When the transport rejects the call, or accepts it and
    [candidates] cannot be iterated, the [catch] block reports the error
    and no further call is made; otherwise the function goes on to
    [addIceCandidate] for the first candidate, or to [createAnswer] when
    there is none. *)
Theorem createCompleteAnswer_validation (w : World) :
  let text := el_value (getElementById "completeOfferB" w) in
  let w' := exec (Script.createCompleteAnswer host) w in
  (JsString.trim text = EmptyString ->
   Script.createCompleteAnswer host w = alert "Please paste the complete offer first!" w) /\
  (JsString.trim text <> EmptyString ->
   forall e, JSON_parse host text = inl e ->
   Script.createCompleteAnswer host w = Script.report_error e w /\ facade w' = facade w) /\
  (JsString.trim text <> EmptyString ->
   forall v e, JSON_parse host text = inr v -> candidates_length_of v = inl e ->
   Script.createCompleteAnswer host w = Script.report_error e w /\ facade w' = facade w) /\
  (JsString.trim text <> EmptyString ->
   forall v n sd, JSON_parse host text = inr v -> candidates_length_of v = inr n ->
   prop (Some v) "sdp" = inr sd ->
   facade w' = (facade w ++ closes w
                ++ [NewPeerConnection (nextPc w); SetRemoteDescription (nextPc w) "offer" sd])%list /\
   pending w' = (pending w ++ [AnswerRemoteSet v])%list /\
   alerts w' = alerts w /\
   el_text (getElementById ("status" ++ currentPeer w) w') = [Str "Processing Offer..."]) /\
  (JsString.trim text <> EmptyString ->
   forall v n sd cands, JSON_parse host text = inr v -> candidates_length_of v = inr n ->
   prop (Some v) "sdp" = inr sd -> prop (Some v) "candidates" = inr cands ->
   forall o : Outcome,
   let settled := exec (Script.settle (length (pending w)) o) w' in
   let status := el_text (getElementById ("status" ++ currentPeer w) settled) in
   let failed (e : exn) :=
     facade settled = facade w' /\ pending settled = pending w /\
     status = [Str "Error"] /\
     last (el_children (getElementById ("debug" ++ currentPeer w) settled))
     = Some (error_line (clock w) e) in
   let goes_on (call : FacadeCall) (k : Kont) :=
     facade settled = (facade w' ++ [call])%list /\
     pending settled = (pending w ++ [k])%list /\
     status = [Str "Processing Offer..."] /\ alerts settled = alerts w in
   match o with
   | Rejected e => failed e
   | Resolved _ =>
       match iterate cands with
       | inl e => failed e
       | inr [] => goes_on (CreateAnswer (nextPc w)) AnswerCreated
       | inr (c :: rest) =>
           goes_on (AddIceCandidate (nextPc w) c) (AnswerCandidateAdded v rest)
       end
   end).
Proof.
  intros text w'. subst w'.
  split; [| split; [| split; [| split]]].
  - intros Hblank. unfold Script.createCompleteAnswer. subst text.
    unfold getElementById in *. open_world w. run_M.
    rewrite Hblank. reflexivity.
  - intros Hfilled e He.
    assert (Hrun : Script.createCompleteAnswer host w = Script.report_error e w).
    { unfold Script.createCompleteAnswer. subst text.
      apply String.eqb_neq in Hfilled.
      unfold getElementById in *. open_world w. run_M.
      rewrite Hfilled, He. reflexivity. }
    split; [exact Hrun |]. unfold exec. rewrite Hrun.
    apply (report_error_page_only e w).
  - intros Hfilled v e Hv He.
    assert (Hrun : Script.createCompleteAnswer host w = Script.report_error e w).
    { unfold Script.createCompleteAnswer. subst text.
      apply String.eqb_neq in Hfilled.
      unfold getElementById in *. open_world w. run_M.
      rewrite Hfilled, Hv. run_M. rewrite candidates_length_pure, He. reflexivity. }
    split; [exact Hrun |]. unfold exec. rewrite Hrun.
    apply (report_error_page_only e w).
  - intros Hfilled v n sd Hv Hn Hsd.
    unfold Script.createCompleteAnswer, Script.close_existing, Script.initializePeerConnection,
      Script.peer_pc_receiver, Script.await, Script.facade_call, Script.new_RTCPeerConnection,
      Script.new_array, closes. subst text.
    apply String.eqb_neq in Hfilled.
    unfold getElementById in *. open_world w.
    destruct pc0 as [old |]; run_M;
      rewrite Hfilled, Hv; run_M; rewrite candidates_length_pure, Hn; run_M;
      rewrite Hsd; run_M; cbn [document];
      (repeat split;
       [ rewrite <- !app_assoc; reflexivity
       | rewrite elem_at_update_eq; reflexivity ]).
  - intros Hfilled v n sd cands Hv Hn Hsd Hcands o.
    exact (createCompleteAnswer_settles w v n sd cands o Hfilled Hv Hn Hsd Hcands).
Qed.

(** [await] records the call and parks the continuation. *)
Lemma await_unfolds (call : FacadeCall) (k : Kont) (w : World) :
  Script.await call k w
  = (inr tt, with_pending (pending w ++ [k]) (with_facade (facade w ++ [call]) (nextPc w) w)).
Proof. unfold Script.await, Script.facade_call. open_world w. run_M. reflexivity. Qed.

(** Settling the promise a function was parked on last resumes it. *)
Lemma settle_appended (w : World) (k : Kont) (o : Outcome) :
  Script.settle (length (pending w)) o (with_pending (pending w ++ [k]) w)
  = Script.resume k o w.
Proof.
  unfold Script.settle. open_world w. run_M.
  rewrite list_lookup_middle by reflexivity. run_M.
  rewrite take_app_length.
  replace (drop (S (length pending0)) (pending0 ++ [k])) with (@nil Kont).
  - rewrite app_nil_r. reflexivity.
  - symmetry. apply drop_ge. rewrite length_app. cbn. lia.
Qed.

(** C1, the defect.  [setCompleteAnswer] as script.js has it sets the
    remote description and stops there: whatever candidates the answer
    bundle carries, no [addIceCandidate] call is made, neither before nor
    after the description is applied, although the log then reports the
    candidates as added. *)
Theorem setCompleteAnswer_skips_candidates
    (w : World) (v : JValue) (cands : list JValue) (sd : value) (id : nat) (s : string) :
  let text := el_value (getElementById "completeAnswerA" w) in
  JsString.trim text <> EmptyString ->
  JSON_parse host text = inr v ->
  prop (Some v) "candidates" = inr (Some (JArr cands)) ->
  prop (Some v) "sdp" = inr sd ->
  pc (peer w) = Some id ->
  let started := exec (Script.setCompleteAnswer host) w in
  let settled := exec (Script.settle (length (pending w)) (Resolved s)) started in
  facade started = (facade w ++ [SetRemoteDescription id "answer" sd])%list /\
  pending started = (pending w ++ [RemoteAnswerSet v])%list /\
  facade settled = facade started /\
  pending settled = pending w /\
  In (added_line (clock w) (Some (JNum (Z.of_nat (length cands)))))
     (el_children (getElementById ("debug" ++ currentPeer w) settled)).
Proof.
  intros text Hfilled Hv Hcands Hsd Hpc started settled.
  assert (Hlen : candidates_length_of v = inr (Some (JNum (Z.of_nat (length cands)))))
    by (unfold candidates_length_of; rewrite Hcands; reflexivity).
  assert (Hstart : Script.setCompleteAnswer host w
            = Script.await (SetRemoteDescription id "answer" sd) (RemoteAnswerSet v)
                (exec (updateStatus "Connecting...")
                   (exec (addDebugInfo [Str "📥 Processing complete answer with ";
                                        Val (Some (JNum (Z.of_nat (length cands))));
                                        Str " candidates"] "info") w))).
  { unfold Script.setCompleteAnswer, Script.setCompleteAnswer_start, Script.peer_pc_receiver.
    subst text. apply String.eqb_neq in Hfilled.
    rewrite await_unfolds.
    unfold getElementById in *. open_world w. cbn in Hpc. subst. run_M.
    rewrite Hfilled, Hv. run_M. rewrite candidates_length_pure, Hlen. run_M.
    rewrite Hsd. run_M. reflexivity. }
  set (w0 := exec (updateStatus "Connecting...") _) in Hstart.
  assert (E0 : facade w0 = facade w /\ pending w0 = pending w /\ nextPc w0 = nextPc w /\
               clock w0 = clock w /\ currentPeer w0 = currentPeer w)
    by (subst w0; open_world w; run_M; repeat split).
  destruct E0 as (Ef & Ep & En & Ec & Ecp).
  rewrite await_unfolds in Hstart.
  set (w1 := with_facade _ _ w0) in Hstart.
  assert (E1 : facade w1 = (facade w ++ [SetRemoteDescription id "answer" sd])%list /\
               pending w1 = pending w0 /\ clock w1 = clock w /\ currentPeer w1 = currentPeer w).
  { subst w1. rewrite <- Ef, <- Ec, <- Ecp. destruct w0. repeat split. }
  destruct E1 as (Ef1 & Ep10 & Ec1 & Ecp1). rewrite <- Ep10 in Hstart.
  assert (Ep1 : pending w1 = pending w) by congruence.
  assert (Hstarted : started = with_pending (pending w1 ++ [RemoteAnswerSet v]) w1)
    by (subst started; unfold exec; rewrite Hstart; reflexivity).
  assert (Hsettled : settled
            = exec (Script.setCompleteAnswer_finish v) w1).
  { subst settled. unfold exec at 1. rewrite Hstarted, <- Ep1, settle_appended.
    unfold Script.resume, Script.setCompleteAnswer_remoteSet, Script.setCompleteAnswer_finish.
    run_M. rewrite candidates_length_pure, Hlen. destruct w1. run_M. reflexivity. }
  rewrite Hstarted, Hsettled.
  unfold Script.setCompleteAnswer_finish, getElementById, added_line.
  rewrite <- Ef1, <- Ep1, <- Ec1, <- Ecp1.
  destruct w1. run_M. rewrite candidates_length_pure, Hlen. run_M.
  repeat split. cbn [document].
  rewrite elem_at_update_eq. cbn [el_children set_children].
  rewrite elem_at_update_eq. cbn [el_children set_children].
  rewrite !in_app_iff. left. right. left. reflexivity.
Qed.

Lemma try_catch_returns {A} (body : M A) (handler : exn -> M A) (w : World) :
  escapes body w = false -> try_catch body handler w = body w.
Proof.
  unfold escapes, try_catch. destruct (body w) as [[e | a] w']; [discriminate | reflexivity].
Qed.

Lemma setCompleteAnswer_finish_page_only (v : JValue) (n : value) (w : World) :
  candidates_length_of v = inr n ->
  let w' := exec (Script.setCompleteAnswer_finish v) w in
  escapes (Script.setCompleteAnswer_finish v) w = false /\
  facade w' = facade w /\ pending w' = pending w /\ peer w' = peer w.
Proof.
  intros Hn. unfold Script.setCompleteAnswer_finish. open_world w. run_M.
  rewrite candidates_length_pure, Hn. run_M. repeat split.
Qed.

(** The loop of the first revision: with a connection in place and a
    transport that accepts every candidate, the remaining candidates go to
    [addIceCandidate] one by one, in array order. *)
Lemma legacy_loop_replays (v : JValue) (n : value) (id : nat) (s : string) (rest : list JValue) :
  candidates_length_of v = inr n ->
  forall w, pc (peer w) = Some id ->
  let w1 := exec (Script.setCompleteAnswer_legacy_loop v rest) w in
  let w2 := settle_times (length (pending w)) (length rest) (Resolved s) w1 in
  escapes (Script.setCompleteAnswer_legacy_loop v rest) w = false /\
  facade w2 = (facade w ++ map (AddIceCandidate id) rest)%list /\
  pending w2 = pending w.
Proof.
  intros Hn. induction rest as [| c rest IH]; intros w Hpc.
  - cbn [Script.setCompleteAnswer_legacy_loop length settle_times map].
    destruct (setCompleteAnswer_finish_page_only v n w Hn) as (He & Hf & Hp & _).
    rewrite app_nil_r. repeat split; assumption.
  - set (w' := with_facade (facade w ++ [AddIceCandidate id c]) (nextPc w) w).
    assert (Hloop : Script.setCompleteAnswer_legacy_loop v (c :: rest) w
                    = (inr tt, with_pending (pending w' ++ [LegacyCandidateAdded v rest]) w')).
    { cbn [Script.setCompleteAnswer_legacy_loop].
      unfold Script.peer_pc_receiver, Script.await, Script.facade_call.
      subst w'. open_world w. cbn in Hpc. subst. run_M. reflexivity. }
    assert (E : pc (peer w') = Some id /\ pending w' = pending w /\
                facade w' = (facade w ++ [AddIceCandidate id c])%list)
      by (subst w'; destruct w; repeat split; exact Hpc).
    destruct E as (Hpc' & Hp' & Hf').
    destruct (IH w' Hpc') as (He & Hf & Hp).
    assert (Hw2 : settle_times (length (pending w)) (length (c :: rest)) (Resolved s)
                    (exec (Script.setCompleteAnswer_legacy_loop v (c :: rest)) w)
                  = settle_times (length (pending w')) (length rest) (Resolved s)
                      (exec (Script.setCompleteAnswer_legacy_loop v rest) w')).
    { cbn [length settle_times]. rewrite <- Hp'. f_equal.
      unfold exec at 2. rewrite Hloop. cbn [snd].
      unfold exec at 1. rewrite settle_appended.
      cbn [Script.resume]. unfold Script.setCompleteAnswer_legacy_candidateAdded.
      rewrite try_catch_returns by exact He. reflexivity. }
    cbv zeta. rewrite Hw2, Hf, Hp, Hf', <- app_assoc.
    unfold escapes. rewrite Hloop. repeat split.
Qed.

(** The sibling path: the first revision of [setCompleteAnswer] does what
    C1 says.  On the input of the theorem above, once the transport has
    accepted the description and each candidate, the calls made are
    [setRemoteDescription] followed by one [addIceCandidate] per candidate
    of the bundle, in array order. *)
Lemma setCompleteAnswer_legacy_replays
    (w : World) (v : JValue) (cands : list JValue) (sd : value) (id : nat) (s : string) :
  let text := el_value (getElementById "completeAnswerA" w) in
  JsString.trim text <> EmptyString ->
  JSON_parse host text = inr v ->
  prop (Some v) "candidates" = inr (Some (JArr cands)) ->
  prop (Some v) "sdp" = inr sd ->
  pc (peer w) = Some id ->
  let started := exec (Script.setCompleteAnswer_legacy host) w in
  let finished := settle_times (length (pending w)) (S (length cands)) (Resolved s) started in
  facade finished
  = (facade w ++ SetRemoteDescription id "answer" sd :: map (AddIceCandidate id) cands)%list /\
  pending finished = pending w.
Proof.
  intros text Hfilled Hv Hcands Hsd Hpc started finished.
  assert (Hlen : candidates_length_of v = inr (Some (JNum (Z.of_nat (length cands)))))
    by (unfold candidates_length_of; rewrite Hcands; reflexivity).
  assert (Hstart : Script.setCompleteAnswer_legacy host w
            = Script.await (SetRemoteDescription id "answer" sd) (LegacyRemoteAnswerSet v)
                (exec (updateStatus "Connecting...")
                   (exec (addDebugInfo [Str "📥 Processing complete answer with ";
                                        Val (Some (JNum (Z.of_nat (length cands))));
                                        Str " candidates"] "info") w))).
  { unfold Script.setCompleteAnswer_legacy, Script.setCompleteAnswer_start,
      Script.peer_pc_receiver.
    subst text. apply String.eqb_neq in Hfilled.
    rewrite await_unfolds.
    unfold getElementById in *. open_world w. cbn in Hpc. subst. run_M.
    rewrite Hfilled, Hv. run_M. rewrite candidates_length_pure, Hlen. run_M.
    rewrite Hsd. run_M. reflexivity. }
  set (w0 := exec (updateStatus "Connecting...") _) in Hstart.
  assert (E0 : facade w0 = facade w /\ pending w0 = pending w /\ pc (peer w0) = Some id)
    by (subst w0; open_world w; run_M; repeat split; exact Hpc).
  destruct E0 as (Ef & Ep & Epc).
  rewrite await_unfolds in Hstart.
  set (w1 := with_facade _ _ w0) in Hstart.
  assert (E1 : facade w1 = (facade w ++ [SetRemoteDescription id "answer" sd])%list /\
               pending w1 = pending w0 /\ pc (peer w1) = Some id).
  { subst w1. rewrite <- Ef. destruct w0. repeat split. exact Epc. }
  destruct E1 as (Ef1 & Ep10 & Epc1). rewrite <- Ep10 in Hstart.
  assert (Ep1 : pending w1 = pending w) by congruence.
  destruct (legacy_loop_replays v _ id s cands Hlen w1 Epc1) as (He & Hf & Hp).
  assert (Hbody : (let* cs := lift (prop (Some v) "candidates") in
                   let* items := lift (iterate cs) in
                   Script.setCompleteAnswer_legacy_loop v items)%M
                  = Script.setCompleteAnswer_legacy_loop v cands).
  { rewrite Hcands. reflexivity. }
  assert (Hfin : finished
                 = settle_times (length (pending w1)) (length cands) (Resolved s)
                     (exec (Script.setCompleteAnswer_legacy_loop v cands) w1)).
  { subst finished started. cbn [settle_times]. rewrite <- Ep1. f_equal.
    unfold exec at 2. rewrite Hstart. cbn [snd].
    unfold exec at 1. rewrite settle_appended.
    cbn [Script.resume]. unfold Script.setCompleteAnswer_legacy_remoteSet.
    rewrite Hbody, try_catch_returns by exact He. reflexivity. }
  rewrite Hfin, Hf, Hp, Ef1, <- app_assoc. split; [reflexivity | exact Ep1].
Qed.

End Negotiation.

Lemma stopSpeedTest_idle_noop_witness :
  isRunning (speedTest RefHost.initial) = false /\
  stopSpeedTest RefHost.initial = (inr tt, RefHost.initial).
Proof.
  split; [reflexivity | apply stopSpeedTest_idle_noop; reflexivity].
Defined.

Lemma startSpeedTest_rejects_witness :
  isRunning (speedTest Scenario.probe_running) = true /\
  speedTest (exec (startSpeedTest RefHost.host) Scenario.probe_running)
    = speedTest Scenario.probe_running /\
  timers (exec (startSpeedTest RefHost.host) Scenario.probe_running)
    = timers Scenario.probe_running.
Proof.
  assert (Hrun : isRunning (speedTest Scenario.probe_running) = true)
    by (vm_compute; reflexivity).
  split; [exact Hrun |].
  pose proof (startSpeedTest_rejects RefHost.host Scenario.probe_running (or_intror Hrun))
    as H.
  cbv zeta in H. destruct H as (Hs & Ht & _). split; assumption.
Defined.

Lemma stopSpeedTest_keeps_samples_witness :
  isRunning (speedTest Scenario.probe_running) = true /\
  latencyTests (speedTest (exec stopSpeedTest Scenario.probe_running))
    = latencyTests (speedTest Scenario.probe_running) /\
  timers (exec stopSpeedTest Scenario.probe_running) !! 1%positive = None.
Proof.
  assert (Hrun : isRunning (speedTest Scenario.probe_running) = true)
    by (vm_compute; reflexivity).
  split; [exact Hrun |].
  pose proof (stopSpeedTest_keeps_samples RefHost.host Scenario.probe_running Hrun) as H.
  cbv zeta in H. destruct H as ((_ & _ & Hcancel & Hlat & _) & _).
  split; [exact Hlat |].
  apply Hcancel. left. vm_compute. reflexivity.
Defined.

(** C5, the claim as stated fails: after a run that sent one packet and
    recorded one latency sample, [clearSpeedTestResults] leaves the sample
    and the byte counter in place; it is the next [startSpeedTest] that
    zeroes them. *)
Lemma clearSpeedTestResults_does_not_reset :
  let stopped := Scenario.probe_stopped in
  let cleared := Scenario.run stopped [Click_clearSpeedTestResults] in
  let restarted := Scenario.run cleared [Click_startSpeedTest] in
  (length (latencyTests (speedTest stopped)) = 1%nat /\ bytesSent (speedTest stopped) = 979%Z) /\
  (length (latencyTests (speedTest cleared)) = 1%nat /\ bytesSent (speedTest cleared) = 979%Z) /\
  (length (latencyTests (speedTest restarted)) = 0%nat /\ bytesSent (speedTest restarted) = 0%Z).
Proof.
  vm_compute. repeat split.
Qed.

Lemma onmessage_unrecognized_is_chat_witness :
  recognized RefHost.host "hello" = false /\
  onmessage RefHost.host "hello" RefHost.initial
    = addMessage "hello" "Peer B" RefHost.initial.
Proof.
  assert (Hrec : recognized RefHost.host "hello" = false) by (vm_compute; reflexivity).
  split; [exact Hrec |].
  apply (onmessage_unrecognized_is_chat RefHost.host "hello" RefHost.initial Hrec).
Defined.

(** A JSON message with a tag of its own is chat as well. *)
Example chat_json_is_chat :
  recognized RefHost.host Scenario.chat_json = false /\
  speedTest (step RefHost.host Scenario.probe_running (MessageEvent Scenario.chat_json))
    = speedTest Scenario.probe_running /\
  length (el_children (getElementById "messagesA"
            (step RefHost.host Scenario.probe_running (MessageEvent Scenario.chat_json))))
    = S (length (el_children (getElementById "messagesA" Scenario.probe_running))).
Proof.
  vm_compute. repeat split.
Qed.

(** C1 at the failing input: an answer bundle with two candidates. *)
Lemma setCompleteAnswer_skips_candidates_witness :
  JSON_parse RefHost.host (el_value (getElementById "completeAnswerA" Scenario.answer_pasted))
    = inr Scenario.answer_json /\
  pc (peer Scenario.answer_pasted) = Some 0%nat /\
  facade (exec (Script.settle 0 (Resolved EmptyString))
            (exec (Script.setCompleteAnswer RefHost.host) Scenario.answer_pasted))
  = (facade Scenario.answer_pasted
     ++ [SetRemoteDescription 0 "answer" (Some (JStr "v=0"))])%list.
Proof.
  assert (Hv : JSON_parse RefHost.host
                 (el_value (getElementById "completeAnswerA" Scenario.answer_pasted))
               = inr Scenario.answer_json) by (vm_compute; reflexivity).
  assert (Hpc : pc (peer Scenario.answer_pasted) = Some 0%nat) by (vm_compute; reflexivity).
  split; [exact Hv |]. split; [exact Hpc |].
  pose proof (setCompleteAnswer_skips_candidates RefHost.host Scenario.answer_pasted
                Scenario.answer_json Scenario.answer_candidates (Some (JStr "v=0")) 0
                EmptyString) as H.
  cbv zeta in H.
  assert (Hfilled : JsString.trim
                      (el_value (getElementById "completeAnswerA" Scenario.answer_pasted))
                    <> EmptyString) by (vm_compute; discriminate).
  destruct (H Hfilled Hv eq_refl eq_refl Hpc) as (Hstarted & _ & Hsettled & _).
  change (length (pending Scenario.answer_pasted)) with 0%nat in Hsettled.
  rewrite Hsettled. exact Hstarted.
Defined.

(** The same input through both revisions: the transport calls made once
    every promise has resolved. *)
Example answer_candidates_dropped :
  let w := Scenario.answer_pasted in
  let current :=
    settle_times 0 3 (Resolved EmptyString) (exec (Script.setCompleteAnswer RefHost.host) w) in
  let legacy :=
    settle_times 0 3 (Resolved EmptyString)
      (exec (Script.setCompleteAnswer_legacy RefHost.host) w) in
  skipn (length (facade w)) (facade current)
  = [SetRemoteDescription 0 "answer" (Some (JStr "v=0"))] /\
  skipn (length (facade w)) (facade legacy)
  = [SetRemoteDescription 0 "answer" (Some (JStr "v=0"));
     AddIceCandidate 0 (JObj [("candidate", JStr "c1")]);
     AddIceCandidate 0 (JObj [("candidate", JStr "c2")])].
Proof.
  vm_compute. split; reflexivity.
Qed.

Lemma gathering_timeout_policy_witness :
  completeSignalingData (peer Scenario.offer_round) = Some Scenario.offer_bundle /\
  timers Scenario.offer_round !! 1%positive = Some Scenario.gathering_timer /\
  completions
    (run RefHost.host Scenario.offer_round
       (candidate_events [Scenario.host_candidate] ++ [TimerFired 1])) = 1%nat.
Proof.
  assert (Hb : completeSignalingData (peer Scenario.offer_round) = Some Scenario.offer_bundle)
    by (vm_compute; reflexivity).
  assert (Htm : timers Scenario.offer_round !! 1%positive = Some Scenario.gathering_timer)
    by (vm_compute; reflexivity).
  split; [exact Hb |]. split; [exact Htm |].
  pose proof (gathering_timeout_policy RefHost.host Scenario.offer_round Scenario.offer_bundle
                1%positive Scenario.gathering_timer [Scenario.host_candidate]
                [Scenario.srflx_candidate]) as H.
  cbv zeta in H.
  destruct (H Hb eq_refl (or_introl eq_refl) Htm eq_refl eq_refl) as ((Hn & _) & _).
  rewrite Hn. vm_compute. reflexivity.
Defined.

(** C2, the claim as stated fails: the timer forces the bundle out with
    no candidate, a candidate and then the real gathering-complete signal
    arrive, and [completeSignalingReady] publishes a second time, with a
    different text. *)
Lemma late_signal_completes_again :
  let forced := Scenario.run Scenario.offer_round [TimerFired 1] in
  let late :=
    Scenario.run forced [IceCandidateEvent (Some Scenario.host_candidate);
                         IceCandidateEvent None] in
  completions Scenario.offer_round = 0%nat /\
  completions forced = 1%nat /\
  completions late = 2%nat /\
  el_value (getElementById "completeOfferA" forced)
  = bundle_text RefHost.host Scenario.offer_bundle [] /\
  el_value (getElementById "completeOfferA" late)
  = bundle_text RefHost.host Scenario.offer_bundle [Scenario.host_candidate].
Proof.
  vm_compute. repeat split.
Qed.

Lemma createCompleteAnswer_validation_witness :
  JsString.trim (el_value (getElementById "completeOfferB" RefHost.initial)) = EmptyString /\
  Script.createCompleteAnswer RefHost.host RefHost.initial
  = alert "Please paste the complete offer first!" RefHost.initial.
Proof.
  assert (Hblank : JsString.trim (el_value (getElementById "completeOfferB" RefHost.initial))
                   = EmptyString) by (vm_compute; reflexivity).
  split; [exact Hblank |].
  pose proof (createCompleteAnswer_validation RefHost.host RefHost.initial) as H.
  cbv zeta in H. destruct H as (H & _). exact (H Hblank).
Defined.

(** C3, the claim as stated fails: the pasted text parses to a record
    whose [sdp] is the empty string.  No alert is raised and no error is
    reported; the empty description goes to [setRemoteDescription], and
    with a transport that accepts it the function goes on to
    [createAnswer]. *)
Lemma empty_sdp_is_applied :
  let w := Scenario.empty_sdp_pasted in
  let started := Scenario.run w [Click_createCompleteAnswer] in
  let accepted := Scenario.run started [PromiseSettled 0 (Resolved EmptyString)] in
  JSON_parse RefHost.host (el_value (getElementById "completeOfferB" w))
  = inr (JObj [("sdp", JStr EmptyString); ("candidates", JArr [])]) /\
  facade started = [NewPeerConnection 0; SetRemoteDescription 0 "offer" (Some (JStr EmptyString))] /\
  alerts started = [] /\
  el_text (getElementById "statusB" started) = [Str "Processing Offer..."] /\
  facade accepted = [NewPeerConnection 0; SetRemoteDescription 0 "offer" (Some (JStr EmptyString));
                     CreateAnswer 0] /\
  alerts accepted = [] /\
  el_text (getElementById "statusB" accepted) = [Str "Processing Offer..."].
Proof.
  vm_compute. repeat split.
Qed.

(** A field that holds only a no-break space and a space is blank. *)
Example no_break_space_is_blank :
  alerts (exec (Script.createCompleteAnswer RefHost.host) Runs.nbsp_pasted)
  = ["Please paste the complete offer first!"] /\
  facade (exec (Script.createCompleteAnswer RefHost.host) Runs.nbsp_pasted) = [] /\
  el_children (getElementById "debugB"
                 (exec (Script.createCompleteAnswer RefHost.host) Runs.nbsp_pasted)) = [].
Proof.
  vm_compute. repeat split.
Qed.

(** A record whose [candidates] is a number passes the checks: the
    description is applied, and the error is reported afterwards, when the
    loop finds nothing to iterate. *)
Example candidates_not_iterable_is_reported_late :
  let started := Scenario.run Runs.candidates_5_pasted [Click_createCompleteAnswer] in
  let accepted := Scenario.run started [PromiseSettled 0 (Resolved EmptyString)] in
  facade started = [NewPeerConnection 0; SetRemoteDescription 0 "offer" (Some (JStr "v=0"))] /\
  el_text (getElementById "statusB" started) = [Str "Processing Offer..."] /\
  facade accepted = facade started /\
  el_text (getElementById "statusB" accepted) = [Str "Error"].
Proof.
  vm_compute. repeat split.
Qed.

Lemma published_text_is_the_snapshot_witness :
  completeSignalingData (peer Scenario.offer_round) = Some Scenario.offer_bundle /\
  el_value (getElementById "completeOfferA"
              (run RefHost.host (exec (Script.completeSignalingReady RefHost.host)
                                   Scenario.offer_round)
                 (candidate_events [Scenario.host_candidate])))
  = el_value (getElementById "completeOfferA"
                (exec (Script.completeSignalingReady RefHost.host) Scenario.offer_round)).
Proof.
  assert (Hb : completeSignalingData (peer Scenario.offer_round) = Some Scenario.offer_bundle)
    by (vm_compute; reflexivity).
  split; [exact Hb |].
  pose proof (published_text_is_the_snapshot RefHost.host Scenario.offer_round
                Scenario.offer_bundle [Scenario.host_candidate] Hb (or_introl eq_refl)) as H.
  cbv zeta in H. destruct H as (_ & Hfrozen & _). apply Hfrozen.
Defined.

(** C4, the claim as stated fails: the timeout completes the bundle with
    no candidate; the candidate discovered next is in the candidates array
    of that completed bundle. *)
Lemma late_candidate_joins_bundle :
  let completed := Scenario.run Scenario.offer_round [TimerFired 1] in
  let later := Scenario.run completed [IceCandidateEvent (Some Scenario.host_candidate)] in
  exists b,
    completeSignalingData (peer completed) = Some b /\
    completeSignalingData (peer later) = Some b /\
    Script.read_array (candidates b) completed = [] /\
    Script.read_array (candidates b) later = [Scenario.host_candidate].
Proof.
  exists {| type := "offer"; sdp := "v=0"; candidates := 1 |}.
  vm_compute. repeat split.
Qed.

Lemma throughput_formulas_witness :
  bytesSent (speedTest Runs.one_packet_sent) = 979%Z /\
  (1000 < clock Runs.one_packet_sent)%Z /\
  throughputTests (speedTest (step RefHost.host Runs.one_packet_sent (TimerFired 3)))
  = [Fin (Spec.mbps 979 (Spec.seconds 1000 1500))].
Proof.
  assert (Hsent : bytesSent (speedTest Runs.one_packet_sent) = 979%Z)
    by (vm_compute; reflexivity).
  assert (Hlt : (1000 < clock Runs.one_packet_sent)%Z) by (vm_compute; reflexivity).
  split; [exact Hsent |]. split; [exact Hlt |].
  eassert (Htm : timers Runs.one_packet_sent !! 3%positive
                 = Some {| tm_callback := StatsCollection 1000 0; tm_delay := _;
                           tm_repeat := true |}) by (vm_compute; reflexivity).
  destruct (throughput_formulas RefHost.host) as (Htick & _).
  destruct (Htick Runs.one_packet_sent 3%positive _ 1000%Z 0%Z Htm eq_refl eq_refl)
    as (_ & Hsample & _).
  rewrite (Hsample Hlt). vm_compute. reflexivity.
Defined.



(** Two samples of 10 ms and 20 ms: mean 15 ms, jitter 5 ms. *)
Example latency_two_samples :
  let s := st_latencyTests [Fin 10; Fin 20] RefHost.initial_speedTest in
  fr_avgLatency (finalResults s) = Fin 15 /\ fr_jitter (finalResults s) = Fin 5.
Proof.
  cbv zeta. unfold finalResults.
  cbn [latencyTests st_latencyTests RefHost.initial_speedTest fr_avgLatency fr_jitter].
  change [Fin 10; Fin 20] with (map Fin [10%R; 20%R]).
  rewrite jitter_Fin, average_Fin by discriminate.
  assert (Hmean : Spec.mean [10%R; 20%R] = 15%R)
    by (unfold Spec.mean, Spec.total; cbn; field).
  split; [rewrite Hmean; reflexivity |].
  unfold Spec.population_stddev. rewrite Hmean.
  replace (Spec.mean (map (fun x => ((x - 15) ^ 2)%R) [10%R; 20%R])) with (5 * 5)%R
    by (unfold Spec.mean, Spec.total; cbn; field).
  rewrite sqrt_square by lra. reflexivity.
Qed.

(** * Further properties *)

(** Reads an element of a page given as a chain of updates. *)
Ltac read_page :=
  repeat (first [ rewrite elem_at_update_eq | rewrite elem_at_update_ne by string_ne ];
          cbn [el_value el_text el_class el_children el_disabled el_width
               set_value set_text set_class set_children set_disabled set_width]);
  cbn [el_value el_text el_class el_children el_disabled el_width
       set_value set_text set_class set_children set_disabled set_width app].

(** A line appended to a log element changes no [value]. *)
Lemma el_value_appended (f id : string) (l : Line) (d : gmap string Elem) :
  el_value (elem_at f (update_elem id (fun e => set_children (el_children e ++ [l]) e) d))
  = el_value (elem_at f d).
Proof. rewrite elem_at_update. case_decide; reflexivity. Qed.

(** An update that leaves [value] alone. *)
Lemma el_value_update (f id : string) (g : Elem -> Elem) (d : gmap string Elem) :
  (forall e, el_value (g e) = el_value e) ->
  el_value (elem_at f (update_elem id g d)) = el_value (elem_at f d).
Proof. intros Hg. rewrite elem_at_update. case_decide; [apply Hg | reflexivity]. Qed.

(** Lines that announce no bundle do not count as completions. *)
Ltac count_quiet :=
  read_page; rewrite ?filter_app, ?count_ready_none by reflexivity;
  rewrite ?app_nil_r; try reflexivity.

(** Counts the announcements among the lines of a log given as a chain of
    updates. *)
Ltac count_ready :=
  read_page; rewrite ?filter_app, ?length_app;
  repeat first [ rewrite count_ready_none by reflexivity
               | rewrite count_ready_singleton by reflexivity ];
  cbn [length]; lia.

(** The array made first is still empty when a second one has been made. *)
Lemma elements_alloc_twice (h : gmap nat (list RTCIceCandidate)) :
  Script.elements (Script.new_loc h) (Script.array_alloc (Script.array_alloc h)) = [].
Proof.
  unfold Script.elements, Script.array_alloc. rewrite lookup_insert.
  case_decide; [reflexivity | rewrite lookup_insert_eq; reflexivity].
Qed.

Lemma new_loc_alloc_ne (h : gmap nat (list RTCIceCandidate)) :
  Script.new_loc (Script.array_alloc h) <> Script.new_loc h.
Proof.
  unfold Script.array_alloc, Script.new_loc. intros E.
  pose proof (is_fresh (dom (<[fresh (dom h) := []]> h))) as Hfresh.
  rewrite E in Hfresh. apply Hfresh. rewrite dom_insert_L. set_solver.
Qed.

Lemma elements_new_loc (h : gmap nat (list RTCIceCandidate)) :
  Script.elements (Script.new_loc h) (Script.array_alloc h) = [].
Proof. unfold Script.elements, Script.array_alloc. rewrite lookup_insert_eq. reflexivity. Qed.

(** The list of suspended functions once the one parked last has been
    taken out of it. *)
Lemma pending_removed (l : list Kont) (k : Kont) :
  (take (length l) (l ++ [k]) ++ drop (S (length l)) (l ++ [k]))%list = l.
Proof.
  rewrite take_app_length.
  replace (drop (S (length l)) (l ++ [k])) with (@nil Kont).
  - apply app_nil_r.
  - symmetry. apply drop_ge. rewrite length_app. cbn. lia.
Qed.

(** Computes the world [w], a local definition, once: [tac] reduces its
    body to a record, which then replaces [w] everywhere. *)
Ltac world_of w tac :=
  let E := fresh "E" in
  eassert (E : w = _); [ subst w; tac; reflexivity | clearbody w; subst w ].

Ltac run_T := cbv beta iota zeta delta [tm_callback tm_delay tm_repeat] in *; run_M.

(** [createCompleteOffer] up to its first [await]. *)
Ltac run_click_offer :=
  unfold step, handler, Script.createCompleteOffer, Script.close_existing,
    Script.initializePeerConnection, Script.new_RTCPeerConnection, Script.peer_pc_receiver,
    Script.setupDataChannel, Script.await, Script.facade_call, Script.new_array;
  run_M.

(** The promise parked last settles: its continuation is taken out of the
    list and is about to run. *)
Ltac run_settle_last :=
  unfold step, handler, Script.settle; run_M;
  rewrite list_lookup_middle by reflexivity; run_M;
  rewrite ?pending_removed; cbn [Script.resume].

(** Settling the promise a function was parked on last resumes it. *)
Lemma settle_last (w : World) (l : list Kont) (k : Kont) (o : Outcome) :
  pending w = (l ++ [k])%list ->
  Script.settle (length l) o w = Script.resume k o (with_pending l w).
Proof.
  intros Hp. unfold Script.settle. open_world w. cbn in Hp. subst. run_M.
  rewrite list_lookup_middle by reflexivity. run_M.
  rewrite pending_removed. reflexivity.
Qed.

(** [run_M] with the boolean connectives of the guards. *)
Ltac run_B := run_M; cbv beta iota zeta delta [negb orb andb] in *; run_M.

(** [if (handle) clearInterval(handle)] as a change of the timer table. *)
Lemma clear_if_set_unfolds (h : option positive) (w : World) :
  clear_if_set h w = (inr tt, with_timers (without_handle h (timers w)) (nextTimer w) w).
Proof. destruct h; [reflexivity |]. destruct w; reflexivity. Qed.

(** Runs a computation that clears the three interval handles. *)
Ltac run_clearing :=
  unfold clear_intervals; run_B;
  rewrite clear_if_set_unfolds; run_B;
  rewrite clear_if_set_unfolds; run_B;
  rewrite clear_if_set_unfolds; run_B.

(** ** Reset and the offer round *)

(** X1. resetPeer never throws: it closes the connection if there is one,
    leaves peer.pc, peer.dc and the bundle null, the gathering flag false
    and a fresh empty candidate array, empties both bundle fields, the chat
    and the debug log (which then holds the reset line alone) and sets the
    status to Disconnected. The speed test, the timers, the pending promises
    and the alerts are untouched. *)
Theorem resetPeer_clears (w : World) :
  let w' := exec Script.resetPeer w in
  let cp := currentPeer w in
  fst (Script.resetPeer w) = inr tt /\
  (pc (peer w') = None /\ dc (peer w') = None /\
   iceGatheringComplete (peer w') = false /\ completeSignalingData (peer w') = None /\
   Script.read_array (pendingCandidates (peer w')) w' = []) /\
  facade w' = (facade w ++ closes w)%list /\
  (el_value (getElementById ("completeOffer" ++ cp) w') = EmptyString /\
   el_value (getElementById ("completeAnswer" ++ cp) w') = EmptyString /\
   el_children (getElementById ("messages" ++ cp) w') = [] /\
   el_children (getElementById ("debug" ++ cp) w') = [reset_line (clock w) cp] /\
   el_text (getElementById ("status" ++ cp) w') = [Str "Disconnected"] /\
   el_class (getElementById ("status" ++ cp) w') = "status disconnected") /\
  speedTest w' = speedTest w /\ timers w' = timers w /\ nextTimer w' = nextTimer w /\
  pending w' = pending w /\ currentPeer w' = cp /\ alerts w' = alerts w.
Proof.
  unfold Script.resetPeer, Script.facade_call, Script.new_array, Script.read_array, closes,
    getElementById, reset_line.
  open_world w.
  destruct pc0 as [id |], dc0 as [ch |]; run_M; cbn [document];
    repeat split; try (rewrite app_nil_r; reflexivity); try (read_page; reflexivity);
    unfold Script.elements, Script.array_alloc; rewrite lookup_insert_eq; reflexivity.
Qed.

Section Reset.

Variable host : Host.

(** X2. resetPeer does not cancel the 5000 ms gathering timer: the timer is
    still in the table after the reset, and when it fires it logs the
    timeout warning after the reset line but, the bundle being null,
    publishes nothing and changes neither peer nor the value of any field. *)
Theorem reset_keeps_gathering_timer (w : World) (id : positive) (tm : Timer) :
  timers w !! id = Some tm ->
  tm_callback tm = GatheringTimeout -> tm_repeat tm = false ->
  let w1 := step host w Click_resetPeer in
  let w2 := step host w1 (TimerFired id) in
  timers w1 !! id = Some tm /\
  timers w2 !! id = None /\
  peer w2 = peer w1 /\
  (forall f, el_value (getElementById f w2) = el_value (getElementById f w1)) /\
  el_children (getElementById ("debug" ++ currentPeer w) w2)
  = [reset_line (clock w) (currentPeer w); timeout_line (clock w)].
Proof.
  intros Htm Hcb Hrep.
  destruct tm as [cb delay rep]. cbn in Hcb, Hrep. subst.
  unfold step, handler, Script.resetPeer, Script.facade_call, Script.new_array, fire,
    Script.gatheringTimeout, Script.completeSignalingReady, Script.clearInterval,
    getElementById, reset_line, timeout_line.
  open_world w. cbn in Htm.
  destruct pc0 as [pcid |], dc0 as [ch |]; run_M; rewrite Htm;
    cbv beta iota delta [tm_repeat tm_callback]; run_M; cbn [document];
    (repeat split;
     [ apply lookup_delete_eq
     | intros f; apply el_value_appended
     | read_page; reflexivity ]).
Qed.

(** X3. A createCompleteOffer suspended at setLocalDescription survives
    resetPeer: when the promise resolves it stores an offer bundle and arms
    the gathering timer although peer.pc is null, and when that timer fires
    the bundle is published with no candidates. *)
Theorem reset_keeps_suspended_offer (w : World) (i : nat) (sd s : string) :
  pending w !! i = Some (OfferLocalSet sd) ->
  currentPeer w = "A" \/ currentPeer w = "B" ->
  let w1 := step host w Click_resetPeer in
  let w2 := step host w1 (PromiseSettled i (Resolved s)) in
  let w3 := step host w2 (TimerFired (nextTimer w)) in
  pc (peer w2) = None /\
  (exists l, completeSignalingData (peer w2)
             = Some {| type := "offer"; sdp := sd; candidates := l |}) /\
  timers w2 !! nextTimer w = Some Scenario.gathering_timer /\
  pc (peer w3) = None /\
  el_value (getElementById (bundle_field (currentPeer w)) w3)
  = bundle_text host (suspended_offer sd) [] /\
  completions w3 = 1%nat.
Proof.
  intros Hk Hcp w1 w2 w3.
  unfold completions, getElementById, bundle_field, bundle_text, suspended_offer,
    Scenario.gathering_timer.
  open_world w. cbn in Hk, Hcp.
  destruct Hcp as [-> | ->].
  all: destruct pc0 as [pcid |], dc0 as [ch |].
  all: world_of w1
         ltac:(unfold step, handler, Script.resetPeer, Script.facade_call, Script.new_array;
               run_M).
  all: world_of w2
         ltac:(unfold step, handler, Script.settle; run_M; rewrite Hk; run_M;
               cbn [Script.resume];
               unfold Script.createCompleteOffer_localSet, Script.new_bundle,
                 Script.wait_for_gathering, Script.setTimeout, Script.add_timer,
                 Script.new_array; run_M).
  all: world_of w3
         ltac:(unfold step, handler, fire, Script.gatheringTimeout,
                 Script.completeSignalingReady, Script.publish, Script.bundle_json,
                 Script.read_array, Script.clearInterval;
               run_M; rewrite lookup_insert_eq; run_T;
               cbn [String.eqb Ascii.eqb Bool.eqb]; run_M;
               rewrite !elements_alloc_twice).
  all: run_M; rewrite ?lookup_insert_eq.
  all: repeat split; [eexists; reflexivity | read_page; reflexivity | read_page; reflexivity].
Qed.

(** X4. A round suspended at createOffer or createAnswer that resumes after
    resetPeer makes no transport call: reading peer.pc.setLocalDescription
    throws a TypeError that the catch block reports (status Error, one error
    line after the reset line), and peer and the timers stay as the reset
    left them. *)
Theorem reset_fails_suspended_description (w : World) (i : nat) (k : Kont) (sd : string) :
  pending w !! i = Some k ->
  k = OfferCreated \/ k = AnswerCreated ->
  let w1 := step host w Click_resetPeer in
  let w2 := step host w1 (PromiseSettled i (Resolved sd)) in
  facade w2 = facade w1 /\
  pending w2 = (take i (pending w) ++ drop (S i) (pending w))%list /\
  peer w2 = peer w1 /\ timers w2 = timers w /\
  el_text (getElementById ("status" ++ currentPeer w) w2) = [Str "Error"] /\
  el_children (getElementById ("debug" ++ currentPeer w) w2)
  = [reset_line (clock w) (currentPeer w);
     error_line (clock w)
       (TypeError "Cannot read properties of null (reading 'setLocalDescription')")].
Proof.
  intros Hk Hkind w1 w2.
  unfold getElementById, reset_line, error_line.
  open_world w. cbn in Hk.
  destruct pc0 as [pcid |], dc0 as [ch |].
  all: world_of w1
         ltac:(unfold step, handler, Script.resetPeer, Script.facade_call, Script.new_array;
               run_M).
  all: destruct Hkind as [-> | ->].
  all: world_of w2
         ltac:(unfold step, handler, Script.settle; run_M; rewrite Hk; run_M;
               cbn [Script.resume];
               unfold Script.createCompleteOffer_created, Script.createCompleteAnswer_created,
                 Script.peer_pc_receiver, Script.report_error; run_M).
  all: run_M; repeat split; read_page; reflexivity.
Qed.

End Reset.

Section Offer.

Variable host : Host.

(** X5. A successful createCompleteOffer round from any state: the click
    closes an existing connection, creates a connection and the 'messages'
    channel and calls createOffer; the resolved offer goes to
    setLocalDescription; when that resolves the bundle {offer, sdp, []} is
    stored with a candidates array of its own, the 5000 ms timer is armed
    under the next handle, and nothing is published yet. *)
Theorem createCompleteOffer_round (w : World) (offer_sdp s : string) :
  let n := length (pending w) in
  let id := nextPc w in
  let w1 := step host w Click_createCompleteOffer in
  let w2 := step host w1 (PromiseSettled n (Resolved offer_sdp)) in
  let w3 := step host w2 (PromiseSettled n (Resolved s)) in
  facade w1 = (facade w ++ closes w
               ++ [NewPeerConnection id; CreateDataChannel id "messages" true; CreateOffer id])%list /\
  (facade w2 = (facade w1 ++ [SetLocalDescription id "offer" offer_sdp])%list /\
   completeSignalingData (peer w2) = completeSignalingData (peer w) /\
   timers w2 = timers w) /\
  facade w3 = facade w2 /\ pending w3 = pending w /\
  pc (peer w3) = Some id /\ dc (peer w3) = Some fresh_channel /\
  iceGatheringComplete (peer w3) = false /\
  Script.read_array (pendingCandidates (peer w3)) w3 = [] /\
  (exists l, completeSignalingData (peer w3)
             = Some {| type := "offer"; sdp := offer_sdp; candidates := l |} /\
             l <> pendingCandidates (peer w3) /\ Script.read_array l w3 = []) /\
  timers w3 = <[nextTimer w := Scenario.gathering_timer]> (timers w) /\
  completions w3 = completions w /\
  (forall f, el_value (getElementById f w3) = el_value (getElementById f w)).
Proof.
  intros n id w1 w2 w3.
  unfold Script.read_array, completions, getElementById, closes, fresh_channel,
    Scenario.gathering_timer.
  open_world w. destruct pc0 as [old |].
  all: world_of w1 ltac:(run_click_offer).
  all: world_of w2
         ltac:(subst n; run_settle_last;
               unfold Script.createCompleteOffer_created, Script.peer_pc_receiver,
                 Script.await, Script.facade_call; run_M).
  all: world_of w3
         ltac:(subst n; run_settle_last;
               unfold Script.createCompleteOffer_localSet, Script.new_bundle,
                 Script.wait_for_gathering, Script.setTimeout, Script.add_timer,
                 Script.new_array; run_M).
  all: run_M; rewrite ?elements_alloc_twice.
  all: repeat split; try (rewrite <- ?app_assoc; reflexivity).
  all: try (eexists; split; [reflexivity | split; [apply new_loc_alloc_ne | apply elements_new_loc]]).
  all: try (intros f; rewrite !el_value_update by (intros; reflexivity); reflexivity).
  all: count_quiet.
Qed.

(** X6. If createOffer or setLocalDescription rejects, the round ends in the
    catch block: no further transport call, no timer, the earlier bundle
    untouched, status Error and the error message as the last debug line;
    the new connection and channel stay in peer. *)
Theorem createCompleteOffer_rejected (w : World) (e : exn) (offer_sdp : string) :
  let n := length (pending w) in
  let w1 := step host w Click_createCompleteOffer in
  let w2 := step host w1 (PromiseSettled n (Resolved offer_sdp)) in
  let failed_offer := step host w1 (PromiseSettled n (Rejected e)) in
  let failed_local := step host w2 (PromiseSettled n (Rejected e)) in
  (round_failed e w failed_offer /\ facade failed_offer = facade w1) /\
  (round_failed e w failed_local /\ facade failed_local = facade w2).
Proof.
  intros n w1 w2 failed_offer failed_local.
  unfold round_failed, getElementById, fresh_channel, error_line.
  open_world w. destruct pc0 as [old |].
  all: world_of w1 ltac:(run_click_offer).
  all: world_of failed_offer
         ltac:(subst n; run_settle_last;
               unfold Script.createCompleteOffer_created, Script.report_error; run_M).
  all: world_of w2
         ltac:(subst n; run_settle_last;
               unfold Script.createCompleteOffer_created, Script.peer_pc_receiver,
                 Script.await, Script.facade_call; run_M).
  all: world_of failed_local
         ltac:(subst n; run_settle_last;
               unfold Script.createCompleteOffer_localSet, Script.report_error; run_M).
  all: run_M; repeat split; try (read_page; reflexivity).
  all: read_page; rewrite last_snoc; reflexivity.
Qed.

(** X7. If the null candidate arrives while setLocalDescription is still
    pending, the round arms no timer when it resumes, so the new offer
    bundle is never written to the page; a bundle left from an earlier round
    is published instead at the null candidate, with an empty candidate
    list. *)
Theorem early_gathering_signal (w : World) (offer_sdp s : string) :
  currentPeer w = "A" \/ currentPeer w = "B" ->
  let n := length (pending w) in
  let w3 := run host w [Click_createCompleteOffer; PromiseSettled n (Resolved offer_sdp);
                        IceCandidateEvent None; PromiseSettled n (Resolved s)] in
  iceGatheringComplete (peer w3) = true /\
  timers w3 = timers w /\
  (exists l, completeSignalingData (peer w3)
             = Some {| type := "offer"; sdp := offer_sdp; candidates := l |} /\
             Script.read_array l w3 = []) /\
  match completeSignalingData (peer w) with
  | None =>
      completions w3 = completions w /\
      forall f, el_value (getElementById f w3) = el_value (getElementById f w)
  | Some b =>
      completions w3 = S (completions w) /\
      el_value (getElementById (bundle_field (currentPeer w)) w3) = bundle_text host b []
  end.
Proof.
  intros Hcp n w3.
  unfold completions, getElementById, bundle_field, bundle_text, Script.read_array.
  open_world w. cbn in Hcp.
  destruct Hcp as [-> | ->].
  all: destruct pc0 as [old |], completeSignalingData0 as [[ty sd cands] |].
  all: world_of w3
         ltac:(subst n; unfold run, fold_left, step, handler, Script.createCompleteOffer,
               Script.close_existing, Script.initializePeerConnection,
               Script.new_RTCPeerConnection, Script.peer_pc_receiver,
               Script.setupDataChannel, Script.await,
               Script.facade_call, Script.new_array, Script.settle, Script.onicecandidate,
               Script.completeSignalingReady, Script.publish, Script.bundle_json,
               Script.read_array;
               run_M; rewrite list_lookup_middle by reflexivity; run_M;
               cbn [Script.resume];
               unfold Script.createCompleteOffer_created, Script.peer_pc_receiver,
                 Script.await, Script.facade_call; run_M;
               cbn [String.eqb Ascii.eqb Bool.eqb]; run_M;
               rewrite !pending_removed; rewrite list_lookup_middle by reflexivity; run_M;
               rewrite ?pending_removed;
               cbn [Script.resume];
               unfold Script.createCompleteOffer_localSet, Script.new_bundle,
                 Script.wait_for_gathering, Script.new_array; run_M;
               rewrite ?elements_new_loc).
  all: run_M; repeat split.
  all: try (eexists; split; [reflexivity | apply elements_new_loc]).
  all: try (intros f; rewrite !el_value_update by (intros; reflexivity); reflexivity).
  all: try (read_page; reflexivity).
  all: count_ready.
Qed.

End Offer.

(** ** The answer round *)

Section Answer.

Variable host : Host.

(** [createCompleteAnswer] on a bundle it accepts, up to its first
    [await]. *)
Lemma createCompleteAnswer_starts (w : World) (v : JValue) (n sd : value) :
  JsString.trim (el_value (getElementById "completeOfferB" w)) <> EmptyString ->
  JSON_parse host (el_value (getElementById "completeOfferB" w)) = inr v ->
  candidates_length_of v = inr n ->
  prop (Some v) "sdp" = inr sd ->
  let started := exec (Script.createCompleteAnswer host) w in
  facade started = (facade w ++ closes w
                    ++ [NewPeerConnection (nextPc w);
                        SetRemoteDescription (nextPc w) "offer" sd])%list /\
  pending started = (pending w ++ [AnswerRemoteSet v])%list /\
  pc (peer started) = Some (nextPc w) /\
  completeSignalingData (peer started) = completeSignalingData (peer w) /\
  timers started = timers w /\ currentPeer started = currentPeer w /\
  clock started = clock w /\
  (forall f, el_value (getElementById f started) = el_value (getElementById f w)).
Proof.
  intros Hfilled Hv Hn Hsd.
  unfold Script.createCompleteAnswer, Script.close_existing, Script.initializePeerConnection,
    Script.peer_pc_receiver, Script.await, Script.facade_call, Script.new_RTCPeerConnection,
    Script.new_array, closes.
  apply String.eqb_neq in Hfilled.
  unfold getElementById in *. open_world w.
  destruct pc0 as [old |]; run_M;
    rewrite Hfilled, Hv; run_M; rewrite candidates_length_pure, Hn; run_M;
    rewrite Hsd; run_M;
    (repeat split; [rewrite <- !app_assoc; reflexivity |]);
    intros f; rewrite !el_value_update by (intros; reflexivity); reflexivity.
Qed.

(** The loop over the offer's candidates: with a connection in place and
    a transport that accepts every candidate, they go to [addIceCandidate]
    one by one, in array order, and [createAnswer] follows. *)
Lemma answer_loop_replays (v : JValue) (n : value) (id : nat) (s : string) (rest : list JValue) :
  candidates_length_of v = inr n ->
  forall w, pc (peer w) = Some id ->
  let w1 := exec (Script.createCompleteAnswer_loop v rest) w in
  let w2 := settle_times (length (pending w)) (length rest) (Resolved s) w1 in
  escapes (Script.createCompleteAnswer_loop v rest) w = false /\
  facade w2 = (facade w ++ map (AddIceCandidate id) rest ++ [CreateAnswer id])%list /\
  pending w2 = (pending w ++ [AnswerCreated])%list /\
  peer w2 = peer w /\ timers w2 = timers w.
Proof.
  intros Hn. induction rest as [| c rest IH]; intros w Hpc.
  - cbn [length settle_times map app].
    unfold Script.createCompleteAnswer_loop, Script.peer_pc_receiver, Script.await,
      Script.facade_call, escapes.
    open_world w. cbn in Hpc. subst. run_M.
    rewrite candidates_length_pure, Hn. run_M. repeat split.
  - set (w' := with_facade (facade w ++ [AddIceCandidate id c]) (nextPc w) w).
    assert (Hloop : Script.createCompleteAnswer_loop v (c :: rest) w
                    = (inr tt, with_pending (pending w' ++ [AnswerCandidateAdded v rest]) w')).
    { cbn [Script.createCompleteAnswer_loop].
      unfold Script.peer_pc_receiver, Script.await, Script.facade_call.
      subst w'. open_world w. cbn in Hpc. subst. run_M. reflexivity. }
    assert (E : pc (peer w') = Some id /\ pending w' = pending w /\
                facade w' = (facade w ++ [AddIceCandidate id c])%list /\
                peer w' = peer w /\ timers w' = timers w)
      by (subst w'; destruct w; repeat split; exact Hpc).
    destruct E as (Hpc' & Hp' & Hf' & Hpe' & Ht').
    destruct (IH w' Hpc') as (He & Hf & Hp & Hpe & Ht).
    assert (Hw2 : settle_times (length (pending w)) (length (c :: rest)) (Resolved s)
                    (exec (Script.createCompleteAnswer_loop v (c :: rest)) w)
                  = settle_times (length (pending w')) (length rest) (Resolved s)
                      (exec (Script.createCompleteAnswer_loop v rest) w')).
    { cbn [length settle_times]. rewrite <- Hp'. f_equal.
      unfold exec at 2. rewrite Hloop. cbn [snd].
      unfold exec at 1. rewrite settle_appended.
      cbn [Script.resume]. unfold Script.createCompleteAnswer_candidateAdded.
      rewrite try_catch_returns by exact He. reflexivity. }
    cbv zeta. rewrite Hw2, Hf, Hp, Hf', Hpe, Ht, Hp', <- app_assoc.
    unfold escapes. rewrite Hloop. repeat split; assumption.
Qed.

(** The same loop when the transport rejects the candidate [c] after
    accepting those before it: the candidates after [c] are never handed
    over and the [catch] block reports the error. *)
Lemma answer_loop_stops (v : JValue) (id : nat) (s : string) (e : exn)
    (pre : list JValue) (c : JValue) (post : list JValue) :
  forall w, pc (peer w) = Some id ->
  let w1 := exec (Script.createCompleteAnswer_loop v (pre ++ c :: post)) w in
  let w2 := settle_times (length (pending w)) (length pre) (Resolved s) w1 in
  let w3 := exec (Script.settle (length (pending w)) (Rejected e)) w2 in
  escapes (Script.createCompleteAnswer_loop v (pre ++ c :: post)) w = false /\
  facade w3 = (facade w ++ map (AddIceCandidate id) (pre ++ [c]))%list /\
  pending w3 = pending w /\ peer w3 = peer w /\ timers w3 = timers w /\
  el_text (getElementById ("status" ++ currentPeer w) w3) = [Str "Error"].
Proof.
  induction pre as [| p pre IH]; intros w Hpc.
  - cbn [app length settle_times map].
    set (w' := with_facade (facade w ++ [AddIceCandidate id c]) (nextPc w) w).
    assert (Hloop : Script.createCompleteAnswer_loop v (c :: post) w
                    = (inr tt, with_pending (pending w' ++ [AnswerCandidateAdded v post]) w')).
    { cbn [Script.createCompleteAnswer_loop].
      unfold Script.peer_pc_receiver, Script.await, Script.facade_call.
      subst w'. open_world w. cbn in Hpc. subst. run_M. reflexivity. }
    assert (E : pending w' = pending w /\
                facade w' = (facade w ++ [AddIceCandidate id c])%list /\
                peer w' = peer w /\ timers w' = timers w /\ currentPeer w' = currentPeer w)
      by (subst w'; destruct w; repeat split).
    destruct E as (Hp' & Hf' & Hpe' & Ht' & Hc').
    assert (Hw3 : exec (Script.settle (length (pending w)) (Rejected e))
                    (exec (Script.createCompleteAnswer_loop v (c :: post)) w)
                  = exec (Script.report_error e) w').
    { unfold exec. rewrite Hloop. cbn [snd]. rewrite <- Hp', settle_appended. reflexivity. }
    cbv zeta. rewrite Hw3. unfold escapes. rewrite Hloop. split; [reflexivity |].
    destruct (report_error_page_only e w') as (_ & Hpe & Hf & Hp & _ & Ht & _ & Hs).
    rewrite Hf, Hp, Hpe, Ht, Hf', Hpe', Ht', <- Hc', Hs. repeat split; assumption.
  - set (w' := with_facade (facade w ++ [AddIceCandidate id p]) (nextPc w) w).
    assert (Hloop : Script.createCompleteAnswer_loop v ((p :: pre) ++ c :: post) w
                    = (inr tt, with_pending
                                 (pending w' ++ [AnswerCandidateAdded v (pre ++ c :: post)]) w')).
    { cbn [app Script.createCompleteAnswer_loop].
      unfold Script.peer_pc_receiver, Script.await, Script.facade_call.
      subst w'. open_world w. cbn in Hpc. subst. run_M. reflexivity. }
    assert (E : pc (peer w') = Some id /\ pending w' = pending w /\
                facade w' = (facade w ++ [AddIceCandidate id p])%list /\
                peer w' = peer w /\ timers w' = timers w /\ currentPeer w' = currentPeer w)
      by (subst w'; destruct w; repeat split; exact Hpc).
    destruct E as (Hpc' & Hp' & Hf' & Hpe' & Ht' & Hc').
    destruct (IH w' Hpc') as (He & Hf & Hp & Hpe & Ht & Hs).
    assert (Hw2 : settle_times (length (pending w)) (length (p :: pre)) (Resolved s)
                    (exec (Script.createCompleteAnswer_loop v ((p :: pre) ++ c :: post)) w)
                  = settle_times (length (pending w')) (length pre) (Resolved s)
                      (exec (Script.createCompleteAnswer_loop v (pre ++ c :: post)) w')).
    { cbn [length settle_times]. rewrite <- Hp'. f_equal.
      unfold exec at 2. rewrite Hloop. cbn [snd].
      unfold exec at 1. rewrite settle_appended.
      cbn [Script.resume]. unfold Script.createCompleteAnswer_candidateAdded.
      rewrite try_catch_returns by exact He. reflexivity. }
    cbv zeta. rewrite Hw2. rewrite <- Hp', Hf, Hp, Hpe, Ht, Hf', Hpe', Ht', <- Hc', Hs, Hp'.
    unfold escapes. rewrite Hloop. cbn [app map]. rewrite <- app_assoc.
    repeat split.
Qed.

(** The state in which the loop starts, once the description has been
    applied. *)
Lemma answer_loop_entered (w : World) (v : JValue) (cands : list JValue) (sd : value)
    (s : string) :
  JsString.trim (el_value (getElementById "completeOfferB" w)) <> EmptyString ->
  JSON_parse host (el_value (getElementById "completeOfferB" w)) = inr v ->
  prop (Some v) "candidates" = inr (Some (JArr cands)) ->
  prop (Some v) "sdp" = inr sd ->
  let started := exec (Script.createCompleteAnswer host) w in
  let w0 := with_pending (pending w) started in
  (forall m, escapes (Script.createCompleteAnswer_loop v cands) w0 = false ->
     settle_times (length (pending w)) (S m) (Resolved s) started
     = settle_times (length (pending w0)) m (Resolved s)
         (exec (Script.createCompleteAnswer_loop v cands) w0)) /\
  facade w0 = (facade w ++ closes w
               ++ [NewPeerConnection (nextPc w);
                   SetRemoteDescription (nextPc w) "offer" sd])%list /\
  pending w0 = pending w /\ pc (peer w0) = Some (nextPc w) /\
  completeSignalingData (peer w0) = completeSignalingData (peer w) /\
  timers w0 = timers w /\ currentPeer w0 = currentPeer w.
Proof.
  intros Hfilled Hv Hcands Hsd started w0.
  assert (Hlen : candidates_length_of v = inr (Some (JNum (Z.of_nat (length cands)))))
    by (unfold candidates_length_of; rewrite Hcands; reflexivity).
  destruct (createCompleteAnswer_starts w v _ sd Hfilled Hv Hlen Hsd)
    as (Hf & Hp & Hpc & Hb & Ht & Hc & _).
  fold started in Hf, Hp, Hpc, Hb, Ht, Hc.
  assert (E : facade w0 = facade started /\ pending w0 = pending w /\
              peer w0 = peer started /\ timers w0 = timers started /\
              currentPeer w0 = currentPeer started)
    by (subst w0; destruct started; repeat split).
  destruct E as (Ef & Ep & Epe & Et & Ec).
  split; [| rewrite Ef, Epe, Et, Ec; repeat split; assumption].
  intros m He. cbn [settle_times]. rewrite Ep. f_equal.
  unfold exec at 1. rewrite (settle_last started (pending w) (AnswerRemoteSet v)) by exact Hp.
  fold w0. cbn [Script.resume]. unfold Script.createCompleteAnswer_remoteSet.
  assert (Hbody : (let* cs := lift (prop (Some v) "candidates") in
                   let* items := lift (iterate cs) in
                   Script.createCompleteAnswer_loop v items)%M
                  = Script.createCompleteAnswer_loop v cands).
  { rewrite Hcands. reflexivity. }
  rewrite Hbody, try_catch_returns by exact He. reflexivity.
Qed.

(** X8. With a non-blank offer text that parses to a record with a
    candidates array, createCompleteAnswer closes an existing connection,
    creates one, applies the offer's sdp with setRemoteDescription, then
    calls addIceCandidate once per candidate in bundle order, each awaited,
    and then createAnswer; the stored bundle and the timers are untouched so
    far. *)
Theorem createCompleteAnswer_replays
    (w : World) (v : JValue) (cands : list JValue) (sd : value) (s : string) :
  let text := el_value (getElementById "completeOfferB" w) in
  JsString.trim text <> EmptyString ->
  JSON_parse host text = inr v ->
  prop (Some v) "candidates" = inr (Some (JArr cands)) ->
  prop (Some v) "sdp" = inr sd ->
  let id := nextPc w in
  let started := exec (Script.createCompleteAnswer host) w in
  let replayed := settle_times (length (pending w)) (S (length cands)) (Resolved s) started in
  facade replayed
  = (facade w ++ closes w
     ++ [NewPeerConnection id; SetRemoteDescription id "offer" sd]
     ++ map (AddIceCandidate id) cands ++ [CreateAnswer id])%list /\
  pending replayed = (pending w ++ [AnswerCreated])%list /\
  completeSignalingData (peer replayed) = completeSignalingData (peer w) /\
  timers replayed = timers w.
Proof.
  cbv zeta. intros Hfilled Hv Hcands Hsd.
  assert (Hlen : candidates_length_of v = inr (Some (JNum (Z.of_nat (length cands)))))
    by (unfold candidates_length_of; rewrite Hcands; reflexivity).
  destruct (answer_loop_entered w v cands sd s Hfilled Hv Hcands Hsd)
    as (Hgo & Hf0 & Hp0 & Hpc0 & Hb0 & Ht0 & _).
  set (w0 := with_pending (pending w) _) in *.
  destruct (answer_loop_replays v _ (nextPc w) s cands Hlen w0 Hpc0) as (He & Hf & Hp & Hpe & Ht).
  rewrite (Hgo _ He), Hf, Hp, Hpe, Ht, Hf0, Hp0, Hb0, Ht0.
  rewrite <- !app_assoc. repeat split.
Qed.

(** X9. If addIceCandidate rejects for a candidate, the later candidates are
    never added and createAnswer is not called: the status becomes Error,
    the new connection stays in peer.pc, and no promise of the round is left
    pending. *)
Theorem createCompleteAnswer_stops_at_rejection
    (w : World) (v : JValue) (pre : list JValue) (c : JValue) (post : list JValue)
    (sd : value) (s : string) (e : exn) :
  let text := el_value (getElementById "completeOfferB" w) in
  JsString.trim text <> EmptyString ->
  JSON_parse host text = inr v ->
  prop (Some v) "candidates" = inr (Some (JArr (pre ++ c :: post))) ->
  prop (Some v) "sdp" = inr sd ->
  let id := nextPc w in
  let started := exec (Script.createCompleteAnswer host) w in
  let accepted := settle_times (length (pending w)) (S (length pre)) (Resolved s) started in
  let failed := exec (Script.settle (length (pending w)) (Rejected e)) accepted in
  facade failed
  = (facade w ++ closes w
     ++ [NewPeerConnection id; SetRemoteDescription id "offer" sd]
     ++ map (AddIceCandidate id) (pre ++ [c]))%list /\
  pending failed = pending w /\
  completeSignalingData (peer failed) = completeSignalingData (peer w) /\
  timers failed = timers w /\
  pc (peer failed) = Some id /\
  el_text (getElementById ("status" ++ currentPeer w) failed) = [Str "Error"].
Proof.
  cbv zeta. intros Hfilled Hv Hcands Hsd.
  destruct (answer_loop_entered w v _ sd s Hfilled Hv Hcands Hsd)
    as (Hgo & Hf0 & Hp0 & Hpc0 & Hb0 & Ht0 & Hc0).
  set (w0 := with_pending (pending w) _) in *.
  destruct (answer_loop_stops v (nextPc w) s e pre c post w0 Hpc0)
    as (He & Hf & Hp & Hpe & Ht & Hs).
  rewrite (Hgo _ He).
  replace (length (pending w)) with (length (pending w0)) by (rewrite Hp0; reflexivity).
  rewrite <- Hc0, Hs, Hf, Hp, Hpe, Ht, Hf0, Hp0, Hb0, Ht0, Hpc0.
  rewrite <- !app_assoc. repeat split.
Qed.

(** X10. When createAnswer resolves the answer goes to setLocalDescription,
    and when that resolves the bundle {answer, sdp, []} is stored, the
    status is 'Gathering ICE Candidates...', the 5000 ms timer is armed
    under the next handle, and nothing is published yet. *)
Theorem createCompleteAnswer_bundle
    (w : World) (l : list Kont) (id : nat) (answer_sdp s : string) :
  pending w = (l ++ [AnswerCreated])%list ->
  pc (peer w) = Some id ->
  iceGatheringComplete (peer w) = false ->
  let n := length l in
  let w1 := step host w (PromiseSettled n (Resolved answer_sdp)) in
  let w2 := step host w1 (PromiseSettled n (Resolved s)) in
  (facade w1 = (facade w ++ [SetLocalDescription id "answer" answer_sdp])%list /\
   completeSignalingData (peer w1) = completeSignalingData (peer w) /\
   timers w1 = timers w) /\
  facade w2 = facade w1 /\ pending w2 = l /\
  (exists a, completeSignalingData (peer w2)
             = Some {| type := "answer"; sdp := answer_sdp; candidates := a |} /\
             Script.read_array a w2 = []) /\
  timers w2 = <[nextTimer w := Scenario.gathering_timer]> (timers w) /\
  el_text (getElementById ("status" ++ currentPeer w) w2)
  = [Str "Gathering ICE Candidates..."] /\
  completions w2 = completions w /\
  (forall f, el_value (getElementById f w2) = el_value (getElementById f w)).
Proof.
  intros Hp Hpc Hinc n w1 w2.
  unfold Script.read_array, completions, getElementById, Scenario.gathering_timer.
  open_world w. cbn in Hp, Hpc, Hinc. subst.
  world_of w1
    ltac:(subst n; run_settle_last;
          unfold Script.createCompleteAnswer_created, Script.peer_pc_receiver,
            Script.await, Script.facade_call; run_M).
  world_of w2
    ltac:(subst n; run_settle_last;
          unfold Script.createCompleteAnswer_localSet, Script.new_bundle,
            Script.wait_for_gathering, Script.setTimeout, Script.add_timer,
            Script.new_array; run_M).
  run_M. repeat split.
  - eexists. split; [reflexivity | apply elements_new_loc].
  - read_page. reflexivity.
  - count_quiet.
  - intros f. rewrite !el_value_update by (intros; reflexivity). reflexivity.
Qed.

(** X11. Round trip of the offer bundle: the text peer A publishes is
    JSON.stringify of {type, sdp, candidates} with the candidates gathered
    so far; if JSON.parse inverts it, createCompleteAnswer on the page where
    it is pasted applies exactly A's sdp and A's candidates, in the order
    they were gathered, before createAnswer. *)
Theorem bundle_reaches_answerer (wA wB : World) (b : Bundle) (s : string) :
  completeSignalingData (peer wA) = Some b ->
  currentPeer wA = "A" ->
  let cs := Script.read_array (pendingCandidates (peer wA)) wA in
  let text :=
    el_value (getElementById "completeOfferA" (exec (Script.completeSignalingReady host) wA)) in
  JSON_parse host text = inr (wire_bundle b cs) ->
  JsString.trim text <> EmptyString ->
  el_value (getElementById "completeOfferB" wB) = text ->
  let id := nextPc wB in
  let replayed :=
    settle_times (length (pending wB)) (S (length cs)) (Resolved s)
      (exec (Script.createCompleteAnswer host) wB) in
  text = JSON_stringify host (wire_bundle b cs) 2 /\
  facade replayed
  = (facade wB ++ closes wB
     ++ [NewPeerConnection id; SetRemoteDescription id "offer" (Some (JStr (sdp b)))]
     ++ map (fun c => AddIceCandidate id (cand_toJSON c)) cs ++ [CreateAnswer id])%list.
Proof.
  cbv zeta. intros Hb Hcp Hparse Hfilled Hpaste.
  destruct (completeSignalingReady_publishes host wA b Hb (or_introl Hcp)) as (_ & _ & _ & Htext & _).
  rewrite Hcp in Htext. change (bundle_field "A") with "completeOfferA" in Htext.
  split; [exact Htext |].
  rewrite <- Hpaste in Hparse, Hfilled.
  set (cs := Script.read_array (pendingCandidates (peer wA)) wA) in *.
  assert (Hcands : prop (Some (wire_bundle b cs)) "candidates"
                   = inr (Some (JArr (map cand_toJSON cs)))) by reflexivity.
  assert (Hsd : prop (Some (wire_bundle b cs)) "sdp" = inr (Some (JStr (sdp b)))) by reflexivity.
  assert (Hlen : candidates_length_of (wire_bundle b cs)
                 = inr (Some (JNum (Z.of_nat (length (map cand_toJSON cs))))))
    by reflexivity.
  destruct (answer_loop_entered wB _ _ _ s Hfilled Hparse Hcands Hsd)
    as (Hgo & Hf0 & Hp0 & Hpc0 & _).
  set (w0 := with_pending (pending wB) _) in *.
  destruct (answer_loop_replays _ _ (nextPc wB) s (map cand_toJSON cs) Hlen w0 Hpc0)
    as (He & Hf & _).
  rewrite length_map in Hf.
  rewrite (Hgo _ He), Hf, Hf0, map_map. rewrite <- !app_assoc. reflexivity.
Qed.

(** X12. setCompleteAnswer with a well-formed answer text but no connection
    (peer.pc is null) makes no transport call: the TypeError of
    peer.pc.setRemoteDescription is caught, the status is Error, and the log
    gains the processing line and the error line. *)
Theorem setCompleteAnswer_without_connection (w : World) (v : JValue) (n : value) :
  let text := el_value (getElementById "completeAnswerA" w) in
  JsString.trim text <> EmptyString ->
  JSON_parse host text = inr v ->
  candidates_length_of v = inr n ->
  pc (peer w) = None ->
  let w' := exec (Script.setCompleteAnswer host) w in
  fst (Script.setCompleteAnswer host w) = inr tt /\
  facade w' = facade w /\ pending w' = pending w /\ peer w' = peer w /\
  alerts w' = alerts w /\
  el_text (getElementById ("status" ++ currentPeer w) w') = [Str "Error"] /\
  el_children (getElementById ("debug" ++ currentPeer w) w')
  = (el_children (getElementById ("debug" ++ currentPeer w) w)
     ++ [processing_answer_line (clock w) n;
         error_line (clock w)
           (TypeError "Cannot read properties of null (reading 'setRemoteDescription')")])%list.
Proof.
  cbv zeta. intros Hfilled Hv Hn Hpc.
  unfold Script.setCompleteAnswer, Script.setCompleteAnswer_start, Script.peer_pc_receiver,
    Script.report_error, processing_answer_line, error_line.
  apply String.eqb_neq in Hfilled.
  unfold getElementById in *. open_world w. cbn in Hpc. subst. run_M.
  rewrite Hfilled, Hv. run_M. rewrite candidates_length_pure, Hn. run_M.
  repeat split; read_page; rewrite <- ?app_assoc; reflexivity.
Qed.

End Answer.

(** ** Probe packets *)

Section Packets.

Variable host : Host.

(** A probe packet touches the counters and the channel only. *)
Lemma handleSpeedTestPacket_frame (data : string) (w : World) :
  let w' := exec (handleSpeedTestPacket host data) w in
  fst (handleSpeedTestPacket host data w) = inr tt /\
  document w' = document w /\ alerts w' = alerts w /\ timers w' = timers w /\
  nextTimer w' = nextTimer w /\ facade w' = facade w /\ pending w' = pending w /\
  heap w' = heap w /\ currentPeer w' = currentPeer w /\
  pc (peer w') = pc (peer w) /\
  completeSignalingData (peer w') = completeSignalingData (peer w) /\
  isRunning (speedTest w') = isRunning (speedTest w) /\
  bytesSent (speedTest w') = bytesSent (speedTest w) /\
  packetsLost (speedTest w') = packetsLost (speedTest w) /\
  throughputTests (speedTest w') = throughputTests (speedTest w) /\
  (dc (peer w') = dc (peer w) \/
   exists ch s, dc (peer w) = Some ch /\ readyState ch = open /\
                dc (peer w') = Some (after_send host ch s)).
Proof.
  unfold handleSpeedTestPacket, send, after_send.
  open_world w. run_M.
  destruct (JSON_parse host data) as [e | packet]; [repeat split; left; reflexivity |].
  run_M.
  destruct (prop (Some packet) "type") as [e | ty]; [repeat split; left; reflexivity |].
  run_M.
  destruct (is_string ty "speed_test").
  { destruct dc0 as [[label ordered [] sent] |]; run_M;
      try (repeat split; left; reflexivity).
    destruct (prop (Some packet) "id") as [e | id]; run_M;
      [repeat split; left; reflexivity |].
    match goal with |- context [channel_send host ?c ?s] =>
      destruct (channel_send host c s) as [e | ch'] eqn:Hsend end; run_M.
    - repeat split; left; reflexivity.
    - repeat split. right. eexists _, _.
      split; [reflexivity |]. split; [reflexivity |]. rewrite Hsend. reflexivity. }
  destruct (is_string ty "speed_test_echo"); [repeat split; left; reflexivity |].
  destruct (is_string ty "ping").
  { destruct dc0 as [[label ordered [] sent] |]; run_M;
      try (repeat split; left; reflexivity).
    destruct (prop (Some packet) "timestamp") as [e | ts]; run_M;
      [repeat split; left; reflexivity |].
    destruct (prop (Some packet) "id") as [e | id]; run_M;
      [repeat split; left; reflexivity |].
    match goal with |- context [channel_send host ?c ?s] =>
      destruct (channel_send host c s) as [e | ch'] eqn:Hsend end; run_M.
    - repeat split; left; reflexivity.
    - repeat split. right. eexists _, _.
      split; [reflexivity |]. split; [reflexivity |]. rewrite Hsend. reflexivity. }
  destruct (is_string ty "pong").
  { destruct (prop (Some packet) "originalTimestamp") as [e | ts]; run_M;
      repeat split; left; reflexivity. }
  repeat split; left; reflexivity.
Qed.

(** What a probe packet can change: the count of bytes received, the
    latency samples and the channel. *)
Lemma handleSpeedTestPacket_touches (data : string) (w : World) :
  exists (received : Z) (samples : list number) (d : option Channel),
    exec (handleSpeedTestPacket host data) w
    = with_peer (peer_dc d (peer w))
        (with_speedTest (st_latencyTests samples (st_bytesReceived received (speedTest w))) w).
Proof.
  unfold handleSpeedTestPacket, send.
  open_world w. run_M.
  destruct (JSON_parse host data) as [e | packet]; [eexists _, _, _; reflexivity |].
  run_M.
  destruct (prop (Some packet) "type") as [e | ty]; [eexists _, _, _; reflexivity |].
  run_M.
  destruct (is_string ty "speed_test").
  { destruct dc0 as [[label ordered [] sent] |]; run_M;
      try (eexists _, _, _; reflexivity).
    destruct (prop (Some packet) "id") as [e | id]; run_M;
      [eexists _, _, _; reflexivity |].
    match goal with |- context [channel_send host ?c ?s] =>
      destruct (channel_send host c s) as [e | ch'] end; run_M;
      eexists _, _, _; reflexivity. }
  destruct (is_string ty "speed_test_echo"); [eexists _, _, _; reflexivity |].
  destruct (is_string ty "ping").
  { destruct dc0 as [[label ordered [] sent] |]; run_M;
      try (eexists _, _, _; reflexivity).
    destruct (prop (Some packet) "timestamp") as [e | ts]; run_M;
      [eexists _, _, _; reflexivity |].
    destruct (prop (Some packet) "id") as [e | id]; run_M;
      [eexists _, _, _; reflexivity |].
    match goal with |- context [channel_send host ?c ?s] =>
      destruct (channel_send host c s) as [e | ch'] end; run_M;
      eexists _, _, _; reflexivity. }
  destruct (is_string ty "pong").
  { destruct (prop (Some packet) "originalTimestamp") as [e | ts]; run_M;
      eexists _, _, _; reflexivity. }
  eexists _, _, _; reflexivity.
Qed.

(** X13. handleSpeedTestPacket never throws, whatever the message: it
    changes nothing but bytesReceived, latencyTests and, by a reply sent on
    an open channel, peer.dc. The page, the alerts, the timers, the pending
    promises, isRunning, bytesSent, packetsLost and throughputTests stay as
    they were, and so does every other field of the state. *)
Theorem handleSpeedTestPacket_contained (data : string) (w : World) :
  let w' := exec (handleSpeedTestPacket host data) w in
  (fst (handleSpeedTestPacket host data w) = inr tt /\
  document w' = document w /\ alerts w' = alerts w /\ timers w' = timers w /\
  nextTimer w' = nextTimer w /\ facade w' = facade w /\ pending w' = pending w /\
  heap w' = heap w /\ currentPeer w' = currentPeer w /\
  pc (peer w') = pc (peer w) /\
  completeSignalingData (peer w') = completeSignalingData (peer w) /\
  isRunning (speedTest w') = isRunning (speedTest w) /\
  bytesSent (speedTest w') = bytesSent (speedTest w) /\
  packetsLost (speedTest w') = packetsLost (speedTest w) /\
  throughputTests (speedTest w') = throughputTests (speedTest w) /\
  (dc (peer w') = dc (peer w) \/
   exists ch s, dc (peer w) = Some ch /\ readyState ch = open /\
                dc (peer w') = Some (after_send host ch s))) /\
  exists (received : Z) (samples : list number) (d : option Channel),
    w' = with_peer (peer_dc d (peer w))
           (with_speedTest
              (st_latencyTests samples (st_bytesReceived received (speedTest w))) w).
Proof.
  split; [exact (handleSpeedTestPacket_frame data w)
         | exact (handleSpeedTestPacket_touches data w)].
Qed.

(** X14. A message whose type is one of the four probe tags is never shown
    as chat: onmessage hands it to handleSpeedTestPacket (or drops it when
    speed-test.js is not loaded) and leaves the page unchanged, where the
    handler of the first revision appended a chat line. *)
Theorem onmessage_recognized_is_not_chat (data : string) (w : World) :
  recognized host data = true ->
  let w' := exec (onmessage host data) w in
  fst (onmessage host data w) = inr tt /\
  w' = (if speedTestLoaded w then exec (handleSpeedTestPacket host data) w else w) /\
  document w' = document w /\
  length (el_children (getElementById ("messages" ++ currentPeer w)
                         (exec (Chat.onmessage_legacy data) w)))
  = S (length (el_children (getElementById ("messages" ++ currentPeer w) w'))).
Proof.
  intros Hrec w'.
  destruct (handleSpeedTestPacket_frame data w) as (Hret & Hdoc & _).
  assert (Hrun : onmessage host data w
                 = (inr tt, if speedTestLoaded w
                            then exec (handleSpeedTestPacket host data) w else w)).
  { unfold recognized in Hrec. unfold onmessage, exec in *.
    destruct (handleSpeedTestPacket host data w) as [r wh] eqn:Hh. cbn [fst snd] in *.
    subst r. open_world w. run_M.
    destruct (JSON_parse host data) as [e | packet]; [discriminate |].
    destruct (prop (Some packet) "type") as [e | ty]; [discriminate |].
    run_M. rewrite Hrec, (among_truthy ty Hrec). cbn [andb].
    destruct speedTestLoaded0; run_M; [rewrite Hh |]; reflexivity. }
  assert (Hw : w' = if speedTestLoaded w
                    then exec (handleSpeedTestPacket host data) w else w)
    by (subst w'; unfold exec at 1; rewrite Hrun; reflexivity).
  split; [rewrite Hrun; reflexivity |]. split; [exact Hw |].
  assert (Hd : document w' = document w)
    by (rewrite Hw; destruct (speedTestLoaded w); [exact Hdoc | reflexivity]).
  split; [exact Hd |].
  unfold getElementById. rewrite Hd.
  unfold Chat.onmessage_legacy. open_world w. run_M. read_page.
  rewrite length_app. cbn. lia.
Qed.

(** X15. A speed_test packet adds the length of the received text to
    bytesReceived and changes nothing else of speedTest; on an open channel
    an echo with the packet's id and the current time is sent, and with no
    open channel peer is unchanged. *)
Theorem load_packet_is_counted (data : string) (packet : JValue) (w : World) :
  JSON_parse host data = inr packet ->
  prop (Some packet) "type" = inr (Some (JStr "speed_test")) ->
  let w' := exec (handleSpeedTestPacket host data) w in
  speedTest w'
  = st_bytesReceived (bytesReceived (speedTest w) + Z.of_nat (String.length data))
      (speedTest w) /\
  (forall ch id,
     dc (peer w) = Some ch -> readyState ch = open ->
     prop (Some packet) "id" = inr id ->
     dc (peer w')
     = Some (after_send host ch (JSON_stringify host (echo_packet id (clock w)) 0))) /\
  (channel_not_open w = true -> peer w' = peer w).
Proof.
  intros Hparse Hty w'. subst w'.
  unfold handleSpeedTestPacket, send, after_send, echo_packet.
  open_world w. run_M. rewrite Hparse. run_M. rewrite Hty.
  cbn [is_string String.eqb Ascii.eqb Bool.eqb]. run_M.
  destruct dc0 as [[label ordered [] sent] |]; run_M.
  2: { destruct (prop (Some packet) "id") as [e | id0] eqn:Hid0; run_M.
       - split; [reflexivity |]. split; [| intros Hc; discriminate Hc].
         intros ch id _ _ Hid. discriminate Hid.
       - match goal with |- context [channel_send host ?c ?s] =>
           destruct (channel_send host c s) as [e | ch'] eqn:Hsend end; run_M;
           (split; [reflexivity |]; split; [| intros Hc; discriminate Hc]);
           intros ch id Hch _ Hid; injection Hch as <-; injection Hid as <-;
           rewrite Hsend; reflexivity. }
  all: split; [reflexivity |]; split; [| reflexivity];
    intros ch id Hch Hopen; first [discriminate Hch | injection Hch as <-; discriminate Hopen].
Qed.

Lemma sub_of_Z (a b : Z) : sub (of_Z a) (of_Z b) = of_Z (a - b).
Proof. unfold sub, of_Z, neg, add. rewrite minus_IZR. reflexivity. Qed.

(** X16. Heartbeat round trip between two peers: A's tick sends a ping with
    A's clock, B answers with a pong that carries that timestamp, and A
    records arrival time minus send time as one latency sample, whatever B's
    clock shows; neither page changes. *)
Theorem ping_pong_latency
    (wA wB : World) (chA chA' chB chB' : Channel) (arrival : Z) :
  isRunning (speedTest wA) = true ->
  dc (peer wA) = Some chA -> readyState chA = open -> speedTestLoaded wA = true ->
  dc (peer wB) = Some chB -> readyState chB = open -> speedTestLoaded wB = true ->
  let rid := random_id host (randomCalls wA) in
  let ping := JSON_stringify host (ping_packet (clock wA) rid) 0 in
  let pong :=
    JSON_stringify host
      (pong_packet (Some (JNum (clock wA))) (Some (JStr rid)) (clock wB)) 0 in
  channel_send host chA ping = inr chA' ->
  JSON_parse host ping = inr (ping_packet (clock wA) rid) ->
  channel_send host chB pong = inr chB' ->
  JSON_parse host pong
  = inr (pong_packet (Some (JNum (clock wA))) (Some (JStr rid)) (clock wB)) ->
  let wA1 := exec (latencyTest_tick host) wA in
  let wB1 := exec (onmessage host ping) wB in
  let wA2 := exec (onmessage host pong) (with_clock arrival wA1) in
  (dc (peer wA1) = Some chA' /\ speedTest wA1 = speedTest wA) /\
  (dc (peer wB1) = Some chB' /\ speedTest wB1 = speedTest wB /\ document wB1 = document wB) /\
  latencyTests (speedTest wA2)
  = (latencyTests (speedTest wA) ++ [of_Z (arrival - clock wA)])%list /\
  document wA2 = document wA.
Proof.
  intros HrunA HdcA HopenA HloadA HdcB HopenB HloadB rid ping pong HsendA HparseA
    HsendB HparseB wA1 wB1 wA2.
  subst rid ping pong. unfold ping_packet, pong_packet, member in *. cbn [app] in *.
  open_world wA. open_world wB. run_M. subst.
  destruct chA as [labelA orderedA stA sentA], chB as [labelB orderedB stB sentB].
  run_M. subst.
  world_of wA1
    ltac:(unfold latencyTest_tick, random_string, send; run_B; rewrite HsendA; run_M).
  world_of wA2
    ltac:(unfold onmessage, handleSpeedTestPacket; run_M; rewrite HparseB; run_M;
          cbn [prop obj_get fold_left fst snd String.eqb Ascii.eqb
               Bool.eqb truthy among speed_test_tags existsb is_string negb andb orb
               Js.to_number];
          run_M; rewrite ?HparseB; run_M;
          cbn [prop obj_get fold_left fst snd String.eqb Ascii.eqb
               Bool.eqb truthy among speed_test_tags existsb is_string negb andb orb
               Js.to_number];
          run_M; rewrite sub_of_Z).
  world_of wB1
    ltac:(unfold onmessage, handleSpeedTestPacket, send; run_M; rewrite HparseA; run_M;
          cbn [prop obj_get fold_left fst snd String.eqb Ascii.eqb
               Bool.eqb truthy among speed_test_tags existsb is_string negb andb orb];
          run_M; rewrite ?HparseA; run_M;
          cbn [prop obj_get member app fold_left fst snd String.eqb Ascii.eqb
               Bool.eqb truthy among speed_test_tags existsb is_string negb andb orb];
          run_M; rewrite HsendB; run_M).
  run_M. repeat split.
Qed.

Lemma add_NaN_r (x : number) : add x NaN = NaN.
Proof. destruct x; reflexivity. Qed.

Lemma sum_with_NaN (xs : list number) (acc : number) :
  fold_left add (xs ++ [NaN]) acc = NaN.
Proof. rewrite fold_left_app. cbn. apply add_NaN_r. Qed.

Lemma squares_around_NaN (xs : list number) (x : number) (acc : number) :
  fold_left (fun acc lat => add acc (pow2 (sub lat NaN))) (xs ++ [x]) acc = NaN.
Proof.
  rewrite fold_left_app. cbn [fold_left]. unfold sub. cbn [neg]. rewrite add_NaN_r.
  cbn [pow2]. apply add_NaN_r.
Qed.

Lemma min_with_NaN (xs : list number) : Math_min (xs ++ [NaN]) = NaN.
Proof.
  unfold Math_min. rewrite fold_left_app. cbn.
  destruct (fold_left min2 xs PInf); reflexivity.
Qed.

Lemma max_with_NaN (xs : list number) : Math_max (xs ++ [NaN]) = NaN.
Proof.
  unfold Math_max. rewrite fold_left_app. cbn.
  destruct (fold_left max2 xs NInf); reflexivity.
Qed.

(** X17. A pong without originalTimestamp appends NaN to latencyTests, after
    which the live average and jitter and the final average, minimum,
    maximum and jitter are all NaN. *)
Theorem pong_without_timestamp_poisons (data : string) (packet : JValue) (w : World) :
  JSON_parse host data = inr packet ->
  prop (Some packet) "type" = inr (Some (JStr "pong")) ->
  prop (Some packet) "originalTimestamp" = inr None ->
  let s' := speedTest (exec (handleSpeedTestPacket host data) w) in
  let m := liveMetrics s' in
  let r := finalResults s' in
  latencyTests s' = (latencyTests (speedTest w) ++ [NaN])%list /\
  (lm_avgLatency m = NaN /\ lm_jitter m = NaN) /\
  (fr_avgLatency r = NaN /\ fr_minLatency r = NaN /\ fr_maxLatency r = NaN /\
   fr_jitter r = NaN).
Proof.
  intros Hparse Hty Hts s' m r.
  assert (Hs : s' = st_latencyTests (latencyTests (speedTest w) ++ [NaN]) (speedTest w)).
  { subst s'. unfold handleSpeedTestPacket. open_world w. run_M.
    rewrite Hparse. run_M. rewrite Hty.
    cbn [is_string String.eqb Ascii.eqb Bool.eqb]. run_M. rewrite Hts. run_M.
    cbn [Js.to_number]. unfold sub. cbn [neg]. rewrite add_NaN_r. reflexivity. }
  subst m r. rewrite Hs. clear Hs s'.
  unfold liveMetrics, finalResults. destruct (speedTest w) as [? ? ? ? ? ? lat ? ? ? ? ? ? ?].
  cbn [latencyTests st_latencyTests throughputTests].
  assert (Havg : average (lat ++ [NaN]) = NaN).
  { unfold average, sum. rewrite sum_with_NaN. reflexivity. }
  assert (Hvar : variance (lat ++ [NaN]) NaN = NaN).
  { unfold variance. rewrite squares_around_NaN. reflexivity. }
  pose proof (min_with_NaN lat) as Hmin. pose proof (max_with_NaN lat) as Hmax.
  destruct (lat ++ [NaN])%list as [| x l] eqn:E; [destruct lat; discriminate E |].
  cbn [lm_avgLatency lm_jitter fr_avgLatency fr_minLatency fr_maxLatency fr_jitter].
  rewrite Havg, Hmin, Hmax, Hvar. repeat split.
Qed.

End Packets.

(** ** Probe timers *)

Section Timers.

Variable host : Host.

(** X18. A firing of the packet-stream interval on a running probe with an
    open channel sends one load packet that carries the packet id of the
    closure, and leaves the closure holding that id plus one, whether or not
    send throws: if send succeeds bytesSent grows by the length of the text
    sent, if it throws the error is written to the speed-test log and the
    counters stay. No other timer changes. *)
Theorem packetStream_tick_accounting
    (w : World) (id : positive) (tm : Timer) (ch : Channel) (packetId : Z) :
  timers w !! id = Some tm ->
  tm_callback tm = PacketStream packetId -> tm_repeat tm = true ->
  isRunning (speedTest w) = true ->
  dc (peer w) = Some ch -> readyState ch = open ->
  let packetString :=
    JSON_stringify host (load_packet packetId (clock w) (packetSize (speedTest w))) 0 in
  let w' := step host w (TimerFired id) in
  timers w'
  = <[id := {| tm_callback := PacketStream (packetId + 1); tm_delay := tm_delay tm;
               tm_repeat := true |}]> (timers w) /\
  nextTimer w' = nextTimer w /\
  match channel_send host ch packetString with
  | inr ch' =>
      dc (peer w') = Some ch' /\
      speedTest w'
      = st_bytesSent (bytesSent (speedTest w) + Z.of_nat (String.length packetString))
          (speedTest w) /\
      document w' = document w
  | inl e =>
      peer w' = peer w /\ speedTest w' = speedTest w /\
      el_children (getElementById ("speedTestLog" ++ currentPeer w) w')
      = (el_children (getElementById ("speedTestLog" ++ currentPeer w) w)
         ++ [send_error_line (clock w) e])%list
  end.
Proof.
  intros Htm Hcb Hrep Hrun Hdc Hopen packetString w'.
  subst w' packetString.
  destruct tm as [cb delay rep]. cbn in Hcb, Hrep. subst cb rep.
  unfold step, handler, fire, packetStream_tick, update_closure, send, load_packet,
    send_error_line, getElementById.
  open_world w. cbn in Htm, Hrun, Hdc. subst.
  destruct ch as [label ordered st sent]. cbn in Hopen. subst st.
  run_M. rewrite Htm. run_T. run_B.
  match goal with |- context [channel_send host ?c ?s] =>
    destruct (channel_send host c s) as [e | ch'] end; run_M;
    rewrite (alter_present _ _ _ _ Htm).
  - repeat split. read_page. reflexivity.
  - repeat split.
Qed.

Lemma alter_deleted {A} (f : A -> A) (id : positive) (m : gmap positive A) :
  alter f id (delete id m) = delete id m.
Proof.
  apply map_eq. intros j. rewrite lookup_alter. case_decide as E; [| reflexivity].
  subst. rewrite lookup_delete_eq. reflexivity.
Qed.

(** X19. A packet-stream or heartbeat tick that finds the probe stopped or
    the channel not open cancels its own interval and does nothing else. *)
Theorem ticks_cancel_themselves (w : World) (id : positive) (tm : Timer) :
  timers w !! id = Some tm -> tm_repeat tm = true ->
  holds_interval (speedTest w) id (tm_callback tm) ->
  isRunning (speedTest w) = false \/ channel_not_open w = true ->
  let w' := step host w (TimerFired id) in
  timers w' = delete id (timers w) /\ nextTimer w' = nextTimer w /\
  peer w' = peer w /\ speedTest w' = speedTest w /\ document w' = document w /\
  alerts w' = alerts w /\ facade w' = facade w /\ pending w' = pending w /\
  heap w' = heap w /\ randomCalls w' = randomCalls w.
Proof.
  intros Htm Hrep Hholds Hguard w'. subst w'.
  assert (Hg : negb (isRunning (speedTest w)) || channel_not_open w = true).
  { destruct Hguard as [-> | ->]; [reflexivity | apply orb_true_r]. }
  clear Hguard.
  destruct tm as [cb delay rep]. cbn in Hrep, Hholds. subst.
  unfold step, handler, fire, packetStream_tick, latencyTest_tick, update_closure,
    Script.clearInterval.
  open_world w. cbn in Htm.
  destruct cb; cbn in Hholds; try contradiction; subst.
  all: run_M; rewrite Htm; run_T; rewrite Hg; run_M; rewrite ?alter_deleted; repeat split.
Qed.

(** [stopSpeedTest] leaves the channel and the negotiation alone. *)
Lemma stopSpeedTest_keeps_peer (w : World) :
  peer (exec stopSpeedTest w) = peer w /\ currentPeer (exec stopSpeedTest w) = currentPeer w /\
  clock (exec stopSpeedTest w) = clock w.
Proof.
  unfold stopSpeedTest, clear_intervals, clear_if_set, calculateFinalResults,
    Script.clearInterval.
  open_world w.
  destruct isRunning0, testInterval0, latencyInterval0, statsInterval0; run_M; repeat split.
Qed.

Lemma without_handle_other (h : option positive) (tm : gmap positive Timer) (id : positive) :
  h <> Some id -> without_handle h tm !! id = tm !! id.
Proof.
  intros Hne. destruct h as [j |]; [| reflexivity].
  cbn. apply lookup_delete_ne. congruence.
Qed.

Lemma without_intervals_other (s : SpeedTest) (tm : gmap positive Timer) (id : positive) :
  not_a_handle id s -> without_intervals s tm !! id = tm !! id.
Proof.
  intros (H1 & H2 & H3). unfold without_intervals.
  rewrite !without_handle_other by assumption. reflexivity.
Qed.

(** What a successful [startSpeedTest] does to the probe and its timers. *)
Lemma startSpeedTest_timers (w : World) :
  channel_not_open w = false ->
  isRunning (speedTest w) = false ->
  let w' := exec (startSpeedTest host) w in
  let n := nextTimer w in
  timers w' = probe_timers n (clock w) (speedTest w')
                (without_intervals (speedTest w) (timers w)) /\
  nextTimer w' = Pos.succ (Pos.succ (Pos.succ (Pos.succ n))) /\
  testInterval (speedTest w') = Some n /\
  latencyInterval (speedTest w') = Some (Pos.succ n) /\
  statsInterval (speedTest w') = Some (Pos.succ (Pos.succ n)) /\
  peer w' = peer w /\ currentPeer w' = currentPeer w /\ clock w' = clock w.
Proof.
  intros Hopen Hidle.
  unfold startSpeedTest, updateSpeedTestSettings, resetSpeedTestState, clear_intervals,
    clear_if_set, startPacketStream, startLatencyTest, startStatsCollection,
    Script.setInterval, Script.setTimeout, Script.add_timer, Script.clearInterval,
    probe_timers, without_intervals, without_handle.
  open_world w. cbn in Hidle. subst.
  destruct dc0 as [[label ordered [] sent] |]; try discriminate Hopen.
  destruct testInterval0, latencyInterval0, statsInterval0; run_M; repeat split.
Qed.

(** The deadline timer of any run fires while a run is active. *)
Lemma autoStop_fires (w : World) (id : positive) (tm : Timer) :
  timers w !! id = Some tm -> tm_callback tm = AutoStop -> tm_repeat tm = false ->
  isRunning (speedTest w) = true ->
  step host w (TimerFired id)
  = exec stopSpeedTest (with_timers (delete id (timers w)) (nextTimer w) w).
Proof.
  intros Htm Hcb Hrep Hrun.
  destruct tm as [cb delay rep]. cbn in Hcb, Hrep. subst.
  unfold step, handler, fire, autoStop, Script.clearInterval.
  open_world w. cbn in Htm, Hrun. subst. run_M. rewrite Htm. run_T. reflexivity.
Qed.

(** X20. stopSpeedTest does not cancel the auto-stop timeout: after a manual
    stop and a restart the old timeout is still in the table, and when it
    fires it stops the new run early. *)
Theorem autoStop_outlives_stop (w : World) (id : positive) (tm : Timer) (t1 t2 : Z) :
  isRunning (speedTest w) = true -> channel_not_open w = false ->
  timers w !! id = Some tm -> tm_callback tm = AutoStop -> tm_repeat tm = false ->
  (id < nextTimer w)%positive ->
  not_a_handle id (speedTest w) ->
  let stopped := step host w Click_stopSpeedTest in
  let restarted := run host stopped [ClockReads t1; Click_startSpeedTest] in
  let cut_short := run host restarted [ClockReads t2; TimerFired id] in
  timers stopped !! id = Some tm /\
  (isRunning (speedTest restarted) = true /\ startTime (speedTest restarted) = Some t1 /\
   timers restarted !! id = Some tm) /\
  (isRunning (speedTest cut_short) = false /\ endTime (speedTest cut_short) = Some t2).
Proof.
  intros Hrun Hopen Htm Hcb Hrep Hlt Hnot stopped restarted cut_short.
  (* the stop *)
  destruct (stopSpeedTest_running w Hrun) as (Hst & Htms & Hnt).
  destruct (stopSpeedTest_keeps_peer w) as (Hpe & _).
  change (exec stopSpeedTest w) with stopped in Hst, Htms, Hnt, Hpe.
  assert (Hkept : timers stopped !! id = Some tm)
    by (rewrite Htms, without_intervals_other by exact Hnot; exact Htm).
  split; [exact Hkept |].
  (* the second run *)
  set (w1 := step host stopped (ClockReads t1)).
  assert (E1 : speedTest w1 = speedTest stopped /\ timers w1 = timers stopped /\
               nextTimer w1 = nextTimer stopped /\ peer w1 = peer stopped /\ clock w1 = t1)
    by (subst w1; destruct stopped; repeat split).
  destruct E1 as (Es1 & Et1 & En1 & Ep1 & Ec1).
  assert (Hopen1 : channel_not_open w1 = false)
    by (unfold channel_not_open in *; rewrite Ep1, Hpe; exact Hopen).
  assert (Hidle1 : isRunning (speedTest w1) = false)
    by (rewrite Es1, Hst; destruct (speedTest w); reflexivity).
  assert (Hhandles : not_a_handle id (speedTest w1)).
  { rewrite Es1, Hst. destruct (speedTest w); exact Hnot. }
  destruct (startSpeedTest_resets host w1 Hopen1 Hidle1) as (Hr2 & Hs2 & _).
  destruct (startSpeedTest_timers w1 Hopen1 Hidle1) as (Ht2 & _).
  change (exec (startSpeedTest host) w1) with restarted in Hr2, Hs2, Ht2.
  assert (Hkept2 : timers restarted !! id = Some tm).
  { rewrite Ht2. unfold probe_timers. rewrite En1, Hnt.
    rewrite !lookup_insert_ne by lia.
    rewrite without_intervals_other by exact Hhandles. rewrite Et1. exact Hkept. }
  split; [split; [exact Hr2 | split; [rewrite Hs2, Ec1; reflexivity | exact Hkept2]] |].
  (* the deadline of the first run arrives *)
  set (w2 := step host restarted (ClockReads t2)).
  assert (E2 : speedTest w2 = speedTest restarted /\ timers w2 = timers restarted /\
               clock w2 = t2)
    by (subst w2; destruct restarted; repeat split).
  destruct E2 as (Es2 & Et2 & Ec2).
  assert (Hcut : cut_short = step host w2 (TimerFired id)) by reflexivity.
  rewrite Hcut, (autoStop_fires w2 id tm); [| rewrite Et2; exact Hkept2 | exact Hcb | exact Hrep
                                            | rewrite Es2; exact Hr2].
  set (w3 := with_timers _ _ w2).
  assert (E3 : speedTest w3 = speedTest w2 /\ clock w3 = t2)
    by (subst w3; rewrite <- Ec2; destruct w2; repeat split).
  destruct E3 as (Es3 & Ec3).
  destruct (stopSpeedTest_running w3) as (Hst3 & _); [rewrite Es3, Es2; exact Hr2 |].
  rewrite Hst3, Ec3. destruct (speedTest w3); split; reflexivity.
Qed.

(** X21. On an open channel with no run active, startSpeedTest reads the
    three settings from the page with parseInt, installs the packet,
    heartbeat and statistics intervals and the auto-stop timeout under four
    consecutive handles, disables Start, enables Stop and shows
    'Testing...', with no alert and peer unchanged. *)
Theorem startSpeedTest_installs (w : World) :
  channel_not_open w = false ->
  isRunning (speedTest w) = false ->
  let w' := exec (startSpeedTest host) w in
  let cp := currentPeer w in
  let n := nextTimer w in
  let s' := speedTest w' in
  (testDuration s' = parseInt host (el_value (getElementById ("testDuration" ++ cp) w)) /\
   packetSize s' = parseInt host (el_value (getElementById ("packetSize" ++ cp) w)) /\
   packetFrequency s'
   = parseInt host (el_value (getElementById ("packetFrequency" ++ cp) w))) /\
  (timers w' = probe_timers n (clock w) s' (without_intervals (speedTest w) (timers w)) /\
   testInterval s' = Some n /\ latencyInterval s' = Some (Pos.succ n) /\
   statsInterval s' = Some (Pos.succ (Pos.succ n))) /\
  (el_disabled (getElementById ("startSpeedTest" ++ cp) w') = true /\
   el_disabled (getElementById ("stopSpeedTest" ++ cp) w') = false /\
   el_text (getElementById ("progressText" ++ cp) w') = [Str "Testing..."]) /\
  alerts w' = alerts w /\ peer w' = peer w.
Proof.
  intros Hopen Hidle w' cp n s'. subst s' w' cp n.
  unfold startSpeedTest, updateSpeedTestSettings, resetSpeedTestState, clear_intervals,
    clear_if_set, startPacketStream, startLatencyTest, startStatsCollection,
    Script.setInterval, Script.setTimeout, Script.add_timer, Script.clearInterval,
    probe_timers, without_intervals, without_handle, getElementById.
  open_world w. cbn in Hidle. subst.
  destruct dc0 as [[label ordered [] sent] |]; try discriminate Hopen.
  destruct testInterval0, latencyInterval0, statsInterval0; run_M;
    repeat split; read_page; reflexivity.
Qed.

End Timers.

(** ** Figures and strings *)

Section Figures.

Variable host : Host.

Lemma finalResults_zero_duration (s : SpeedTest) (t : Z) :
  startTime s = Some t -> endTime s = Some t ->
  fr_testDuration (finalResults s) = Fin 0 /\
  fr_avgThroughput (finalResults s)
  = (if (bytesSent s =? 0)%Z then NaN
     else if (0 <? bytesSent s)%Z then PInf else NInf).
Proof.
  intros Hs He. destruct s as [run st en sent recv lost lat thr ti li si td ps pf].
  cbn in Hs, He. subst. unfold finalResults.
  cbn [startTime endTime bytesSent latencyTests stamp default].
  assert (Hd : div (of_Z (t - t)) (Fin 1000) = Fin 0).
  { rewrite Z.sub_diag. unfold of_Z, div. destruct (Req_dec_T 1000 0) as [E0 | _]; [lra |].
    f_equal. unfold Rdiv. apply Rmult_0_l. }
  cbn [stamp default] in Hd.
  assert (Hm : div (mul (of_Z sent) (Fin 8)) (Fin (1024 * 1024))
               = Fin (IZR sent * 8 / (1024 * 1024))).
  { unfold of_Z. cbn [mul]. apply div_Fin. lra. }
  change (Datatypes.id t - Datatypes.id t)%Z with (t - t)%Z.
  rewrite Hd, Hm.
  assert (Hq : div (Fin (IZR sent * 8 / (1024 * 1024))) (Fin 0)
               = (if (sent =? 0)%Z then NaN else if (0 <? sent)%Z then PInf else NInf)).
  { unfold div. destruct (Req_dec_T 0 0) as [_ | Hne]; [| contradiction].
    destruct (Z.eqb_spec sent 0) as [-> | Hb].
    - destruct (Req_dec_T _ 0) as [_ | Hne]; [reflexivity | exfalso; apply Hne; lra].
    - assert (Hnz : IZR sent <> 0%R) by (intros E; apply Hb, eq_IZR; exact E).
      destruct (Req_dec_T _ 0) as [E0 | _]; [exfalso; apply Hnz; lra |].
      unfold signed_inf. destruct (Z.ltb_spec 0 sent) as [Hp | Hn].
      + apply IZR_lt in Hp. destruct (Rlt_dec _ _) as [_ | Hx]; [reflexivity |].
        exfalso. apply Hx. lra.
      + apply IZR_le in Hn. destruct (Rlt_dec _ _) as [Hx | _]; [exfalso; lra | reflexivity]. }
  destruct lat; cbn [fr_testDuration fr_avgThroughput]; rewrite Hq; split; reflexivity.
Qed.

(** X22. A run stopped in the millisecond it started has duration 0, so the
    average throughput of the final report is a division by zero: NaN when
    nothing was sent, +Infinity otherwise, and that value is what the log
    line shows. *)
Theorem zero_duration_throughput (w : World) :
  isRunning (speedTest w) = true ->
  startTime (speedTest w) = Some (clock w) ->
  let w' := exec stopSpeedTest w in
  let r := finalResults (speedTest w') in
  fr_testDuration r = Fin 0 /\
  fr_avgThroughput r
  = (if (bytesSent (speedTest w) =? 0)%Z then NaN
     else if (0 <? bytesSent (speedTest w))%Z then PInf else NInf) /\
  In (throughput_line (clock w) (fr_avgThroughput r))
     (el_children (getElementById ("speedTestLog" ++ currentPeer w) w')).
Proof.
  intros Hrun Hstart w' r.
  assert (Hst : speedTest w' = st_endTime (Some (clock w)) (st_isRunning false (speedTest w)))
    by (apply stopSpeedTest_running; exact Hrun).
  destruct (finalResults_zero_duration (speedTest w') (clock w)) as (Hdur & Havg).
  { rewrite Hst. destruct (speedTest w); exact Hstart. }
  { rewrite Hst. destruct (speedTest w); reflexivity. }
  assert (Hsent : bytesSent (speedTest w') = bytesSent (speedTest w))
    by (rewrite Hst; destruct (speedTest w); reflexivity).
  rewrite Hsent in Havg.
  split; [exact Hdur |]. split; [exact Havg |].
  clear Hdur Havg Hsent Hst. subst r.
  unfold getElementById, throughput_line.
  open_world w. cbn in Hrun, Hstart. subst.
  world_of w' ltac:(unfold stopSpeedTest, calculateFinalResults; run_clearing).
  run_M. read_page. rewrite !in_app_iff. do 6 left. right. left. reflexivity.
Qed.

(** X23. With a positive test duration and a start time not in the future,
    the width a statistics tick gives the progress bar is min(elapsed /
    duration * 100, 100) percent: between 0 and 100, and 100 once the
    duration has elapsed. *)
Theorem progress_is_bounded (w : World) (lastUpdate lastBytesSent d started : Z) :
  testDuration (speedTest w) = Some d -> (0 < d)%Z ->
  startTime (speedTest w) = Some started -> (started <= clock w)%Z ->
  let w' := snd (statsCollection_tick lastUpdate lastBytesSent w) in
  exists p : R,
    el_width (getElementById ("progressBar" ++ currentPeer w) w') = [Num (Fin p); Str "%"] /\
    (0 <= p <= 100)%R /\
    p = Rmin (IZR (clock w - started) / 1000 / IZR d * 100) 100 /\
    ((d * 1000 <= clock w - started)%Z -> p = 100%R).
Proof.
  intros Hd Hpos Hstart Hle w'.
  assert (Hd' : (0 < IZR d)%R) by (apply IZR_lt; exact Hpos).
  assert (He : (0 <= IZR (clock w - started))%R) by (apply IZR_le; lia).
  exists (Rmin (IZR (clock w - started) / 1000 / IZR d * 100) 100).
  split; [| split; [| split; [reflexivity |]]].
  - subst w'. unfold statsCollection_tick, updateSpeedMetrics, getElementById.
    open_world w. cbn in Hd, Hstart, Hd', He. subst. run_M.
    destruct (gt _ _); run_M; read_page;
      unfold setting, of_Z, stamp; cbn [default Datatypes.id]; unfold Datatypes.id;
      rewrite !div_Fin by lra; reflexivity.
  - assert (Hq : (IZR (clock w - started) / 1000 / IZR d * 100
                  = IZR (clock w - started) * (/ 10 * / IZR d))%R) by (field; lra).
    assert (Hi : (0 < / 10 * / IZR d)%R).
    { apply Rmult_lt_0_compat; apply Rinv_0_lt_compat; lra. }
    rewrite Hq. split; [apply Rmin_glb; [| lra] | apply Rmin_r].
    apply Rmult_le_pos; lra.
  - intros Hover. apply Rmin_right.
    apply IZR_le in Hover. rewrite mult_IZR in Hover.
    assert (Hq : (IZR (clock w - started) / 1000 / IZR d * 100
                  = IZR (clock w - started) * (/ 10 * / IZR d))%R) by (field; lra).
    assert (Hi : (0 < / 10 * / IZR d)%R).
    { apply Rmult_lt_0_compat; apply Rinv_0_lt_compat; lra. }
    assert (H100 : (100 = IZR d * 1000 * (/ 10 * / IZR d))%R) by (field; lra).
    rewrite Hq. rewrite H100 at 1.
    apply Rmult_le_compat_r; lra.
Qed.

End Figures.

Section Strings.

Lemma chars_of_chars (l : list ascii) : JsString.chars (JsString.of_chars l) = l.
Proof. apply list_ascii_of_string_of_list_ascii. Qed.

Lemma of_chars_chars (s : string) : JsString.of_chars (JsString.chars s) = s.
Proof. apply string_of_list_ascii_of_string. Qed.

Lemma is_lower_lower_char (c : ascii) :
  JsString.is_lower (JsString.lower_char c) = is_letter c.
Proof. destruct c as [[] [] [] [] [] [] [] []]; reflexivity. Qed.

Lemma filter_lower_map (l : list ascii) :
  filter JsString.is_lower (map JsString.lower_char l)
  = map JsString.lower_char (filter is_letter l).
Proof.
  induction l as [| c l IH]; [reflexivity |].
  cbn [map]. pose proof (is_lower_lower_char c) as Hc.
  destruct (is_letter c) eqn:E.
  - rewrite filter_cons_True by (rewrite Hc; exact I).
    rewrite (filter_cons_True is_letter) by (rewrite E; exact I).
    cbn [map]. rewrite IH. reflexivity.
  - rewrite filter_cons_False by (rewrite Hc; intros []).
    rewrite (filter_cons_False is_letter) by (rewrite E; intros []).
    exact IH.
Qed.

(** X24. updateStatus sets the text of the current peer's status element to
    the status and its class to 'status ' followed by the ASCII letters of
    the status in lower case; no other element changes. *)
Theorem updateStatus_class_is_a_slug (status : string) (w : World) :
  let e := getElementById ("status" ++ currentPeer w) (exec (updateStatus status) w) in
  el_text e = [Str status] /\
  el_class e = "status " ++ slug status /\
  Forall (fun c => JsString.is_lower c = true) (JsString.chars (slug status)) /\
  (forall id, id <> "status" ++ currentPeer w ->
     getElementById id (exec (updateStatus status) w) = getElementById id w).
Proof.
  intros e. subst e. unfold getElementById, slug.
  open_world w. run_M.
  split; [read_page; reflexivity |].
  split.
  { read_page. f_equal. unfold JsString.keep_lower, JsString.toLowerCase.
    rewrite chars_of_chars, filter_lower_map. reflexivity. }
  split.
  { rewrite chars_of_chars. apply Forall_forall. intros c Hc.
    apply list_elem_of_In, in_map_iff in Hc as (c0 & <- & Hc0).
    rewrite is_lower_lower_char.
    apply list_elem_of_In, list_elem_of_filter in Hc0 as (Hl & _).
    destruct (is_letter c0); [reflexivity | destruct Hl]. }
  intros id Hne. apply elem_at_update_ne. congruence.
Qed.

Lemma chars_app (a b : string) :
  JsString.chars (a ++ b) = (JsString.chars a ++ JsString.chars b)%list.
Proof.
  induction a as [| c a IH]; [reflexivity |].
  change (c :: JsString.chars (a ++ b) = c :: (JsString.chars a ++ JsString.chars b)%list).
  f_equal. exact IH.
Qed.

Lemma split_chars_last (cur l : list ascii) :
  Forall (fun c => Ascii.eqb c " "%char = false) l ->
  JsString.split_chars cur l = [JsString.of_chars (rev cur ++ l)].
Proof.
  revert cur. induction l as [| c l IH]; intros cur Hl.
  - cbn. rewrite app_nil_r. reflexivity.
  - apply Forall_cons in Hl as (Hc & Hl). cbn [JsString.split_chars]. rewrite Hc.
    rewrite IH by exact Hl. cbn [rev]. rewrite <- app_assoc. reflexivity.
Qed.

Lemma split_chars_field (cur l rest : list ascii) :
  Forall (fun c => Ascii.eqb c " "%char = false) l ->
  JsString.split_chars cur (l ++ " "%char :: rest)
  = JsString.of_chars (rev cur ++ l) :: JsString.split_chars [] rest.
Proof.
  revert cur. induction l as [| c l IH]; intros cur Hl.
  - cbn. rewrite app_nil_r. reflexivity.
  - apply Forall_cons in Hl as (Hc & Hl). cbn [app JsString.split_chars]. rewrite Hc.
    rewrite IH by exact Hl. cbn [rev]. rewrite <- app_assoc. reflexivity.
Qed.

(** [split(' ')] undoes [join(' ')] on fields that hold no space. *)
Lemma split_join (fields : list string) :
  fields <> [] -> Forall spaceless fields ->
  JsString.split_space (join_space fields) = fields.
Proof.
  unfold JsString.split_space, join_space.
  induction fields as [| a fields IH]; intros Hne Hall; [contradiction |].
  apply Forall_cons in Hall as (Ha & Hall).
  destruct fields as [| b fields].
  - cbn [String.concat]. rewrite split_chars_last by exact Ha. cbn [rev app].
    rewrite of_chars_chars. reflexivity.
  - change (String.concat " " (a :: b :: fields))
      with (a ++ " " ++ String.concat " " (b :: fields)).
    rewrite !chars_app. change (JsString.chars " ") with [" "%char]. cbn [app].
    rewrite split_chars_field by exact Ha. cbn [rev app]. rewrite of_chars_chars.
    f_equal. apply IH; [discriminate | exact Hall].
Qed.

Section Candidates.

Variable host : Host.

(** X25. For a candidate line made of space-separated fields, onicecandidate
    appends the candidate to pendingCandidates and logs two lines built from
    the fields: the type label, then fields 4, 5, 2 (in upper case) and 3,
    with 'unknown' for a missing field. *)
Theorem candidate_fields_are_logged (c : RTCIceCandidate) (fields : list string) (w : World) :
  fields <> [] -> Forall spaceless fields ->
  candidate c = join_space fields ->
  let w' := step host w (IceCandidateEvent (Some c)) in
  el_children (getElementById ("debug" ++ currentPeer w) w')
  = (el_children (getElementById ("debug" ++ currentPeer w) w)
     ++ candidate_lines (clock w) (candidate c) fields)%list /\
  Script.read_array (pendingCandidates (peer w)) w'
  = (Script.read_array (pendingCandidates (peer w)) w ++ [c])%list.
Proof.
  intros Hne Hall Hc w'. subst w'.
  pose proof (split_join fields Hne Hall) as Hsplit. rewrite <- Hc in Hsplit.
  unfold step, handler, Script.onicecandidate, Script.push, Script.read_array,
    getElementById, candidate_lines.
  open_world w. run_M. rewrite Hsplit. split.
  - read_page. rewrite <- app_assoc. reflexivity.
  - unfold Script.elements, Script.array_push. rewrite lookup_insert_eq. reflexivity.
Qed.

End Candidates.

End Strings.

(** ** An invariant of the probe *)

(** ** An invariant of the probe *)

Section Keeps.

Context {A B : Type} (P : World -> Prop).

Lemma keeps_ret (a : A) : keeps P (ret a).
Proof. intros w H. exact H. Qed.

Lemma keeps_throw (e : exn) : keeps P (@throw A e).
Proof. intros w H. exact H. Qed.

Lemma keeps_gets (f : World -> A) : keeps P (gets f).
Proof. intros w H. exact H. Qed.

Lemma keeps_lift (r : exn + A) : keeps P (lift r).
Proof. destruct r; intros w H; exact H. Qed.

Lemma keeps_modify (f : World -> World) : (forall w, P w -> P (f w)) -> keeps P (modify f).
Proof. intros Hf w H. apply Hf, H. Qed.

Lemma keeps_bind (m : M A) (k : A -> M B) :
  keeps P m -> (forall a, keeps P (k a)) -> keeps P (bind m k).
Proof.
  intros Hm Hk w H. unfold bind. specialize (Hm w H).
  destruct (m w) as [[e | a] w1]; cbn [snd] in *; [exact Hm | apply Hk, Hm].
Qed.

Lemma keeps_try_catch (body : M A) (handler : exn -> M A) :
  keeps P body -> (forall e, keeps P (handler e)) -> keeps P (try_catch body handler).
Proof.
  intros Hb Hh w H. unfold try_catch. specialize (Hb w H).
  destruct (body w) as [[e | a] w1]; cbn [snd] in *; [apply Hh, Hb | exact Hb].
Qed.

End Keeps.

Create HintDb keeps discriminated.
#[global] Hint Constants Opaque : keeps.

(** Goes through a computation along its structure; what it is made of
    is looked up among the hints. *)
Ltac keeps_step side :=
  lazymatch goal with
  | |- keeps _ (ret _) => apply keeps_ret
  | |- keeps _ (throw _) => apply keeps_throw
  | |- keeps _ (gets _) => apply keeps_gets
  | |- keeps _ (lift _) => apply keeps_lift
  | |- keeps _ (bind _ _) => apply keeps_bind; [| intros ?]
  | |- keeps _ (try_catch _ _) => apply keeps_try_catch; [| intros ?]
  | |- keeps _ (match ?x with _ => _ end) => destruct x
  | |- keeps _ ((fun _ => _) _) => cbv beta
  | |- keeps _ (let _ := _ in _) => cbv zeta
  | |- keeps _ _ => first [ solve [auto with keeps] | side ]
  end.

Ltac keeps_auto := repeat keeps_step fail.

(** A computation that does not touch [speedTest]. *)
Ltac keeps_frame := intros w H; unfold probe_ok in *; open_world w; run_M; exact H.

Section Invariant.

Variable host : Host.

Lemma keeps_setElem id f : keeps probe_ok (setElem id f).
Proof. keeps_frame. Qed.
Lemma keeps_appendChild id l : keeps probe_ok (appendChild id l).
Proof. keeps_frame. Qed.
Lemma keeps_alert msg : keeps probe_ok (alert msg).
Proof. keeps_frame. Qed.
Lemma keeps_getCurrentPeer : keeps probe_ok getCurrentPeer.
Proof. keeps_frame. Qed.
Lemma keeps_setCurrentPeer p : keeps probe_ok (setCurrentPeer p).
Proof. keeps_frame. Qed.
Lemma keeps_with_clock now : keeps probe_ok (modify (with_clock now)).
Proof. keeps_frame. Qed.
Lemma keeps_with_pending f : keeps probe_ok (modify (fun w => with_pending (f w) w)).
Proof. keeps_frame. Qed.
Lemma keeps_with_pending' l : keeps probe_ok (modify (with_pending l)).
Proof. keeps_frame. Qed.
Lemma keeps_with_randomCalls n : keeps probe_ok (modify (with_randomCalls n)).
Proof. keeps_frame. Qed.
Lemma keeps_set_peer f : keeps probe_ok (Script.set_peer f).
Proof. keeps_frame. Qed.
Lemma keeps_push l c : keeps probe_ok (Script.push l c).
Proof. unfold Script.push. keeps_frame. Qed.
Lemma keeps_facade_call c : keeps probe_ok (Script.facade_call c).
Proof. unfold Script.facade_call. keeps_frame. Qed.
Lemma keeps_new_array : keeps probe_ok Script.new_array.
Proof. unfold Script.new_array. keeps_frame. Qed.
Lemma keeps_new_RTCPeerConnection : keeps probe_ok Script.new_RTCPeerConnection.
Proof. unfold Script.new_RTCPeerConnection. keeps_frame. Qed.
Lemma keeps_add_timer cb delay rep : keeps probe_ok (Script.add_timer cb delay rep).
Proof. unfold Script.add_timer. keeps_frame. Qed.
Lemma keeps_clearInterval id : keeps probe_ok (Script.clearInterval id).
Proof. unfold Script.clearInterval. keeps_frame. Qed.
Lemma keeps_update_closure id cb : keeps probe_ok (update_closure id cb).
Proof. unfold update_closure. keeps_frame. Qed.

Hint Resolve keeps_setElem keeps_appendChild keeps_alert keeps_getCurrentPeer
  keeps_setCurrentPeer keeps_with_clock keeps_with_pending keeps_with_pending'
  keeps_with_randomCalls keeps_set_peer
  keeps_push keeps_facade_call keeps_new_array keeps_new_RTCPeerConnection keeps_add_timer
  keeps_clearInterval keeps_update_closure : keeps.

(** An assignment to a field of [speedTest]. *)
Lemma keeps_set_speedTest (f : SpeedTest -> SpeedTest) :
  (forall s, probe_invariant s -> probe_invariant (f s)) ->
  keeps probe_ok (set_speedTest f).
Proof.
  intros Hf w H. unfold probe_ok in *. open_world w. run_M. apply Hf in H. exact H.
Qed.

(** The assignments outside [startSpeedTest]: they add to a counter,
    append a sample or end the run. *)
Ltac probe_assignment :=
  apply keeps_set_speedTest;
  let s := fresh "s" in
  let Hl := fresh "Hl" in let Hs := fresh "Hs" in
  let Hr := fresh "Hr" in let Hrun := fresh "Hrun" in
  intros s (Hl & Hs & Hr & Hrun); destruct s;
  cbv beta iota delta
    [st_isRunning st_startTime st_endTime st_bytesSent st_bytesReceived st_packetsLost
     st_latencyTests st_throughputTests st_testInterval st_latencyInterval st_statsInterval
     st_settings isRunning startTime endTime bytesSent bytesReceived packetsLost
     latencyTests throughputTests testInterval latencyInterval statsInterval
     probe_invariant] in *;
  repeat split; try assumption; try lia;
  try (intros Hx; first [discriminate Hx | apply Hrun in Hx; intuition (first [assumption | discriminate])]).

Ltac keeps_probe := repeat keeps_step probe_assignment.

Local Ltac keeps_by f := unfold f; keeps_probe.

Lemma keeps_updateStatus status : keeps probe_ok (updateStatus status).
Proof. keeps_by updateStatus. Qed.
Lemma keeps_addDebugInfo message ty : keeps probe_ok (addDebugInfo message ty).
Proof. keeps_by addDebugInfo. Qed.
Lemma keeps_addMessage message sender : keeps probe_ok (addMessage message sender).
Proof. keeps_by addMessage. Qed.
Lemma keeps_addSpeedTestLog message ty : keeps probe_ok (addSpeedTestLog message ty).
Proof. keeps_by addSpeedTestLog. Qed.
Hint Resolve keeps_updateStatus keeps_addDebugInfo keeps_addMessage keeps_addSpeedTestLog
  : keeps.

Lemma keeps_resetPeerUI : keeps probe_ok resetPeerUI.
Proof. keeps_by resetPeerUI. Qed.
Lemma keeps_await call k : keeps probe_ok (Script.await call k).
Proof. keeps_by Script.await. Qed.
Lemma keeps_setTimeout cb delay : keeps probe_ok (Script.setTimeout cb delay).
Proof. unfold Script.setTimeout. auto with keeps. Qed.
Lemma keeps_setInterval cb delay : keeps probe_ok (Script.setInterval cb delay).
Proof. unfold Script.setInterval. auto with keeps. Qed.
Lemma keeps_peer_pc_receiver method : keeps probe_ok (Script.peer_pc_receiver method).
Proof. keeps_by Script.peer_pc_receiver. Qed.
Lemma keeps_candidates_length bundle : keeps probe_ok (Script.candidates_length bundle).
Proof. keeps_by Script.candidates_length. Qed.
Lemma keeps_report_error e : keeps probe_ok (Script.report_error e).
Proof. keeps_by Script.report_error. Qed.
Lemma keeps_close_existing : keeps probe_ok Script.close_existing.
Proof. keeps_by Script.close_existing. Qed.
Lemma keeps_setupDataChannel ch : keeps probe_ok (Script.setupDataChannel ch).
Proof. keeps_by Script.setupDataChannel. Qed.
Hint Resolve keeps_resetPeerUI keeps_await keeps_setTimeout keeps_setInterval
  keeps_peer_pc_receiver keeps_candidates_length keeps_report_error keeps_close_existing
  keeps_setupDataChannel : keeps.

Lemma keeps_publish b target status kind :
  keeps probe_ok (Script.publish host b target status kind).
Proof. keeps_by Script.publish. Qed.
Hint Resolve keeps_publish : keeps.
Lemma keeps_completeSignalingReady : keeps probe_ok (Script.completeSignalingReady host).
Proof. keeps_by Script.completeSignalingReady. Qed.
Lemma keeps_initializePeerConnection : keeps probe_ok Script.initializePeerConnection.
Proof. keeps_by Script.initializePeerConnection. Qed.
Lemma keeps_new_bundle ty sd : keeps probe_ok (Script.new_bundle ty sd).
Proof. keeps_by Script.new_bundle. Qed.
Lemma keeps_wait_for_gathering : keeps probe_ok Script.wait_for_gathering.
Proof. keeps_by Script.wait_for_gathering. Qed.
Lemma keeps_channel_onopen : keeps probe_ok Script.channel_onopen.
Proof. keeps_by Script.channel_onopen. Qed.
Lemma keeps_channel_onclose : keeps probe_ok Script.channel_onclose.
Proof. keeps_by Script.channel_onclose. Qed.
Hint Resolve keeps_completeSignalingReady keeps_initializePeerConnection keeps_new_bundle
  keeps_wait_for_gathering keeps_channel_onopen keeps_channel_onclose : keeps.

Lemma keeps_onicecandidate c : keeps probe_ok (Script.onicecandidate host c).
Proof. keeps_by Script.onicecandidate. Qed.
Lemma keeps_gatheringTimeout : keeps probe_ok (Script.gatheringTimeout host).
Proof. keeps_by Script.gatheringTimeout. Qed.
Lemma keeps_createCompleteOffer : keeps probe_ok Script.createCompleteOffer.
Proof. keeps_by Script.createCompleteOffer. Qed.
Lemma keeps_createCompleteAnswer : keeps probe_ok (Script.createCompleteAnswer host).
Proof. keeps_by Script.createCompleteAnswer. Qed.
Lemma keeps_setCompleteAnswer_start k : keeps probe_ok (Script.setCompleteAnswer_start host k).
Proof. keeps_by Script.setCompleteAnswer_start. Qed.
Lemma keeps_setCompleteAnswer_finish v : keeps probe_ok (Script.setCompleteAnswer_finish v).
Proof. keeps_by Script.setCompleteAnswer_finish. Qed.
Lemma keeps_resetPeer : keeps probe_ok Script.resetPeer.
Proof. keeps_by Script.resetPeer. Qed.
Hint Resolve keeps_onicecandidate keeps_gatheringTimeout keeps_createCompleteOffer
  keeps_createCompleteAnswer keeps_setCompleteAnswer_start keeps_setCompleteAnswer_finish
  keeps_resetPeer : keeps.

Lemma keeps_createCompleteAnswer_loop v rest :
  keeps probe_ok (Script.createCompleteAnswer_loop v rest).
Proof. keeps_by Script.createCompleteAnswer_loop. Qed.
Lemma keeps_setCompleteAnswer_legacy_loop v rest :
  keeps probe_ok (Script.setCompleteAnswer_legacy_loop v rest).
Proof. keeps_by Script.setCompleteAnswer_legacy_loop. Qed.
Hint Resolve keeps_createCompleteAnswer_loop keeps_setCompleteAnswer_legacy_loop : keeps.

Lemma keeps_resume k o : keeps probe_ok (Script.resume k o).
Proof.
  destruct k; cbn [Script.resume];
    unfold Script.createCompleteOffer_created, Script.createCompleteOffer_localSet,
      Script.createCompleteAnswer_remoteSet, Script.createCompleteAnswer_candidateAdded,
      Script.createCompleteAnswer_created, Script.createCompleteAnswer_localSet,
      Script.setCompleteAnswer_remoteSet, Script.setCompleteAnswer_legacy_remoteSet,
      Script.setCompleteAnswer_legacy_candidateAdded;
    keeps_probe.
Qed.
Hint Resolve keeps_resume : keeps.

Lemma keeps_settle i o : keeps probe_ok (Script.settle i o).
Proof. keeps_by Script.settle. Qed.

Lemma keeps_clear_intervals : keeps probe_ok clear_intervals.
Proof. unfold clear_intervals, clear_if_set. keeps_probe. Qed.
Lemma keeps_updateSpeedMetrics : keeps probe_ok updateSpeedMetrics.
Proof. keeps_by updateSpeedMetrics. Qed.
Lemma keeps_calculateFinalResults : keeps probe_ok calculateFinalResults.
Proof. keeps_by calculateFinalResults. Qed.
Lemma keeps_clearSpeedTestResults : keeps probe_ok clearSpeedTestResults.
Proof. keeps_by clearSpeedTestResults. Qed.
Lemma keeps_send s : keeps probe_ok (send host s).
Proof. keeps_by send. Qed.
Lemma keeps_random_string : keeps probe_ok (random_string host).
Proof. keeps_by random_string. Qed.
Hint Resolve keeps_settle keeps_clear_intervals keeps_updateSpeedMetrics
  keeps_calculateFinalResults keeps_clearSpeedTestResults keeps_send keeps_random_string
  : keeps.

Lemma keeps_stopSpeedTest : keeps probe_ok stopSpeedTest.
Proof. keeps_by stopSpeedTest. Qed.
Hint Resolve keeps_stopSpeedTest : keeps.
Lemma keeps_autoStop : keeps probe_ok autoStop.
Proof. keeps_by autoStop. Qed.
Lemma keeps_packetStream_tick n : keeps probe_ok (packetStream_tick host n).
Proof. keeps_by packetStream_tick. Qed.
Lemma keeps_latencyTest_tick : keeps probe_ok (latencyTest_tick host).
Proof. keeps_by latencyTest_tick. Qed.
Lemma keeps_statsCollection_tick a b : keeps probe_ok (statsCollection_tick a b).
Proof. keeps_by statsCollection_tick. Qed.
Lemma keeps_handleSpeedTestPacket data : keeps probe_ok (handleSpeedTestPacket host data).
Proof. keeps_by handleSpeedTestPacket. Qed.
Hint Resolve keeps_autoStop keeps_packetStream_tick keeps_latencyTest_tick
  keeps_statsCollection_tick keeps_handleSpeedTestPacket : keeps.

Lemma keeps_onmessage data : keeps probe_ok (onmessage host data).
Proof. keeps_by onmessage. Qed.
Lemma keeps_fire id : keeps probe_ok (fire host id).
Proof. keeps_by fire. Qed.
Lemma keeps_channel_state st : keeps probe_ok (channel_state st).
Proof. keeps_by channel_state. Qed.

(** [startSpeedTest] breaks the invariant on its way (it raises the
    running flag before it sets the start time and the timers) and has
    restored it when it returns. *)
Lemma keeps_startSpeedTest : keeps probe_ok (startSpeedTest host).
Proof.
  intros w H. unfold probe_ok in *.
  destruct (channel_not_open w) eqn:Hclosed.
  - unfold startSpeedTest. open_world w. run_M. rewrite Hclosed. exact H.
  - destruct (isRunning (speedTest w)) eqn:Hrun.
    + unfold startSpeedTest. open_world w. cbn in Hrun. subst. run_M. rewrite Hclosed.
      run_M. exact H.
    + destruct (startSpeedTest_resets host w Hclosed Hrun)
        as (_ & Hst & Hsent & Hrecv & Hlost & _).
      destruct (startSpeedTest_timers host w Hclosed Hrun) as (_ & _ & Ht & Hl & Hsi & _).
      unfold exec in *. unfold probe_invariant.
      rewrite Hst, Hsent, Hrecv, Hlost, Ht, Hl, Hsi.
      repeat split; try lia; discriminate.
Qed.

Hint Resolve keeps_onmessage keeps_fire keeps_channel_state keeps_startSpeedTest : keeps.

Lemma keeps_handler e : keeps probe_ok (handler host e).
Proof.
  destruct e; cbn [handler]; unfold Script.setCompleteAnswer; auto with keeps.
Qed.

(** X26. Along any sequence of events, from a state where it holds:
    packetsLost stays 0, the byte counters stay non-negative, and an active
    run has its start time and its three interval handles. Hence the packet-
    loss figure a statistics tick shows is always 0 %. *)
Theorem probe_invariant_holds (w : World) (es : list Event) (lastUpdate lastBytesSent : Z) :
  probe_invariant (speedTest w) ->
  let w' := run host w es in
  probe_invariant (speedTest w') /\
  el_text (getElementById ("packetLoss" ++ currentPeer w')
             (snd (statsCollection_tick lastUpdate lastBytesSent w')))
  = [Num (of_Z 0); Str " %"].
Proof.
  intros H w'.
  assert (Hinv : probe_invariant (speedTest w')).
  { subst w'. revert w H. induction es as [| e es IH]; intros w H; [exact H |].
    cbn [run fold_left]. apply IH. apply (keeps_handler e w H). }
  split; [exact Hinv |].
  destruct Hinv as (Hlost & _). clearbody w'. clear H.
  unfold statsCollection_tick, updateSpeedMetrics, getElementById.
  open_world w'. cbn in Hlost. subst. run_M.
  destruct (gt _ _); run_M; read_page; reflexivity.
Qed.

End Invariant.

(** ** Chat, connection reports and tabs *)

Section Chatting.

Variable host : Host.

(** X27. sendMessage: an input that is blank once trimmed, as
    String.prototype.trim trims it, raises the alert 'Please enter a
    message!' whatever the channel; a non-blank one with no open channel
    raises 'Connection not ready!' and keeps the input. With an open channel
    the trimmed text is sent, shown in the chat as 'Peer <current>' and the
    input is cleared, unless send throws: then the exception escapes and
    nothing changes. *)
Theorem sendMessage_outcomes (w : World) :
  let cp := currentPeer w in
  let input := "messageInput" ++ cp in
  let message := JsString.trim (el_value (getElementById input w)) in
  let r := Chat.sendMessage host w in
  (message = EmptyString ->
   r = (inr tt, with_alerts (alerts w ++ ["Please enter a message!"]) w)) /\
  (message <> EmptyString -> channel_not_open w = true ->
   r = (inr tt, with_alerts (alerts w ++ ["Connection not ready!"]) w)) /\
  (forall ch, message <> EmptyString -> dc (peer w) = Some ch -> readyState ch = open ->
     match channel_send host ch message with
     | inl e => r = (inl e, w)
     | inr ch' =>
         fst r = inr tt /\
         dc (peer (snd r)) = Some ch' /\
         el_value (getElementById input (snd r)) = EmptyString /\
         el_children (getElementById ("messages" ++ cp) (snd r))
         = (el_children (getElementById ("messages" ++ cp) w)
            ++ [{| ln_color := None; ln_time := None;
                   ln_html := [Str "<strong>"; Str ("Peer " ++ cp); Str ":</strong> ";
                               Str message] |}])%list /\
         alerts (snd r) = alerts w /\ speedTest (snd r) = speedTest w /\
         pc (peer (snd r)) = pc (peer w)
     end).
Proof.
  cbv zeta. unfold Chat.sendMessage, send, getElementById.
  open_world w. run_M.
  set (message := JsString.trim _).
  repeat split.
  - intros Hm. rewrite Hm. reflexivity.
  - intros Hm Hclosed. apply String.eqb_neq in Hm. rewrite Hm, Hclosed. reflexivity.
  - intros ch Hm Hdc Hopen. apply String.eqb_neq in Hm. subst dc0.
    destruct ch as [label ordered [] sent]; try discriminate Hopen.
    rewrite Hm. run_B.
    destruct (channel_send host _ message) as [e | ch']; run_M; [reflexivity |].
    repeat split; read_page; reflexivity.
Qed.

End Chatting.

Section Reports.

Import Connection.

Local Open Scope M_scope.

Lemma logged_refl (w : World) : logged w w [].
Proof.
  unfold logged. split; [destruct w; reflexivity |]. split; [reflexivity |].
  rewrite app_nil_r. destruct (getElementById _ w). reflexivity.
Qed.

Lemma logged_trans (w w1 w2 : World) (l1 l2 : list Line) :
  logged w w1 l1 -> logged w1 w2 l2 -> logged w w2 (l1 ++ l2)%list.
Proof.
  intros (E1 & O1 & D1) (E2 & O2 & D2).
  assert (Hcp : currentPeer w1 = currentPeer w) by (rewrite E1; destruct w; reflexivity).
  rewrite Hcp in *.
  split; [| split].
  - rewrite E2, E1. destruct w; reflexivity.
  - intros id Hid. rewrite O2, O1 by assumption. reflexivity.
  - rewrite D2, D1. cbn. rewrite app_assoc. reflexivity.
Qed.

Lemma logs_ret : logs (ret tt) (fun _ => []).
Proof. intros w. split; [reflexivity | apply logged_refl]. Qed.

Lemma logs_addDebugInfo (message : text) (ty : string) :
  logs (addDebugInfo message ty) (fun now => [debug_line now ty message]).
Proof.
  intros w. unfold logged, debug_line, getElementById. open_world w. run_M.
  split; [reflexivity |]. split; [reflexivity |]. split.
  - intros id Hid. apply elem_at_update_ne. congruence.
  - rewrite elem_at_update_eq. reflexivity.
Qed.

Lemma logs_seq (m m' : M unit) (l l' : Z -> list Line) :
  logs m l -> logs m' l' -> logs (m ;; m') (fun now => (l now ++ l' now)%list).
Proof.
  intros H H' w. destruct (H w) as (Hr & Hl). unfold bind.
  destruct (m w) as [[e | []] w1]; [discriminate Hr |]. cbn [fst snd] in *.
  destruct (H' w1) as (Hr' & Hl').
  assert (Hclock : clock w1 = clock w).
  { destruct Hl as (E & _). rewrite E. destruct w; reflexivity. }
  rewrite Hclock in Hl'.
  split; [exact Hr' | exact (logged_trans _ _ _ _ _ Hl Hl')].
Qed.

Lemma logs_when (b : bool) (m : M unit) (l : Z -> list Line) :
  logs m l -> logs (when b m) (fun now => if b then l now else []).
Proof. intros H. destruct b; [exact H | exact logs_ret]. Qed.

Lemma show_pair_logs (maps : gmap string Report * gmap string Report) (report : Report) :
  exists lines,
    logs (show_pair (fst maps) (snd maps) report) lines /\
    forall now, match shown maps report with
                | Some found => pair_block now found (lines now)
                | None => lines now = []
                end.
Proof.
  unfold show_pair, shown.
  destruct (String.eqb (rp_type report) "candidate-pair"); cbn [andb];
    [| eexists; split; [apply logs_ret | reflexivity]].
  destruct (rp_state report) as [s |];
    [| rewrite bool_decide_eq_false_2 by discriminate;
       eexists; split; [apply logs_ret | reflexivity]].
  destruct (String.eqb_spec s "succeeded") as [-> | Hne];
    [| rewrite bool_decide_eq_false_2 by congruence;
       eexists; split; [apply logs_ret | reflexivity]].
  rewrite bool_decide_eq_true_2 by reflexivity.
  destruct (get (fst maps) _) as [l |]; [| eexists; split; [apply logs_ret | reflexivity]].
  destruct (get (snd maps) _) as [r |]; [| eexists; split; [apply logs_ret | reflexivity]].
  cbv zeta. unfold analyzeConnectionType.
  destruct (rp_bytesSent report), (rp_currentRoundTripTime report),
    (filled (rp_protocol l)), (nonzero (rp_priority l)), (nonzero (rp_priority r)).
  all: eexists; split;
    [ repeat first [ apply logs_seq | apply logs_when | apply logs_addDebugInfo
                   | apply logs_ret ] |].
  all: intros now; unfold pair_block; cbn [fst snd app andb].
  all: match goal with
       | |- exists d, _ /\ _ :: _ :: _ :: ?rest = _ => exists (removelast rest)
       end.
  all: split; [cbn; lia | reflexivity].
Qed.

Lemma forEach_logs (maps : gmap string Report * gmap string Report) (l : list Report) :
  exists lines,
    logs (forEach (show_pair (fst maps) (snd maps)) l) lines /\
    forall now, exists blocks,
      lines now = concat blocks /\
      Forall2 (pair_block now) (omap (shown maps) l) blocks.
Proof.
  induction l as [| report l (F & HF & Hblocks)].
  - exists (fun _ => []). split; [apply logs_ret |].
    intros now. exists []. split; [reflexivity | constructor].
  - destruct (show_pair_logs maps report) as (f & Hf & Hshape).
    exists (fun now => (f now ++ F now)%list). split; [exact (logs_seq _ _ _ _ Hf HF) |].
    intros now. destruct (Hblocks now) as (blocks & -> & Hall).
    specialize (Hshape now). cbn [omap list_omap].
    destruct (shown maps report) as [found |].
    + exists (f now :: blocks). split; [reflexivity | constructor; assumption].
    + exists blocks. rewrite Hshape. split; [reflexivity | assumption].
Qed.

(** X28. showSelectedCandidates never throws and only appends to the debug
    log: one warning when peer.pc is null or getStats rejects; otherwise one
    block per succeeded candidate-pair report whose local and remote
    candidates are among the reports, wherever they stand in the list, in
    report order, each block starting with the headline and the local and
    remote lines and ending with the explanation of analyzeConnectionType. *)
Theorem selected_pairs_are_listed (w : World) :
  (let start := showSelectedCandidates w in
   fst start = inr tt /\
   match pc (peer w) with
   | Some _ => snd start = w
   | None =>
       logged w (snd start)
         [debug_line (clock w) "warning"
            [Str "❌ Could not get connection stats: ";
             Str "Cannot read properties of null (reading 'getStats')"]]
   end) /\
  (forall e : exn,
     let r := showSelectedCandidates_settled (inl e) w in
     fst r = inr tt /\
     logged w (snd r)
       [debug_line (clock w) "warning"
          [Str "❌ Could not get connection stats: "; Str (message e)]]) /\
  (forall stats : list Report,
     let r := showSelectedCandidates_settled (inr stats) w in
     exists blocks,
       fst r = inr tt /\
       logged w (snd r) (concat blocks) /\
       Forall2 (pair_block (clock w)) (omap (shown (collect stats)) stats) blocks).
Proof.
  split; [| split].
  - cbv zeta.
    unfold showSelectedCandidates, stats_unavailable, Script.peer_pc_receiver, try_catch,
      bind, gets.
    destruct (pc (peer w)); [split; reflexivity |].
    exact (logs_addDebugInfo
             [Str "❌ Could not get connection stats: ";
              Str "Cannot read properties of null (reading 'getStats')"] "warning" w).
  - intros e.
    exact (logs_addDebugInfo
             [Str "❌ Could not get connection stats: "; Str (message e)] "warning" w).
  - intros stats. cbv zeta.
    destruct (forEach_logs (collect stats) stats) as (lines & Hlogs & Hblocks).
    destruct (Hblocks (clock w)) as (blocks & Hlines & Hall).
    destruct (Hlogs w) as (Hret & Hlogged).
    exists blocks. unfold showSelectedCandidates_settled, try_catch.
    destruct (forEach _ stats w) as [[e | []] w']; [discriminate Hret |].
    cbn [fst snd] in *. rewrite <- Hlines. split; [reflexivity |]. split; assumption.
Qed.

(** X29. The connection-state and ICE-state callbacks only report: each logs
    the state in upper case, and the former sets the status to Connected,
    Connecting... or Disconnected (for disconnected and failed) and leaves
    it alone for any other state; nothing outside the page changes. With
    peer.pc null either callback throws a TypeError before it logs. *)
Theorem connection_state_only_reports (state : string) (w : World) :
  let cp := currentPeer w in
  (let r := onconnectionstatechange state w in
   let w' := snd r in
   match pc (peer w) with
   | None =>
       r = (inl (TypeError "Cannot read properties of null (reading 'connectionState')"), w)
   | Some _ =>
       fst r = inr tt /\
       w' = with_document (document w') w /\
       (forall id, id <> "debug" ++ cp -> id <> "status" ++ cp ->
                   getElementById id w' = getElementById id w) /\
       el_children (getElementById ("debug" ++ cp) w')
       = (el_children (getElementById ("debug" ++ cp) w)
          ++ [debug_line (clock w)
                (if String.eqb state "connected" then "success"
                 else if String.eqb state "failed" then "error" else "info")
                [Str "🔗 Connection: "; Str (JsString.toUpperCase state)]])%list /\
       el_text (getElementById ("status" ++ cp) w')
       = match status_of_state state with
         | Some status => [Str status]
         | None => el_text (getElementById ("status" ++ cp) w)
         end
   end) /\
  (let r := oniceconnectionstatechange state w in
   match pc (peer w) with
   | None =>
       r = (inl (TypeError "Cannot read properties of null (reading 'iceConnectionState')"), w)
   | Some _ =>
       fst r = inr tt /\
       logged w (snd r)
         [debug_line (clock w)
            (if String.eqb state "connected" || String.eqb state "completed" then "success"
             else if String.eqb state "failed" then "error" else "info")
            [Str "🧊 ICE: "; Str (JsString.toUpperCase state)]]
   end).
Proof.
  cbv zeta. split.
  - unfold onconnectionstatechange, showSelectedCandidates, stats_unavailable,
      Script.peer_pc_receiver, status_of_state, debug_line, getElementById.
    open_world w. destruct pc0 as [id |]; run_M; [| reflexivity].
    assert (Hother : forall (id : string) (f g : Elem -> Elem),
               id <> "debug" ++ currentPeer0 -> id <> "status" ++ currentPeer0 ->
               elem_at id (update_elem ("status" ++ currentPeer0) f
                             (update_elem ("debug" ++ currentPeer0) g document0))
               = elem_at id document0).
    { intros i f g Hd Hs. rewrite !elem_at_update_ne by congruence. reflexivity. }
    assert (Hother' : forall (id : string) (g : Elem -> Elem),
               id <> "debug" ++ currentPeer0 ->
               elem_at id (update_elem ("debug" ++ currentPeer0) g document0)
               = elem_at id document0).
    { intros i g Hd. rewrite !elem_at_update_ne by congruence. reflexivity. }
    destruct (String.eqb state "connected"); run_M.
    { repeat split; try (intros; apply Hother; assumption); read_page; reflexivity. }
    destruct (String.eqb state "connecting"); run_M.
    { repeat split; try (intros; apply Hother; assumption); read_page; reflexivity. }
    destruct (String.eqb state "disconnected"), (String.eqb state "failed"); run_B;
      repeat split;
      try (intros; first [apply Hother | apply Hother']; assumption);
      read_page; reflexivity.
  - unfold oniceconnectionstatechange, Script.peer_pc_receiver, bind, gets, ret.
    destruct (pc (peer w)) eqn:Hpc; [| reflexivity].
    pose proof (logs_addDebugInfo [Str "🧊 ICE: "; Str (JsString.toUpperCase state)]
                  (if String.eqb state "connected" || String.eqb state "completed"
                   then "success"
                   else if String.eqb state "failed" then "error" else "info") w)
      as (Hret & Hlogged).
    destruct (addDebugInfo _ _ w) as [[e | []] w1]; [discriminate Hret |].
    cbn [fst snd] in *.
    assert (Hpc1 : pc (peer w1) = pc (peer w)).
    { destruct Hlogged as (E & _). rewrite E. destruct w; reflexivity. }
    destruct (String.eqb state "connected"); [| split; [reflexivity | assumption]].
    unfold showSelectedCandidates, Script.peer_pc_receiver, try_catch, bind, gets.
    rewrite Hpc1, Hpc. split; [reflexivity | assumption].
Qed.

End Reports.

Section TabSwitch.

Import Tabs.

Lemma find_index_map (p : Node -> bool) (g : Node -> Node) (l : list Node) :
  (forall n, p (g n) = p n) -> find_index p (map g l) = find_index p l.
Proof.
  intros Hg. induction l as [| n l IH]; [reflexivity |].
  cbn [map find_index]. rewrite Hg, IH. reflexivity.
Qed.

Lemma find_index_deactivate (p : Node -> bool) (c : string) (l : list Node) :
  (forall n, p (classList_remove "active" n) = p n) ->
  find_index p (deactivate c l) = find_index p l.
Proof.
  intros Hp. apply find_index_map. intros n. destruct (has_class c n); [apply Hp | reflexivity].
Qed.

Lemma activate_cons (n : Node) (l : list Node) (i : nat) :
  activate (S i) (n :: l) = n :: activate i l.
Proof. unfold activate. cbn. destruct (l !! i); reflexivity. Qed.

Lemma find_index_activate (p : Node -> bool) (i : nat) (l : list Node) :
  (forall n, p (classList_add "active" n) = p n) ->
  find_index p (activate i l) = find_index p l.
Proof.
  intros Hp. revert i. induction l as [| n l IH]; intros i.
  - destruct i; reflexivity.
  - destruct i as [| i].
    + unfold activate. cbn. rewrite Hp. reflexivity.
    + rewrite activate_cons. cbn [find_index]. rewrite IH. reflexivity.
Qed.

Lemma find_index_Some (p : Node -> bool) (l : list Node) (i : nat) :
  find_index p l = Some i -> exists n, l !! i = Some n /\ p n = true.
Proof.
  revert i. induction l as [| n l IH]; intros i H; [discriminate H |].
  cbn [find_index] in H. destruct (p n) eqn:Hn.
  - injection H as <-. exists n. split; [reflexivity | assumption].
  - destruct (find_index p l) as [j |]; [| discriminate H].
    injection H as <-. destruct (IH j eq_refl) as (m & Hm & Hpm).
    exists m. split; assumption.
Qed.

Lemma has_class_removed (c d : string) (n : Node) :
  has_class c (classList_remove d n)
  = if String.eqb d c then false else has_class c n.
Proof.
  unfold has_class, classList_remove. cbn [nd_classes].
  induction (nd_classes n) as [| x l IH]; [destruct (String.eqb d c); reflexivity |].
  cbn [List.filter existsb]. destruct (String.eqb_spec d x) as [-> | Hdx]; cbn [negb].
  - rewrite IH. rewrite (String.eqb_sym c x). destruct (String.eqb x c); reflexivity.
  - cbn [existsb]. rewrite IH. destruct (String.eqb_spec d c) as [-> | Hdc]; [| reflexivity].
    destruct (String.eqb_spec c x) as [-> | ]; [contradiction | reflexivity].
Qed.

Lemma has_class_added (c : string) (n : Node) :
  has_class c (classList_add c n) = true.
Proof.
  unfold classList_add. destruct (has_class c n) eqn:H; [exact H |].
  unfold has_class. cbn [nd_classes]. rewrite existsb_app. cbn.
  rewrite String.eqb_refl. apply orb_true_r.
Qed.

Lemma activate_lookup (i j : nat) (l : list Node) :
  activate i l !! j
  = if decide (i = j) then classList_add "active" <$> l !! j else l !! j.
Proof.
  unfold activate. destruct (l !! i) as [n |] eqn:Hi.
  - case_decide as E.
    + subst j. rewrite list_lookup_insert_eq by (apply lookup_lt_Some with n, Hi).
      rewrite Hi. reflexivity.
    + apply list_lookup_insert_ne, E.
  - case_decide as E; [subst j; rewrite Hi |]; reflexivity.
Qed.

Lemma active_after_activate (i j : nat) (l : list Node) :
  active_at l j = true -> active_at (activate i l) j = true.
Proof.
  unfold active_at. rewrite activate_lookup. intros H.
  case_decide; [| exact H]. destruct (l !! j) as [n |]; [| discriminate H].
  apply has_class_added.
Qed.

Lemma active_at_activated (i : nat) (l : list Node) :
  is_Some (l !! i) -> active_at (activate i l) i = true.
Proof.
  intros [n Hn]. unfold active_at. rewrite activate_lookup, decide_True by reflexivity.
  rewrite Hn. apply has_class_added.
Qed.

(** No tab and no tab button is left active by the two sweeps. *)
Lemma swept_inactive (l : list Node) (j : nat) (n : Node) :
  deactivate "tab-button" (deactivate "tab-content" l) !! j = Some n ->
  has_class "tab-content" n || has_class "tab-button" n = true ->
  has_class "active" n = false.
Proof.
  unfold deactivate. rewrite !list_lookup_fmap.
  destruct (l !! j) as [m |]; [| discriminate]. cbn. intros [= <-].
  destruct (has_class "tab-content" m) eqn:Hc.
  - rewrite has_class_removed. cbn [String.eqb Ascii.eqb Bool.eqb].
    destruct (has_class "tab-button" m); rewrite !has_class_removed; reflexivity.
  - destruct (has_class "tab-button" m) eqn:Hb.
    + rewrite !has_class_removed. reflexivity.
    + rewrite Hc, Hb. discriminate.
Qed.

(** X30. Round trip through the location hash: after switchTab('peer-a') or
    switchTab('peer-b') and a reload of the page, initializeFromHash
    restores the same currentPeer and hash, marks that tab and its button
    active, and leaves no other tab or tab button active. *)
Theorem tab_survives_reload (tabId : string) (target : nat) (v : View) (page : list Node)
    (t b : nat) :
  tabId = "peer-a" \/ tabId = "peer-b" ->
  is_Some (getElementById tabId (nodes v)) ->
  getElementById tabId page = Some t ->
  button_of tabId page = Some b ->
  let clicked := switchTab tabId target v in
  let loaded := initializeFromHash (reload page (snd clicked)) in
  fst clicked = inr tt /\ fst loaded = inr tt /\
  current (snd clicked) = peer_of_tab tabId /\
  location_hash (snd clicked) = hash_of_tab tabId /\
  current (snd loaded) = current (snd clicked) /\
  location_hash (snd loaded) = location_hash (snd clicked) /\
  active_at (nodes (snd loaded)) t = true /\
  active_at (nodes (snd loaded)) b = true /\
  forall j n, j <> t -> j <> b -> nodes (snd loaded) !! j = Some n ->
    has_class "tab-content" n || has_class "tab-button" n = true ->
    has_class "active" n = false.
Proof.
  intros Htab [i Hi] Ht Hb. cbv zeta.
  assert (Hid : forall (id c : string) (l : list Node),
             getElementById id (deactivate c l) = getElementById id l).
  { intros. unfold getElementById. destruct (String.eqb id EmptyString); [reflexivity |].
    apply find_index_deactivate. reflexivity. }
  assert (Hbt : forall (id c : string) (l : list Node),
             button_of id (deactivate c l) = button_of id l).
  { intros. apply find_index_deactivate. reflexivity. }
  assert (Hba : forall (id : string) (k : nat) (l : list Node),
             button_of id (activate k l) = button_of id l).
  { intros. apply find_index_activate. intros n. unfold classList_add.
    destruct (has_class "active" n); reflexivity. }
  assert (Hswitch : switchTab tabId target v
            = (inr tt,
               {| nodes := activate target
                             (activate i (deactivate "tab-button"
                                            (deactivate "tab-content" (nodes v))));
                  fragment := if String.eqb tabId "peer-a" then "peer1" else "peer2";
                  current := peer_of_tab tabId |})).
  { unfold switchTab. cbn [nodes with_nodes]. rewrite !Hid, Hi.
    destruct Htab as [-> | ->]; reflexivity. }
  assert (Hclicked : forall l : list Node,
    initializeFromHash
      (reload page
         {| nodes := l;
            fragment := if String.eqb tabId "peer-a" then "peer1" else "peer2";
            current := peer_of_tab tabId |})
    = (inr tt,
       {| nodes := activate b (activate t (deactivate "tab-button"
                                             (deactivate "tab-content" page)));
          fragment := if String.eqb tabId "peer-a" then "peer1" else "peer2";
          current := peer_of_tab tabId |})).
  { intros l. unfold initializeFromHash, reload, location_hash.
    destruct Htab as [-> | ->]; cbv -[activate deactivate getElementById button_of];
      rewrite !Hid, Ht; cbv -[activate deactivate getElementById button_of];
      rewrite Hba, !Hbt, Hb; reflexivity. }
  rewrite Hswitch. cbn [fst snd].
  rewrite Hclicked. cbn [fst snd nodes current fragment].
  assert (Hnt : exists nt, page !! t = Some nt).
  { unfold getElementById in Ht. destruct (String.eqb tabId EmptyString); [discriminate Ht |].
    destruct (find_index_Some _ _ _ Ht) as (nt & Hnt & _). exists nt. exact Hnt. }
  destruct Hnt as (nt & Hnt).
  destruct (find_index_Some _ _ _ Hb) as (nb & Hnb & _).
  assert (Hlen : forall k m, page !! k = Some m ->
             is_Some (deactivate "tab-button" (deactivate "tab-content" page) !! k)).
  { intros k m Hk. unfold deactivate. rewrite !list_lookup_fmap, Hk. eexists; reflexivity. }
  split; [reflexivity |]. split; [reflexivity |]. split; [reflexivity |].
  split; [unfold location_hash, hash_of_tab; destruct Htab as [-> | ->]; reflexivity |].
  split; [reflexivity |]. split; [reflexivity |].
  split; [| split].
  - apply active_after_activate, active_at_activated. eapply Hlen, Hnt.
  - apply active_at_activated. rewrite activate_lookup.
    case_decide; [subst; apply fmap_is_Some |]; eapply Hlen, Hnb.
  - intros j n Hjt Hjb. rewrite !activate_lookup, !decide_False by congruence.
    apply swept_inactive.
Qed.

End TabSwitch.

(** ** The properties at concrete inputs *)

Lemma reset_keeps_gathering_timer_witness :
  timers Scenario.offer_round !! 1%positive = Some Scenario.gathering_timer /\
  timers (step RefHost.host Scenario.offer_round Click_resetPeer) !! 1%positive
  = Some Scenario.gathering_timer /\
  timers (step RefHost.host (step RefHost.host Scenario.offer_round Click_resetPeer)
            (TimerFired 1)) !! 1%positive = None.
Proof.
  assert (Htm : timers Scenario.offer_round !! 1%positive = Some Scenario.gathering_timer)
    by (vm_compute; reflexivity).
  split; [exact Htm |].
  pose proof (reset_keeps_gathering_timer RefHost.host Scenario.offer_round 1
                Scenario.gathering_timer Htm eq_refl eq_refl) as H.
  cbv zeta in H. destruct H as (H1 & H2 & _). split; assumption.
Defined.

Lemma reset_keeps_suspended_offer_witness :
  pending Cases.offer_created !! 0%nat = Some (OfferLocalSet "v=0") /\
  completions
    (Scenario.run Cases.offer_created
       [Click_resetPeer; PromiseSettled 0 (Resolved EmptyString);
        TimerFired (nextTimer Cases.offer_created)]) = 1%nat.
Proof.
  assert (Hk : pending Cases.offer_created !! 0%nat = Some (OfferLocalSet "v=0"))
    by (vm_compute; reflexivity).
  split; [exact Hk |].
  pose proof (reset_keeps_suspended_offer RefHost.host Cases.offer_created 0 "v=0"
                EmptyString Hk (or_introl eq_refl)) as H.
  cbv zeta in H. destruct H as (_ & _ & _ & _ & _ & H). exact H.
Defined.

Lemma reset_fails_suspended_description_witness :
  pending Cases.offer_clicked !! 0%nat = Some OfferCreated /\
  el_text (getElementById "statusA"
             (Scenario.run Cases.offer_clicked
                [Click_resetPeer; PromiseSettled 0 (Resolved "v=0")]))
  = [Str "Error"].
Proof.
  assert (Hk : pending Cases.offer_clicked !! 0%nat = Some OfferCreated)
    by (vm_compute; reflexivity).
  split; [exact Hk |].
  pose proof (reset_fails_suspended_description RefHost.host Cases.offer_clicked 0
                OfferCreated "v=0" Hk (or_introl eq_refl)) as H.
  cbv zeta in H. destruct H as (_ & _ & _ & _ & H & _). exact H.
Defined.

Lemma early_gathering_signal_witness :
  currentPeer RefHost.initial = "A" /\
  iceGatheringComplete
    (peer (Scenario.run RefHost.initial
             [Click_createCompleteOffer; PromiseSettled 0 (Resolved "v=0");
              IceCandidateEvent None; PromiseSettled 0 (Resolved EmptyString)])) = true.
Proof.
  split; [reflexivity |].
  pose proof (early_gathering_signal RefHost.host RefHost.initial "v=0" EmptyString
                (or_introl eq_refl)) as H.
  cbv zeta in H. destruct H as (H & _). exact H.
Defined.

Lemma createCompleteAnswer_replays_witness :
  JSON_parse RefHost.host (el_value (getElementById "completeOfferB" Cases.offer_pasted))
  = inr Cases.offer_json /\
  facade (settle_times 0 3 (Resolved EmptyString)
            (exec (Script.createCompleteAnswer RefHost.host) Cases.offer_pasted))
  = [NewPeerConnection 0; SetRemoteDescription 0 "offer" (Some (JStr "v=0"));
     AddIceCandidate 0 (JObj [("candidate", JStr "c1")]);
     AddIceCandidate 0 (JObj [("candidate", JStr "c2")]); CreateAnswer 0].
Proof.
  assert (Hparse : JSON_parse RefHost.host
                     (el_value (getElementById "completeOfferB" Cases.offer_pasted))
                   = inr Cases.offer_json) by (vm_compute; reflexivity).
  split; [exact Hparse |].
  assert (Htrim : JsString.trim (el_value (getElementById "completeOfferB" Cases.offer_pasted))
                  <> EmptyString) by (vm_compute; discriminate).
  pose proof (createCompleteAnswer_replays RefHost.host Cases.offer_pasted Cases.offer_json
                Scenario.answer_candidates (Some (JStr "v=0")) EmptyString
                Htrim Hparse eq_refl eq_refl) as H.
  cbv zeta in H. destruct H as (H & _). exact H.
Defined.

Lemma createCompleteAnswer_stops_at_rejection_witness :
  JSON_parse RefHost.host (el_value (getElementById "completeOfferB" Cases.offer_pasted))
  = inr Cases.offer_json /\
  facade (exec (Script.settle 0 (Rejected (DOMException "bad candidate")))
            (settle_times 0 2 (Resolved EmptyString)
               (exec (Script.createCompleteAnswer RefHost.host) Cases.offer_pasted)))
  = [NewPeerConnection 0; SetRemoteDescription 0 "offer" (Some (JStr "v=0"));
     AddIceCandidate 0 (JObj [("candidate", JStr "c1")]);
     AddIceCandidate 0 (JObj [("candidate", JStr "c2")])].
Proof.
  assert (Hparse : JSON_parse RefHost.host
                     (el_value (getElementById "completeOfferB" Cases.offer_pasted))
                   = inr Cases.offer_json) by (vm_compute; reflexivity).
  split; [exact Hparse |].
  assert (Htrim : JsString.trim (el_value (getElementById "completeOfferB" Cases.offer_pasted))
                  <> EmptyString) by (vm_compute; discriminate).
  pose proof (createCompleteAnswer_stops_at_rejection RefHost.host Cases.offer_pasted
                Cases.offer_json [JObj [("candidate", JStr "c1")]]
                (JObj [("candidate", JStr "c2")]) [] (Some (JStr "v=0")) EmptyString
                (DOMException "bad candidate") Htrim Hparse eq_refl eq_refl) as H.
  cbv zeta in H. destruct H as (H & _). exact H.
Defined.

Lemma createCompleteAnswer_bundle_witness :
  pending Cases.answer_requested = [AnswerCreated] /\
  pc (peer Cases.answer_requested) = Some 0%nat /\
  iceGatheringComplete (peer Cases.answer_requested) = false /\
  completions
    (Scenario.run Cases.answer_requested
       [PromiseSettled 0 (Resolved "v=0"); PromiseSettled 0 (Resolved EmptyString)])
  = completions Cases.answer_requested.
Proof.
  assert (Hp : pending Cases.answer_requested = ([] ++ [AnswerCreated])%list)
    by (vm_compute; reflexivity).
  assert (Hpc : pc (peer Cases.answer_requested) = Some 0%nat) by (vm_compute; reflexivity).
  assert (Hg : iceGatheringComplete (peer Cases.answer_requested) = false)
    by (vm_compute; reflexivity).
  split; [exact Hp |]. split; [exact Hpc |]. split; [exact Hg |].
  pose proof (createCompleteAnswer_bundle RefHost.host Cases.answer_requested [] 0 "v=0"
                EmptyString Hp Hpc Hg) as H.
  cbv zeta in H. destruct H as (_ & _ & _ & _ & _ & _ & H & _). exact H.
Defined.

Lemma bundle_reaches_answerer_witness :
  completeSignalingData (peer Cases.offer_gathered) = Some Scenario.offer_bundle /\
  JSON_parse RefHost.host Cases.published_offer
  = inr (wire_bundle Scenario.offer_bundle
           [Scenario.host_candidate; Scenario.srflx_candidate]) /\
  facade (settle_times (length (pending Cases.offer_received))
            (S (length (Script.read_array (pendingCandidates (peer Cases.offer_gathered))
                          Cases.offer_gathered)))
            (Resolved EmptyString)
            (exec (Script.createCompleteAnswer RefHost.host) Cases.offer_received))
  = [NewPeerConnection 0; SetRemoteDescription 0 "offer" (Some (JStr "v=0"));
     AddIceCandidate 0 (cand_toJSON Scenario.host_candidate);
     AddIceCandidate 0 (cand_toJSON Scenario.srflx_candidate); CreateAnswer 0].
Proof.
  assert (Hb : completeSignalingData (peer Cases.offer_gathered) = Some Scenario.offer_bundle)
    by (vm_compute; reflexivity).
  split; [exact Hb |]. split; [vm_compute; reflexivity |].
  pose proof (bundle_reaches_answerer RefHost.host Cases.offer_gathered Cases.offer_received
                Scenario.offer_bundle EmptyString Hb eq_refl) as H.
  cbv zeta in H.
  assert (Hparse : JSON_parse RefHost.host
                     (el_value (getElementById "completeOfferA"
                                  (exec (Script.completeSignalingReady RefHost.host)
                                     Cases.offer_gathered)))
                   = inr (wire_bundle Scenario.offer_bundle
                            (Script.read_array (pendingCandidates (peer Cases.offer_gathered))
                               Cases.offer_gathered)))
    by (vm_compute; reflexivity).
  assert (Htrim : JsString.trim
                    (el_value (getElementById "completeOfferA"
                                 (exec (Script.completeSignalingReady RefHost.host)
                                    Cases.offer_gathered)))
                  <> EmptyString) by (vm_compute; discriminate).
  assert (Hpaste : el_value (getElementById "completeOfferB" Cases.offer_received)
                   = el_value (getElementById "completeOfferA"
                                 (exec (Script.completeSignalingReady RefHost.host)
                                    Cases.offer_gathered)))
    by (vm_compute; reflexivity).
  destruct (H Hparse Htrim Hpaste) as (_ & Hf). rewrite Hf. vm_compute. reflexivity.
Defined.

Lemma setCompleteAnswer_without_connection_witness :
  JSON_parse RefHost.host (el_value (getElementById "completeAnswerA" Cases.answer_too_early))
  = inr Scenario.answer_json /\
  pc (peer Cases.answer_too_early) = None /\
  facade (exec (Script.setCompleteAnswer RefHost.host) Cases.answer_too_early) = [] /\
  el_text (getElementById "statusA"
             (exec (Script.setCompleteAnswer RefHost.host) Cases.answer_too_early))
  = [Str "Error"].
Proof.
  assert (Hparse : JSON_parse RefHost.host
                     (el_value (getElementById "completeAnswerA" Cases.answer_too_early))
                   = inr Scenario.answer_json) by (vm_compute; reflexivity).
  assert (Htrim : JsString.trim
                    (el_value (getElementById "completeAnswerA" Cases.answer_too_early))
                  <> EmptyString) by (vm_compute; discriminate).
  split; [exact Hparse |]. split; [reflexivity |].
  pose proof (setCompleteAnswer_without_connection RefHost.host Cases.answer_too_early
                Scenario.answer_json (Some (JNum 2)) Htrim Hparse eq_refl eq_refl) as H.
  cbv zeta in H. destruct H as (_ & Hf & _ & _ & _ & Hs & _). split; [exact Hf | exact Hs].
Defined.

Lemma onmessage_recognized_is_not_chat_witness :
  recognized RefHost.host Scenario.pong_1010 = true /\
  document (exec (onmessage RefHost.host Scenario.pong_1010) Scenario.probe_running)
  = document Scenario.probe_running.
Proof.
  assert (Hrec : recognized RefHost.host Scenario.pong_1010 = true)
    by (vm_compute; reflexivity).
  split; [exact Hrec |].
  pose proof (onmessage_recognized_is_not_chat RefHost.host Scenario.pong_1010
                Scenario.probe_running Hrec) as H.
  cbv zeta in H. destruct H as (_ & _ & H & _). exact H.
Defined.

Lemma load_packet_is_counted_witness :
  JSON_parse RefHost.host Cases.load_7
  = inr (JObj [("type", JStr "speed_test"); ("id", JNum 7)]) /\
  bytesReceived (speedTest (exec (handleSpeedTestPacket RefHost.host Cases.load_7)
                              Scenario.probe_ready)) = 28%Z.
Proof.
  assert (Hparse : JSON_parse RefHost.host Cases.load_7
                   = inr (JObj [("type", JStr "speed_test"); ("id", JNum 7)]))
    by (vm_compute; reflexivity).
  split; [exact Hparse |].
  pose proof (load_packet_is_counted RefHost.host Cases.load_7 _ Scenario.probe_ready
                Hparse eq_refl) as H.
  cbv zeta in H. destruct H as (H & _). rewrite H. vm_compute. reflexivity.
Defined.

Lemma ping_pong_latency_witness :
  isRunning (speedTest Scenario.probe_running) = true /\
  channel_not_open Scenario.probe_running = false /\
  channel_not_open Scenario.probe_ready = false /\
  latencyTests
    (speedTest
       (exec (onmessage RefHost.host
                (JSON_stringify RefHost.host
                   (pong_packet (Some (JNum (clock Scenario.probe_running)))
                      (Some (JStr (random_id RefHost.host
                                     (randomCalls Scenario.probe_running))))
                      (clock Scenario.probe_ready)) 0))
          (with_clock 1040 (exec (latencyTest_tick RefHost.host) Scenario.probe_running))))
  = [of_Z 40].
Proof.
  assert (Hrun : isRunning (speedTest Scenario.probe_running) = true)
    by (vm_compute; reflexivity).
  split; [exact Hrun |]. split; [vm_compute; reflexivity |].
  split; [vm_compute; reflexivity |].
  eassert (HA : dc (peer Scenario.probe_running) = Some _) by (vm_compute; reflexivity).
  eassert (HB : dc (peer Scenario.probe_ready) = Some _) by (vm_compute; reflexivity).
  match type of HA with
  | _ = Some ?chA =>
      eassert (HsA : channel_send RefHost.host chA
                       (JSON_stringify RefHost.host
                          (ping_packet (clock Scenario.probe_running)
                             (random_id RefHost.host (randomCalls Scenario.probe_running)))
                          0) = inr _) by (vm_compute; reflexivity)
  end.
  match type of HB with
  | _ = Some ?chB =>
      eassert (HsB : channel_send RefHost.host chB
                       (JSON_stringify RefHost.host
                          (pong_packet (Some (JNum (clock Scenario.probe_running)))
                             (Some (JStr (random_id RefHost.host
                                            (randomCalls Scenario.probe_running))))
                             (clock Scenario.probe_ready)) 0) = inr _)
        by (vm_compute; reflexivity)
  end.
  pose proof (ping_pong_latency RefHost.host Scenario.probe_running Scenario.probe_ready
                _ _ _ _ 1040 Hrun HA eq_refl eq_refl HB eq_refl eq_refl HsA
                ltac:(vm_compute; reflexivity) HsB ltac:(vm_compute; reflexivity)) as H.
  cbv zeta in H. destruct H as (_ & _ & H & _). rewrite H. vm_compute. reflexivity.
Defined.

Lemma pong_without_timestamp_poisons_witness :
  JSON_parse RefHost.host Cases.bare_pong = inr (JObj [("type", JStr "pong")]) /\
  latencyTests (speedTest (exec (handleSpeedTestPacket RefHost.host Cases.bare_pong)
                             Scenario.probe_running)) = [NaN] /\
  fr_avgLatency (finalResults
                   (speedTest (exec (handleSpeedTestPacket RefHost.host Cases.bare_pong)
                                 Scenario.probe_running))) = NaN.
Proof.
  assert (Hparse : JSON_parse RefHost.host Cases.bare_pong
                   = inr (JObj [("type", JStr "pong")])) by (vm_compute; reflexivity).
  split; [exact Hparse |].
  pose proof (pong_without_timestamp_poisons RefHost.host Cases.bare_pong _
                Scenario.probe_running Hparse eq_refl eq_refl) as H.
  cbv zeta in H. destruct H as (Hl & _ & Hf & _).
  split; [rewrite Hl; vm_compute; reflexivity | exact Hf].
Defined.

Lemma packetStream_tick_accounting_witness :
  isRunning (speedTest Scenario.probe_running) = true /\
  channel_not_open Scenario.probe_running = false /\
  tm_callback <$> timers Scenario.probe_running !! 1%positive = Some (PacketStream 0) /\
  tm_callback <$> timers (step RefHost.host Scenario.probe_running (TimerFired 1)) !! 1%positive
  = Some (PacketStream 1).
Proof.
  assert (Hrun : isRunning (speedTest Scenario.probe_running) = true)
    by (vm_compute; reflexivity).
  eassert (Htm : timers Scenario.probe_running !! 1%positive
                 = Some {| tm_callback := PacketStream 0; tm_delay := _; tm_repeat := true |})
    by (vm_compute; reflexivity).
  split; [exact Hrun |]. split; [vm_compute; reflexivity |].
  split; [rewrite Htm; reflexivity |].
  eassert (Hdc : dc (peer Scenario.probe_running) = Some _) by (vm_compute; reflexivity).
  pose proof (packetStream_tick_accounting RefHost.host Scenario.probe_running 1 _ _ 0
                Htm eq_refl eq_refl Hrun Hdc eq_refl) as H.
  cbv zeta in H. destruct H as (Ht & _). rewrite Ht, lookup_insert_eq. reflexivity.
Defined.

Lemma ticks_cancel_themselves_witness :
  channel_not_open Cases.probe_cut = true /\
  testInterval (speedTest Cases.probe_cut) = Some 1%positive /\
  is_Some (timers Cases.probe_cut !! 1%positive) /\
  timers (step RefHost.host Cases.probe_cut (TimerFired 1))
  = delete 1%positive (timers Cases.probe_cut).
Proof.
  assert (Hclosed : channel_not_open Cases.probe_cut = true) by (vm_compute; reflexivity).
  assert (Hh : testInterval (speedTest Cases.probe_cut) = Some 1%positive)
    by (vm_compute; reflexivity).
  eassert (Htm : timers Cases.probe_cut !! 1%positive
                 = Some {| tm_callback := PacketStream 0; tm_delay := _; tm_repeat := true |})
    by (vm_compute; reflexivity).
  split; [exact Hclosed |]. split; [exact Hh |].
  split; [rewrite Htm; eexists; reflexivity |].
  pose proof (ticks_cancel_themselves RefHost.host Cases.probe_cut 1 _ Htm eq_refl Hh
                (or_intror Hclosed)) as H.
  cbv zeta in H. destruct H as (H & _). exact H.
Defined.

Lemma autoStop_outlives_stop_witness :
  isRunning (speedTest Scenario.probe_running) = true /\
  channel_not_open Scenario.probe_running = false /\
  is_Some (timers Scenario.probe_running !! 4%positive) /\
  isRunning
    (speedTest
       (run RefHost.host
          (run RefHost.host (step RefHost.host Scenario.probe_running Click_stopSpeedTest)
             [ClockReads 3000; Click_startSpeedTest])
          [ClockReads 5000; TimerFired 4])) = false.
Proof.
  assert (Hrun : isRunning (speedTest Scenario.probe_running) = true)
    by (vm_compute; reflexivity).
  assert (Hopen : channel_not_open Scenario.probe_running = false)
    by (vm_compute; reflexivity).
  eassert (Htm : timers Scenario.probe_running !! 4%positive
                 = Some {| tm_callback := AutoStop; tm_delay := _; tm_repeat := false |})
    by (vm_compute; reflexivity).
  split; [exact Hrun |]. split; [exact Hopen |].
  split; [rewrite Htm; eexists; reflexivity |].
  assert (Hnext : (4 < nextTimer Scenario.probe_running)%positive)
    by (vm_compute; reflexivity).
  assert (Hnot : not_a_handle 4 (speedTest Scenario.probe_running))
    by (vm_compute; repeat split; discriminate).
  pose proof (autoStop_outlives_stop RefHost.host Scenario.probe_running 4 _ 3000 5000
                Hrun Hopen Htm eq_refl eq_refl Hnext Hnot) as H.
  cbv zeta in H. destruct H as (_ & _ & H & _). exact H.
Defined.

Lemma startSpeedTest_installs_witness :
  channel_not_open Scenario.probe_ready = false /\
  isRunning (speedTest Scenario.probe_ready) = false /\
  testInterval (speedTest (exec (startSpeedTest RefHost.host) Scenario.probe_ready))
  = Some (nextTimer Scenario.probe_ready).
Proof.
  assert (Hopen : channel_not_open Scenario.probe_ready = false)
    by (vm_compute; reflexivity).
  assert (Hidle : isRunning (speedTest Scenario.probe_ready) = false)
    by (vm_compute; reflexivity).
  split; [exact Hopen |]. split; [exact Hidle |].
  pose proof (startSpeedTest_installs RefHost.host Scenario.probe_ready Hopen Hidle) as H.
  cbv zeta in H. destruct H as (_ & (_ & H & _) & _). exact H.
Defined.

Lemma zero_duration_throughput_witness :
  isRunning (speedTest Scenario.probe_running) = true /\
  startTime (speedTest Scenario.probe_running) = Some (clock Scenario.probe_running) /\
  fr_avgThroughput (finalResults (speedTest (exec stopSpeedTest Scenario.probe_running)))
  = NaN.
Proof.
  assert (Hrun : isRunning (speedTest Scenario.probe_running) = true)
    by (vm_compute; reflexivity).
  assert (Hstart : startTime (speedTest Scenario.probe_running)
                   = Some (clock Scenario.probe_running)) by (vm_compute; reflexivity).
  split; [exact Hrun |]. split; [exact Hstart |].
  pose proof (zero_duration_throughput Scenario.probe_running Hrun Hstart) as H.
  cbv zeta in H. destruct H as (_ & H & _). rewrite H. vm_compute. reflexivity.
Defined.

Lemma progress_is_bounded_witness :
  testDuration (speedTest Scenario.probe_running) = Some 10%Z /\
  startTime (speedTest Scenario.probe_running) = Some 1000%Z /\
  exists p : R,
    el_width (getElementById ("progressBar" ++ currentPeer Scenario.probe_running)
                (snd (statsCollection_tick 1000 0 Scenario.probe_running)))
    = [Num (Fin p); Str "%"] /\
    (0 <= p <= 100)%R.
Proof.
  assert (Hd : testDuration (speedTest Scenario.probe_running) = Some 10%Z)
    by (vm_compute; reflexivity).
  assert (Hs : startTime (speedTest Scenario.probe_running) = Some 1000%Z)
    by (vm_compute; reflexivity).
  split; [exact Hd |]. split; [exact Hs |].
  assert (Hclock : (1000 <= clock Scenario.probe_running)%Z) by (vm_compute; discriminate).
  pose proof (progress_is_bounded Scenario.probe_running 1000 0 10 1000 Hd
                ltac:(reflexivity) Hs Hclock) as H.
  cbv zeta in H. destruct H as (p & Hw & Hp & _). exists p. split; [exact Hw | exact Hp].
Defined.

Lemma candidate_fields_are_logged_witness :
  candidate Scenario.host_candidate = join_space Cases.host_fields /\
  Script.read_array (pendingCandidates (peer Scenario.offer_round))
    (step RefHost.host Scenario.offer_round (IceCandidateEvent (Some Scenario.host_candidate)))
  = (Script.read_array (pendingCandidates (peer Scenario.offer_round)) Scenario.offer_round
     ++ [Scenario.host_candidate])%list.
Proof.
  assert (Hjoin : candidate Scenario.host_candidate = join_space Cases.host_fields)
    by reflexivity.
  split; [exact Hjoin |].
  assert (Hne : Cases.host_fields <> []) by discriminate.
  assert (Hsp : Forall spaceless Cases.host_fields).
  { unfold Cases.host_fields, spaceless. repeat constructor. }
  pose proof (candidate_fields_are_logged RefHost.host Scenario.host_candidate
                Cases.host_fields Scenario.offer_round Hne Hsp Hjoin) as H.
  cbv zeta in H. destruct H as (_ & H). exact H.
Defined.

Lemma probe_invariant_holds_witness :
  probe_invariant (speedTest RefHost.initial) /\
  probe_invariant
    (speedTest (run RefHost.host RefHost.initial
                  [Click_createCompleteOffer; ChannelStateChange open; ClockReads 1000;
                   Click_startSpeedTest; TimerFired 1; Click_stopSpeedTest])).
Proof.
  assert (Hinit : probe_invariant (speedTest RefHost.initial)).
  { unfold probe_invariant. cbn. repeat split; try lia; discriminate. }
  split; [exact Hinit |].
  pose proof (probe_invariant_holds RefHost.host RefHost.initial
                [Click_createCompleteOffer; ChannelStateChange open; ClockReads 1000;
                 Click_startSpeedTest; TimerFired 1; Click_stopSpeedTest] 0 0 Hinit) as H.
  cbv zeta in H. destruct H as (H & _). exact H.
Defined.

Lemma tab_survives_reload_witness :
  Tabs.getElementById "peer-b" Cases.two_tabs = Some 1%nat /\
  Tabs.button_of "peer-b" Cases.two_tabs = Some 3%nat /\
  Tabs.current
    (snd (Tabs.initializeFromHash
            (Tabs.reload Cases.two_tabs (snd (Tabs.switchTab "peer-b" 3 Cases.first_visit)))))
  = "B" /\
  active_at
    (Tabs.nodes
       (snd (Tabs.initializeFromHash
               (Tabs.reload Cases.two_tabs
                  (snd (Tabs.switchTab "peer-b" 3 Cases.first_visit)))))) 1 = true.
Proof.
  assert (Ht : Tabs.getElementById "peer-b" Cases.two_tabs = Some 1%nat) by reflexivity.
  assert (Hb : Tabs.button_of "peer-b" Cases.two_tabs = Some 3%nat) by reflexivity.
  split; [exact Ht |]. split; [exact Hb |].
  pose proof (tab_survives_reload "peer-b" 3 Cases.first_visit Cases.two_tabs 1 3
                (or_intror eq_refl) (ex_intro _ 1%nat Ht) Ht Hb) as H.
  cbv zeta in H. destruct H as (_ & _ & Hc & _ & Hl & _ & Ha & _).
  split; [rewrite Hl; exact Hc | exact Ha].
Defined.

(** A message of one no-break space is blank. *)
Example sendMessage_no_break_space :
  Chat.sendMessage RefHost.host Runs.nbsp_typed
  = alert "Please enter a message!" Runs.nbsp_typed.
Proof.
  destruct (sendMessage_outcomes RefHost.host Runs.nbsp_typed) as (H & _).
  apply H. vm_compute. reflexivity.
Qed.
